(** * Rule-based medical diet recommendation: rule engine, calculators, planner

    A shallow embedding of the core of the recommender
    (app/rules/engine.py, app/services/calculators.py,
    app/services/planner.py, app/config.py, and the records of
    app/data/schema.py and app/data/foods.py), followed by the properties
    established about it.

    Conventions of the embedding.
    - Python [int] is [Z]; Python [float] is IEEE binary64, taken from the
      Standard Library's executable specification [SpecFloat] with
      precision 53 and maximal exponent 1024, so every floating-point
      operation below rounds exactly as CPython's does.
    - Python [str] is [string]; [lower] and [strip] act on the ASCII range.
    - Python [set] of strings is [gset string]; Python [list] is [list].
    - Operations that raise in Python ([round] and [int] of a NaN or an
      infinity) return [None]. *)

From stdpp Require Import gmap strings list.
From Stdlib Require Import ZArith QArith Qabs Qpower Floats.SpecFloat Ascii String
  DecimalString Sorted Lia Lqa.

Open Scope Z_scope.

(* ===================================================================== *)
(** * Binary64 arithmetic as Python performs it                           *)
(* ===================================================================== *)

Module Float.

Definition prec : Z := 53.
Definition emax : Z := 1024.

Abbreviation float := spec_float.

  (** [float(n)] for an integer [n]: the nearest double, ties to even.
      (Python raises OverflowError beyond the double range, where this
      gives an infinity; the integers of this program are small literals,
      catalog values and rounded doubles.) *)
Definition of_Z (z : Z) : float := binary_normalize prec emax z 0 false.

Definition add : float -> float -> float := SFadd prec emax.
Definition sub : float -> float -> float := SFsub prec emax.
Definition mul : float -> float -> float := SFmul prec emax.
  (** Every divisor in the modelled code is a non-zero constant or a sum of
      positive constants, so Python's ZeroDivisionError does not arise. *)
Definition div : float -> float -> float := SFdiv prec emax.

Definition ltb : float -> float -> bool := SFltb.
Definition leb : float -> float -> bool := SFleb.
Definition eqb : float -> float -> bool := SFeqb.

  (** A decimal literal [n/d] of the source text (d a power of ten, both
      below 2^53): the double nearest to the decimal value, which a
      correctly rounded division of the two integers yields. *)
Definition lit (n d : Z) : float := div (of_Z n) (of_Z d).

  (** Truth value of a float: zero (of either sign) is false. *)
Definition truthy (x : float) : bool :=
    match x with
    | S754_zero _ => false
    | _ => true
    end.

  (** [abs(x)]. *)
Definition abs : float -> float := SFabs.

  (** [max(a, b)] and [min(a, b)]: the first argument is kept unless the
      second is strictly greater (smaller). *)
Definition max (a b : float) : float := if ltb a b then b else a.
Definition min (a b : float) : float := if ltb b a then b else a.

  (** Round the rational [num/den] to the nearest integer, ties to even. *)
Definition round_half_even (num : Z) (den : positive) : Z :=
    let q := num / Zpos den in
    let r := num mod Zpos den in
    match 2 * r ?= Zpos den with
    | Lt => q
    | Gt => q + 1
    | Eq => if Z.even q then q else q + 1
    end.

  (** The exact value of a finite float as a fraction. *)
Definition to_frac (x : float) : option (Z * positive) :=
    match x with
    | S754_zero _ => Some (0, 1%positive)
    | S754_finite s m e =>
        let sm := if s then Zneg m else Zpos m in
        match e with
        | Zneg p => Some (sm, Pos.pow 2 p)
        | _ => Some (sm * 2 ^ e, 1%positive)
        end
    | _ => None
    end.

  (** The exact value of a finite float as a rational in lowest terms. *)
Definition to_Q (x : float) : option Q :=
    match to_frac x with
    | Some (n, d) => Some (Qred (Qmake n d))
    | None => None
    end.

  (** [round(x)]: an [int], ties to even; raises on NaN and infinities. *)
Definition py_round (x : float) : option Z :=
    match to_frac x with
    | Some (n, d) => Some (round_half_even n d)
    | None => None
    end.

  (** [int(x)]: truncation toward zero; raises on NaN and infinities. *)
Definition py_int (x : float) : option Z :=
    match to_frac x with
    | Some (n, d) => Some (Z.quot n (Zpos d))
    | None => None
    end.

Definition sign_bit (x : float) : bool :=
    match x with
    | S754_zero s | S754_infinity s | S754_finite s _ _ => s
    | S754_nan => false
    end.

  (** [round(x, ndigits)] for [ndigits >= 0]: the exact value is rounded
      to [ndigits] decimals (ties to even) and the decimal result is
      converted back to the nearest double; NaN and infinities are
      returned unchanged. *)
Definition py_round_nd (x : float) (ndigits : positive) : float :=
    match to_frac x with
    | Some (n, d) =>
        let p := Pos.pow 10 ndigits in
        match round_half_even (n * Zpos p) d with
        | Z0 => S754_zero (sign_bit x)
        | Zpos k => div (S754_finite false k 0) (S754_finite false p 0)
        | Zneg k => div (S754_finite true k 0) (S754_finite false p 0)
        end
    | None => x
    end.

  (** [c < x] for an integer [c] and a float [x]: Python compares the two
      exact values. *)
Definition Z_ltb (c : Z) (x : float) : bool :=
    match x with
    | S754_nan => false
    | S754_infinity s => negb s
    | _ =>
        match to_frac x with
        | Some (n, d) => c * Zpos d <? n
        | None => false
        end
    end.

  (** [x >= c] for a float [x] and an integer [c], compared exactly. *)
Definition geb_Z (x : float) (c : Z) : bool :=
    match x with
    | S754_nan => false
    | S754_infinity s => negb s
    | _ =>
        match to_frac x with
        | Some (n, d) => c * Zpos d <=? n
        | None => false
        end
    end.

End Float.

Abbreviation float := spec_float.

(* ===================================================================== *)
(** * Text                                                                *)
(* ===================================================================== *)

Definition lower_ascii (c : ascii) : ascii :=
  let n := nat_of_ascii c in
  if ((65 <=? n) && (n <=? 90))%nat then ascii_of_nat (n + 32) else c.

(** [s.lower()]. *)
Fixpoint lower (s : string) : string :=
  match s with
  | EmptyString => EmptyString
  | String c r => String (lower_ascii c) (lower r)
  end.

Definition is_space (c : ascii) : bool :=
  let n := nat_of_ascii c in
  (((9 <=? n) && (n <=? 13)) || ((28 <=? n) && (n <=? 32)))%nat.

Fixpoint lstrip (s : string) : string :=
  match s with
  | EmptyString => EmptyString
  | String c r => if is_space c then lstrip r else s
  end.

(** Drop trailing white space. *)
Fixpoint rstrip (s : string) : string :=
  match s with
  | EmptyString => EmptyString
  | String c r =>
      match rstrip r with
      | EmptyString => if is_space c then EmptyString else String c EmptyString
      | r' => String c r'
      end
  end.

(** [s.strip()]. *)
Definition strip (s : string) : string := rstrip (lstrip s).

(** [needle in text] for two strings: substring test. *)
Fixpoint contains (text needle : string) : bool :=
  String.prefix needle text ||
  match text with
  | EmptyString => false
  | String _ r => contains r needle
  end.

(** [x in xs] for a list of strings. *)
Definition mem (x : string) (xs : list string) : bool :=
  existsb (String.eqb x) xs.

(** [x in s] for a set of strings. *)
Definition smem (x : string) (s : gset string) : bool :=
  bool_decide (x ∈ s).

(** [{f(x) for x in xs}]. *)
Definition set_of (xs : list string) : gset string := list_to_set xs.

(** [bool(s)] for a set: non-empty. *)
Definition nonempty (s : gset string) : bool := negb (bool_decide (s = ∅)).

(** [any(pred(x) for x in s)] over a set; the order of enumeration does
    not affect the result. *)
Definition any_of (pred : string -> bool) (s : gset string) : bool :=
  existsb pred (elements s).

(* ===================================================================== *)
(** * Data model (app/data/schema.py, app/data/foods.py)                  *)
(* ===================================================================== *)

Module PersonalDetails.
Record t := mk {
    age : Z;
    gender : string;
    height_cm : float;
    weight_kg : float;
    bmi : option float;
    body_type : option string
  }.
End PersonalDetails.

Module MedicalParameters.
Record t := mk {
    conditions : list string;
    allergies : list string;
    medications : list string;
    blood_sugar_mgdl : option float;
    blood_pressure : option (Z * Z);
    cholesterol_mgdl : option float;
    hemoglobin_gdl : option float
  }.
End MedicalParameters.

Module DietaryPreferences.
Record t := mk {
    diet_type : string;
    likes : list string;
    dislikes : list string;
    preferred_cuisine : list string;
    meal_frequency : Z;
    snacking_preference : string
  }.
End DietaryPreferences.

Module LifestyleParameters.
Record t := mk {
    activity_level : string;
    exercise_routine : string;
    sleep_hours : float;
    stress_level : string
  }.
End LifestyleParameters.

Module NutritionalRequirements.
Record t := mk {
    daily_calories : option Z;
    protein_g : option float;
    carbs_g : option float;
    fats_g : option float;
    salt_limit_g : option float;
    sugar_limit_g : option float;
    water_liters : option float
  }.
End NutritionalRequirements.

Module SpecialDietRules.
Record t := mk {
    low_gi : bool;
    low_sodium : bool;
    high_fiber : bool;
    renal : bool;
    high_protein : bool;
    anti_inflammatory : bool;
    weight_gain : bool;
    weight_loss : bool;
    gluten_free : bool;
    lactose_free : bool
  }.
End SpecialDietRules.

Module UserProfile.
Record t := mk {
    personal : PersonalDetails.t;
    medical : MedicalParameters.t;
    dietary : DietaryPreferences.t;
    lifestyle : LifestyleParameters.t;
    nutrition : NutritionalRequirements.t;
    special : SpecialDietRules.t
  }.
End UserProfile.

Module FoodItem.
Record t := mk {
    name : string;
    calories : Z;
    protein_g : float;
    carbs_g : float;
    fat_g : float;
    fiber_g : float;
    sodium_mg : Z;
    gi : string;
    tags : list string;
    diet_types : list string;
    meal_types : list string;
    cuisines : list string;
    allergens : list string
  }.
End FoodItem.

(* ===================================================================== *)
(** * Tables (app/config.py)                                              *)
(* ===================================================================== *)

(** A Python [dict] with string keys, in insertion order. *)
Abbreviation dict V := (list (string * V)).

Fixpoint dict_get {V} (d : dict V) (k : string) : option V :=
  match d with
  | [] => None
  | (k', v) :: r => if String.eqb k k' then Some v else dict_get r k
  end.

(** [d[k] = v]: an existing key keeps its position. *)
Fixpoint dict_set {V} (d : dict V) (k : string) (v : V) : dict V :=
  match d with
  | [] => [(k, v)]
  | (k', v') :: r =>
      if String.eqb k k' then (k, v) :: r else (k', v') :: dict_set r k v
  end.

Definition dict_keys {V} (d : dict V) : list string := map fst d.
Definition dict_values {V} (d : dict V) : list V := map snd d.

(** [d[k]] for a key that the code has put in [d]; the fallback is never
    reached on the dictionaries below. *)
Definition item (d : dict float) (k : string) : float :=
  match dict_get d k with
  | Some v => v
  | None => S754_nan
  end.

Definition DEFAULT_MEAL_SPLIT : dict float :=
  [ ("breakfast", Float.lit 25 100);
    ("lunch", Float.lit 35 100);
    ("dinner", Float.lit 30 100);
    ("snacks", Float.lit 10 100) ].

Definition ACTIVITY_FACTORS : dict float :=
  [ ("sedentary", Float.lit 12 10);
    ("light", Float.lit 1375 1000);
    ("moderate", Float.lit 155 100);
    ("active", Float.lit 1725 1000);
    ("athlete", Float.lit 19 10) ].

Definition STRESS_MULTIPLIER : dict float :=
  [ ("low", Float.lit 10 10);
    ("moderate", Float.lit 103 100);
    ("high", Float.lit 106 100) ].

(* ===================================================================== *)
(** * Rule engine (app/rules/engine.py)                                   *)
(* ===================================================================== *)

Module ConstraintSpec.
Record t := mk {
    required_tags : gset string;
    prefer_tags : gset string;
    avoid_tags : gset string;
    avoid_names : gset string;
    exclude_allergens : gset string;
    diet_types_allowed : gset string;
    cuisine_preferences : list string;
    max_sodium_mg : option Z
  }.
End ConstraintSpec.

Definition _contains_any (text : string) (needles : gset string) : bool :=
  let t := lower text in
  any_of (fun n => contains t n) needles.

(** [profile.medical.cholesterol_mgdl and profile.medical.cholesterol_mgdl >= 200] *)
Definition high_cholesterol (profile : UserProfile.t) : bool :=
  match MedicalParameters.cholesterol_mgdl (UserProfile.medical profile) with
  | Some x => Float.truthy x && Float.geb_Z x 200
  | None => false
  end.

(** The local variables of [build_constraints] that the rules update. *)
Module Locals.
Record t := mk {
  required : gset string;
  prefer : gset string;
  avoid : gset string;
  avoid_names : gset string;
  allergens : gset string;
  sodium_limit : option Z;
  explanations : list string
}.
End Locals.

(** [required.add(x)] / [required.update(xs)], and likewise for the other
    locals. *)
Definition required_update (xs : gset string) (st : Locals.t) : Locals.t :=
  Locals.mk (Locals.required st ∪ xs) (Locals.prefer st) (Locals.avoid st)
    (Locals.avoid_names st) (Locals.allergens st) (Locals.sodium_limit st)
    (Locals.explanations st).

Definition prefer_update (xs : gset string) (st : Locals.t) : Locals.t :=
  Locals.mk (Locals.required st) (Locals.prefer st ∪ xs) (Locals.avoid st)
    (Locals.avoid_names st) (Locals.allergens st) (Locals.sodium_limit st)
    (Locals.explanations st).

Definition avoid_update (xs : gset string) (st : Locals.t) : Locals.t :=
  Locals.mk (Locals.required st) (Locals.prefer st) (Locals.avoid st ∪ xs)
    (Locals.avoid_names st) (Locals.allergens st) (Locals.sodium_limit st)
    (Locals.explanations st).

Definition avoid_names_update (xs : gset string) (st : Locals.t) : Locals.t :=
  Locals.mk (Locals.required st) (Locals.prefer st) (Locals.avoid st)
    (Locals.avoid_names st ∪ xs) (Locals.allergens st) (Locals.sodium_limit st)
    (Locals.explanations st).

Definition allergens_add (x : string) (st : Locals.t) : Locals.t :=
  Locals.mk (Locals.required st) (Locals.prefer st) (Locals.avoid st)
    (Locals.avoid_names st) (Locals.allergens st ∪ {[ x ]})
    (Locals.sodium_limit st) (Locals.explanations st).

(** [sodium_limit = 1500 if sodium_limit is None else min(sodium_limit, 1500)] *)
Definition sodium_limit_cap (st : Locals.t) : Locals.t :=
  Locals.mk (Locals.required st) (Locals.prefer st) (Locals.avoid st)
    (Locals.avoid_names st) (Locals.allergens st)
    (match Locals.sodium_limit st with
     | None => Some 1500
     | Some s => Some (Z.min s 1500)
     end)
    (Locals.explanations st).

Definition explanations_append (x : string) (st : Locals.t) : Locals.t :=
  Locals.mk (Locals.required st) (Locals.prefer st) (Locals.avoid st)
    (Locals.avoid_names st) (Locals.allergens st) (Locals.sodium_limit st)
    (Locals.explanations st ++ [x]).

(** The rules, in the order of the source. *)

Definition rule_diabetes (conditions : gset string) (st : Locals.t) : Locals.t :=
  if smem "diabetes" conditions then
    let st := required_update {[ "low_gi" ]} st in
    let st := prefer_update {[ "high_fiber" ]} st in
    let st := avoid_update {[ "high_gi"; "refined_sugar"; "refined_carbs" ]} st in
    explanations_append
      "Applied diabetes rules: prefer low GI, high fiber; avoid refined sugar/carbs." st
  else st.

Definition rule_hypertension (conditions : gset string)
    (profile : UserProfile.t) (st : Locals.t) : Locals.t :=
  if smem "hypertension" conditions
     || SpecialDietRules.low_sodium (UserProfile.special profile) then
    let st := prefer_update {[ "low_sodium" ]} st in
    let st := avoid_update {[ "high_sodium" ]} st in
    let st := sodium_limit_cap st in
    explanations_append
      "Applied hypertension/low sodium rules: limit sodium ~1500 mg/day, avoid high-sodium foods." st
  else st.

Definition rule_heart (conditions : gset string)
    (profile : UserProfile.t) (st : Locals.t) : Locals.t :=
  if smem "heart disease" conditions || high_cholesterol profile then
    let st := prefer_update {[ "omega3"; "anti_inflammatory"; "low_saturated_fat" ]} st in
    let st := avoid_update {[ "high_saturated_fat"; "fried"; "processed" ]} st in
    explanations_append
      "Applied heart/cholesterol rules: prefer omega-3 and anti-inflammatory; avoid fried/processed/high saturated fat." st
  else st.

Definition rule_kidney (conditions : gset string)
    (profile : UserProfile.t) (st : Locals.t) : Locals.t :=
  if smem "kidney disease" conditions
     || SpecialDietRules.renal (UserProfile.special profile) then
    let st := prefer_update {[ "low_potassium"; "low_phosphorus" ]} st in
    let st := avoid_update {[ "high_potassium"; "high_phosphorus" ]} st in
    (* Conservative: avoid banana and certain legumes in our small catalog *)
    let st := avoid_names_update {[ "banana"; "rajma" ]} st in
    explanations_append
      "Applied renal rules: limit potassium/phosphorus; avoid banana/rajma in this catalog." st
  else st.

Definition rule_pcos (conditions : gset string) (st : Locals.t) : Locals.t :=
  if smem "pcod" conditions || smem "pcos" conditions then
    let st := required_update {[ "low_gi" ]} st in
    let st := prefer_update {[ "anti_inflammatory"; "high_fiber"; "lean_protein" ]} st in
    let st := avoid_update {[ "refined_sugar"; "refined_carbs"; "fried" ]} st in
    explanations_append
      "Applied PCOD/PCOS rules: low GI, anti-inflammatory, high fiber, lean protein." st
  else st.

Definition rule_gastric (conditions : gset string) (st : Locals.t) : Locals.t :=
  if smem "gastric" conditions || smem "gastric issues" conditions then
    let st := avoid_update {[ "spicy"; "fried" ]} st in
    let st := prefer_update {[ "high_fiber" ]} st in
    explanations_append
      "Applied gastric rules: avoid spicy/fried; emphasize gentle fiber and cooked veg." st
  else st.

Definition rule_thyroid (conditions : gset string) (st : Locals.t) : Locals.t :=
  if smem "thyroid" conditions then
    (* Conservative handling: limit soy-heavy items *)
    let st := avoid_names_update {[ "tofu" ]} st in
    explanations_append
      "Applied thyroid caution: limited soy-heavy items (e.g., tofu)." st
  else st.

Definition toggle_low_gi (special : SpecialDietRules.t) (st : Locals.t) : Locals.t :=
  if SpecialDietRules.low_gi special then
    explanations_append "Special: Low GI enabled."
      (required_update {[ "low_gi" ]} st)
  else st.

Definition toggle_high_fiber (special : SpecialDietRules.t) (st : Locals.t) : Locals.t :=
  if SpecialDietRules.high_fiber special then
    explanations_append "Special: High fiber enabled."
      (prefer_update {[ "high_fiber" ]} st)
  else st.

Definition toggle_high_protein (special : SpecialDietRules.t) (st : Locals.t) : Locals.t :=
  if SpecialDietRules.high_protein special then
    explanations_append "Special: High protein enabled."
      (prefer_update {[ "lean_protein" ]} st)
  else st.

Definition toggle_anti_inflammatory (special : SpecialDietRules.t) (st : Locals.t) : Locals.t :=
  if SpecialDietRules.anti_inflammatory special then
    explanations_append "Special: Anti-inflammatory enabled."
      (prefer_update {[ "anti_inflammatory" ]} st)
  else st.

Definition toggle_gluten_free (special : SpecialDietRules.t) (st : Locals.t) : Locals.t :=
  if SpecialDietRules.gluten_free special then
    explanations_append "Special: Gluten-free enabled." (allergens_add "gluten" st)
  else st.

Definition toggle_lactose_free (special : SpecialDietRules.t) (st : Locals.t) : Locals.t :=
  if SpecialDietRules.lactose_free special then
    explanations_append "Special: Lactose-free enabled." (allergens_add "lactose" st)
  else st.

(** The body of [build_constraints] between the initialisation of the
    locals and the construction of the result. *)
Definition apply_rules (profile : UserProfile.t) (conditions : gset string)
    (st : Locals.t) : Locals.t :=
  let special := UserProfile.special profile in
  (* Diseases *)
  let st := rule_diabetes conditions st in
  let st := rule_hypertension conditions profile st in
  let st := rule_heart conditions profile st in
  let st := rule_kidney conditions profile st in
  let st := rule_pcos conditions st in
  let st := rule_gastric conditions st in
  let st := rule_thyroid conditions st in
  (* Special toggles *)
  let st := toggle_low_gi special st in
  let st := toggle_high_fiber special st in
  let st := toggle_high_protein special st in
  let st := toggle_anti_inflammatory special st in
  let st := toggle_gluten_free special st in
  let st := toggle_lactose_free special st in
  st.

Definition build_constraints (profile : UserProfile.t)
  : ConstraintSpec.t * list string :=
  let medical := UserProfile.medical profile in
  let dietary := UserProfile.dietary profile in
  let conditions := set_of (map lower (MedicalParameters.conditions medical)) in
  let required : gset string := ∅ in
  let prefer : gset string := ∅ in
  let avoid : gset string :=
    {[ "fried"; "processed"; "refined_sugar"; "refined_carbs" ]} in
  let avoid_names : gset string := ∅ in
  let allergens := set_of (map lower (MedicalParameters.allergies medical)) in
  let cuisines := map lower (DietaryPreferences.preferred_cuisine dietary) in
  let diet_allowed : gset string := {[ DietaryPreferences.diet_type dietary ]} in
  let sodium_limit : option Z := None in
  let explanations : list string := [] in
  let st :=
    apply_rules profile conditions
      (Locals.mk required prefer avoid avoid_names allergens sodium_limit
         explanations) in
  (ConstraintSpec.mk (Locals.required st) (Locals.prefer st) (Locals.avoid st)
     (Locals.avoid_names st) (Locals.allergens st) diet_allowed cuisines
     (Locals.sodium_limit st),
   Locals.explanations st).

(** ** Stable sorting by a key: [sorted(xs, key=...)] and [xs.sort(key=...)]

    Python's sort is stable; its result is the one stable arrangement of
    the input by non-decreasing key, which insertion from the right
    computes: an element goes in front of the first later element whose
    key is not smaller. *)
Section StableSort.
  Context {A : Type} (le : A -> A -> bool).

Fixpoint insert_sorted (x : A) (l : list A) : list A :=
    match l with
    | [] => [x]
    | y :: r => if le x y then x :: y :: r else y :: insert_sorted x r
    end.

Definition stable_sort (l : list A) : list A :=
    foldr insert_sorted [] l.
End StableSort.

(** ** filter_foods *)

(** The "Required tags" block of [allowed]: [true] when the block does not
    reject the food. *)
Definition required_tags_check (constraints : ConstraintSpec.t)
    (food : FoodItem.t) : bool :=
  if nonempty (ConstraintSpec.required_tags constraints) then
    let req := ConstraintSpec.required_tags constraints in
    let '(low_gi_ok, req) :=
      if smem "low_gi" req then
        (String.eqb (lower (FoodItem.gi food)) "low"
         || existsb (fun t => String.eqb t "low_gi") (FoodItem.tags food),
         req ∖ {[ "low_gi" ]})
      else (true, req) in
    if negb low_gi_ok then false
    else if nonempty req
            && negb (existsb (fun tag => smem tag req) (FoodItem.tags food))
    then false
    else true
  else true.

Definition allowed (profile : UserProfile.t) (constraints : ConstraintSpec.t)
    (dislikes : gset string) (food : FoodItem.t) : bool :=
  (* Diet type *)
  if negb (mem (DietaryPreferences.diet_type (UserProfile.dietary profile))
             (FoodItem.diet_types food)) then false
  (* Allergens *)
  else if existsb (fun a => smem a (ConstraintSpec.exclude_allergens constraints))
            (FoodItem.allergens food) then false
  (* Avoid names *)
  else if _contains_any (FoodItem.name food)
            (ConstraintSpec.avoid_names constraints) then false
  (* Avoid tags *)
  else if existsb (fun tag => smem tag (ConstraintSpec.avoid_tags constraints))
            (FoodItem.tags food) then false
  (* Avoid high GI via GI attribute if requested *)
  else if smem "high_gi" (ConstraintSpec.avoid_tags constraints)
          && String.eqb (lower (FoodItem.gi food)) "high" then false
  (* Required tags *)
  else if negb (required_tags_check constraints food) then false
  (* Dislikes by substring *)
  else if any_of (fun sub => contains (lower (FoodItem.name food)) sub) dislikes
  then false
  else true.

Definition score (constraints : ConstraintSpec.t) (likes : gset string)
    (food : FoodItem.t) : Z :=
  let s := 0 in
  let s :=
    if negb (match ConstraintSpec.cuisine_preferences constraints with
             | [] => true | _ => false end)
       && existsb (fun c => mem c (FoodItem.cuisines food))
            (ConstraintSpec.cuisine_preferences constraints)
    then s + 2 else s in
  let s :=
    if existsb (fun tag => smem tag (ConstraintSpec.prefer_tags constraints))
         (FoodItem.tags food)
    then s + 1 else s in
  let s :=
    if any_of (fun like => contains (lower (FoodItem.name food)) like) likes
    then s + 1 else s in
  - s.

Definition filter_foods (foods : list FoodItem.t) (profile : UserProfile.t)
    (constraints : ConstraintSpec.t) : list FoodItem.t :=
  let dietary := UserProfile.dietary profile in
  let dislikes := set_of (map lower (DietaryPreferences.dislikes dietary)) in
  let likes := set_of (map lower (DietaryPreferences.likes dietary)) in
  let filtered := List.filter (allowed profile constraints dislikes) foods in
  stable_sort
    (fun f g => score constraints likes f <=? score constraints likes g)
    filtered.

(* ===================================================================== *)
(** * Calculators (app/services/calculators.py)                           *)
(* ===================================================================== *)

(** [level or fallback]: an empty string is false. *)
Definition str_or (s fallback : string) : string :=
  match s with
  | EmptyString => fallback
  | _ => s
  end.

Definition _activity_factor (level : string) : float :=
  let level := lower (strip (str_or level "sedentary")) in
  match dict_get ACTIVITY_FACTORS level with
  | Some v => v
  | None => item ACTIVITY_FACTORS "sedentary"
  end.

Definition _stress_factor (level : string) : float :=
  let level := lower (strip (str_or level "moderate")) in
  match dict_get STRESS_MULTIPLIER level with
  | Some v => v
  | None => item STRESS_MULTIPLIER "moderate"
  end.

Definition _bmr_mifflin_st_jeor (profile : UserProfile.t) : float :=
  let personal := UserProfile.personal profile in
  let w := PersonalDetails.weight_kg personal in
  let h := PersonalDetails.height_cm personal in
  let a := PersonalDetails.age personal in
  let g := PersonalDetails.gender personal in
  let base :=
    Float.sub
      (Float.add (Float.mul (Float.of_Z 10) w) (Float.mul (Float.lit 625 100) h))
      (Float.of_Z (5 * a)) in
  if String.eqb g "male" then Float.add base (Float.of_Z 5)
  else if String.eqb g "female" then Float.sub base (Float.of_Z 161)
  else Float.sub base (Float.of_Z 78).

(** The value [tdee] of [estimate_daily_calories] before the final
    rounding. *)
Definition tdee (profile : UserProfile.t) : float :=
  let lifestyle := UserProfile.lifestyle profile in
  let special := UserProfile.special profile in
  let bmr := _bmr_mifflin_st_jeor profile in
  let tdee :=
    Float.mul bmr (_activity_factor (LifestyleParameters.activity_level lifestyle)) in
  let tdee :=
    Float.mul tdee (_stress_factor (LifestyleParameters.stress_level lifestyle)) in
  (* Goal adjustments *)
  if SpecialDietRules.weight_loss special
     && negb (SpecialDietRules.weight_gain special)
  then Float.mul tdee (Float.lit 85 100)
  else if SpecialDietRules.weight_gain special
          && negb (SpecialDietRules.weight_loss special)
  then Float.mul tdee (Float.lit 115 100)
  else tdee.

(** The part of [estimate_daily_calories] after the override test:
    [int(round(tdee))]. *)
Definition tdee_estimate (profile : UserProfile.t) : option Z :=
  Float.py_round (tdee profile).

(** [if x:] for an optional integer: [None] and [0] are false. *)
Definition truthy_int (x : option Z) : bool :=
  match x with
  | Some n => negb (n =? 0)
  | None => false
  end.

(** [if x:] for an optional float: [None] and zero are false. *)
Definition truthy_float (x : option float) : bool :=
  match x with
  | Some v => Float.truthy v
  | None => false
  end.

Definition estimate_daily_calories (profile : UserProfile.t) : option Z :=
  let nutrition := UserProfile.nutrition profile in
  match NutritionalRequirements.daily_calories nutrition with
  | Some n => if negb (n =? 0) then Some n else tdee_estimate profile
  | None => tdee_estimate profile
  end.

Module Macros.
Record t := mk { protein_g : float; carbs_g : float; fats_g : float }.
End Macros.

(** The macro percentages [(p_pct, c_pct, f_pct)] of [compute_macros]
    after all conditional adjustments. *)
Definition macro_percentages (profile : UserProfile.t) : float * float * float :=
  let special := UserProfile.special profile in
  let '(p_pct, c_pct, f_pct) :=
    (Float.lit 20 100, Float.lit 50 100, Float.lit 30 100) in
  let conditions :=
    set_of (map lower (MedicalParameters.conditions (UserProfile.medical profile))) in
  let '(p_pct, c_pct, f_pct) :=
    if smem "diabetes" conditions || SpecialDietRules.low_gi special
    then (Float.lit 25 100, Float.lit 45 100, Float.lit 30 100)
    else (p_pct, c_pct, f_pct) in
  let '(p_pct, c_pct, f_pct) :=
    if SpecialDietRules.high_protein special
    then (Float.lit 30 100, Float.lit 40 100, Float.lit 30 100)
    else (p_pct, c_pct, f_pct) in
  let '(p_pct, c_pct, f_pct) :=
    if SpecialDietRules.weight_loss special then
      let p_pct := Float.max p_pct (Float.lit 30 100) in
      let c_pct := Float.min c_pct (Float.lit 45 100) in
      let f_pct := Float.sub (Float.sub (Float.lit 10 10) p_pct) c_pct in
      (p_pct, c_pct, f_pct)
    else (p_pct, c_pct, f_pct) in
  let '(p_pct, c_pct, f_pct) :=
    if smem "kidney disease" conditions || SpecialDietRules.renal special then
      let p_pct := Float.min p_pct (Float.lit 18 100) in
      let c_pct := Float.max c_pct (Float.lit 47 100) in
      let f_pct := Float.sub (Float.sub (Float.lit 10 10) p_pct) c_pct in
      (p_pct, c_pct, f_pct)
    else (p_pct, c_pct, f_pct) in
  let '(p_pct, c_pct, f_pct) :=
    if smem "heart disease" conditions || high_cholesterol profile then
      let f_pct := Float.min f_pct (Float.lit 30 100) in
      let c_pct := Float.min c_pct (Float.lit 50 100) in
      let p_pct := Float.sub (Float.sub (Float.lit 10 10) f_pct) c_pct in
      (p_pct, c_pct, f_pct)
    else (p_pct, c_pct, f_pct) in
  (p_pct, c_pct, f_pct).

(** The gram values of [compute_macros] before the final rounding. *)
Definition macro_grams (calories : Z) (pcts : float * float * float)
  : float * float * float :=
  let '(p_pct, c_pct, f_pct) := pcts in
  let protein_g := Float.div (Float.mul (Float.of_Z calories) p_pct) (Float.lit 40 10) in
  let carbs_g := Float.div (Float.mul (Float.of_Z calories) c_pct) (Float.lit 40 10) in
  let fats_g := Float.div (Float.mul (Float.of_Z calories) f_pct) (Float.lit 90 10) in
  (protein_g, carbs_g, fats_g).

(** The ratio-derived result of [compute_macros]. *)
Definition macros_from_ratios (profile : UserProfile.t) (calories : Z) : Macros.t :=
  let '(protein_g, carbs_g, fats_g) :=
    macro_grams calories (macro_percentages profile) in
  Macros.mk (Float.py_round_nd protein_g 1)
            (Float.py_round_nd carbs_g 1)
            (Float.py_round_nd fats_g 1).

Definition compute_macros (profile : UserProfile.t) (calories : Z) : Macros.t :=
  let nutrition := UserProfile.nutrition profile in
  match NutritionalRequirements.protein_g nutrition,
        NutritionalRequirements.carbs_g nutrition,
        NutritionalRequirements.fats_g nutrition with
  | Some p, Some c, Some f =>
      if Float.truthy p && Float.truthy c && Float.truthy f
      then Macros.mk p c f
      else macros_from_ratios profile calories
  | _, _, _ => macros_from_ratios profile calories
  end.

(* ===================================================================== *)
(** * Planner (app/services/planner.py, app/utils/helpers.py)             *)
(* ===================================================================== *)

Module MealItem.
Record t := mk {
  name : string;
  calories : Z;
  protein_g : float;
  carbs_g : float;
  fats_g : float;
  fiber_g : float;
  sodium_mg : Z
}.
End MealItem.

Module Totals.
Record t := mk {
  calories : Z;
  protein_g : float;
  carbs_g : float;
  fats_g : float;
  fiber_g : float;
  sodium_mg : Z
}.
End Totals.

Module DayPlan.
Record t := mk {
  meals : dict (list MealItem.t);
  totals : Totals.t;
  meal_split : dict float
}.
End DayPlan.

Definition _to_item (f : FoodItem.t) : MealItem.t :=
  MealItem.mk (FoodItem.name f) (FoodItem.calories f) (FoodItem.protein_g f)
    (FoodItem.carbs_g f) (FoodItem.fat_g f) (FoodItem.fiber_g f)
    (FoodItem.sodium_mg f).

(** [sum(i.calories for i in picked)]: an integer sum. *)
Definition sum_calories (picked : list MealItem.t) : Z :=
  fold_left (fun acc i => acc + MealItem.calories i) picked 0.

(** The sort key [(cal_diff(f), f.sodium_mg)], compared as a tuple. *)
Definition pick_key_le (target_cal : Z) (f g : FoodItem.t) : bool :=
  let cal_diff food := Z.abs (FoodItem.calories food - target_cal) in
  (cal_diff f <? cal_diff g)
  || ((cal_diff f =? cal_diff g)
      && (FoodItem.sodium_mg f <=? FoodItem.sodium_mg g)).

(** [current_cal < 0.6 * target_cal]: the integer against the double. *)
Definition below_60_percent (current_cal target_cal : Z) : bool :=
  Float.Z_ltb current_cal (Float.mul (Float.lit 6 10) (Float.of_Z target_cal)).

Definition _pick_items_for_meal (cands : list FoodItem.t)
    (target_cal sodium_budget : Z) : list MealItem.t :=
  match cands with
  | [] => []
  | _ =>
      let cands_sorted := stable_sort (pick_key_le target_cal) cands in
      (* First choice *)
      match List.find (fun f => FoodItem.sodium_mg f <=? sodium_budget)
              cands_sorted with
      | None => []
      | Some f =>
          let picked := [_to_item f] in
          let sodium_budget := sodium_budget - FoodItem.sodium_mg f in
          (* Optional add-on *)
          let current_cal := sum_calories picked in
          if below_60_percent current_cal target_cal then
            match List.find
                    (fun g =>
                       (FoodItem.calories g <=? target_cal - current_cal)
                       && (FoodItem.sodium_mg g <=? sodium_budget)
                       && negb (String.eqb (FoodItem.name g)
                                  (MealItem.name (_to_item f))))
                    cands_sorted with
            | Some g => picked ++ [_to_item g]
            | None => picked
            end
          else picked
      end
  end.

(** [sum(xs)] over floats: left-to-right additions starting from the
    integer 0. *)
Definition py_sum (xs : list float) : float :=
  fold_left Float.add xs (Float.of_Z 0).

(** The closing loop of [_compute_meal_split]:
    [split[k] = round(split[k] / total, 4)] for every key. *)
Definition normalize_split (split : dict float) (total : float) : dict float :=
  map (fun kv => (fst kv, Float.py_round_nd (Float.div (snd kv) total) 4)) split.

Definition _compute_meal_split (profile : UserProfile.t) : dict float :=
  let dietary := UserProfile.dietary profile in
  let mf := DietaryPreferences.meal_frequency dietary in
  let freq := Z.max 3 (Z.min 6 (if mf =? 0 then 3 else mf)) in
  let snack_pref :=
    lower (str_or (DietaryPreferences.snacking_preference dietary) "moderate") in
  (* Base split for 3 meals *)
  let split := DEFAULT_MEAL_SPLIT in
  let snack_base :=
    match dict_get [ ("low", Float.lit 7 100);
                     ("moderate", Float.lit 10 100);
                     ("high", Float.lit 15 100) ] snack_pref with
    | Some v => v
    | None => Float.lit 10 100
    end in
  let split :=
    if 4 <=? freq then
      let extra := Float.mul (Float.lit 3 100) (Float.of_Z (freq - 3)) in
      let snack_share := Float.min (Float.lit 20 100) (Float.add snack_base extra) in
      let reduce := Float.sub snack_share (item split "snacks") in
      let lunch_dinner_total := Float.add (item split "lunch") (item split "dinner") in
      let split := dict_set split "snacks" snack_share in
      let split :=
        dict_set split "lunch"
          (Float.sub (item split "lunch")
             (Float.mul reduce (Float.div (item split "lunch") lunch_dinner_total))) in
      let split :=
        dict_set split "dinner"
          (Float.sub (item split "dinner")
             (Float.mul reduce (Float.div (item split "dinner") lunch_dinner_total))) in
      split
    else
      let delta := Float.sub snack_base (item split "snacks") in
      if Float.ltb (Float.lit 1 1000000) (Float.abs delta) then
        let split := dict_set split "snacks" snack_base in
        let split := dict_set split "lunch" (Float.sub (item split "lunch") delta) in
        split
      else split in
  (* Normalize minor drift *)
  let total := py_sum (dict_values split) in
  normalize_split split total.

(** [round_nearest(x, base)] = [base * round(x / base)]. *)
Definition round_nearest (x base : float) : option float :=
  match Float.py_round (Float.div x base) with
  | Some n => Some (Float.mul base (Float.of_Z n))
  | None => None
  end.

(** [agg(meal_items)]. *)
Definition agg (meal_items : list MealItem.t) : Totals.t :=
  fold_left
    (fun tot i =>
       Totals.mk (Totals.calories tot + MealItem.calories i)
         (Float.add (Totals.protein_g tot) (MealItem.protein_g i))
         (Float.add (Totals.carbs_g tot) (MealItem.carbs_g i))
         (Float.add (Totals.fats_g tot) (MealItem.fats_g i))
         (Float.add (Totals.fiber_g tot) (MealItem.fiber_g i))
         (Totals.sodium_mg tot + MealItem.sodium_mg i))
    meal_items
    (Totals.mk 0 (Float.of_Z 0) (Float.of_Z 0) (Float.of_Z 0) (Float.of_Z 0) 0).

Definition add_totals (totals mtot : Totals.t) : Totals.t :=
  Totals.mk (Totals.calories totals + Totals.calories mtot)
    (Float.add (Totals.protein_g totals) (Totals.protein_g mtot))
    (Float.add (Totals.carbs_g totals) (Totals.carbs_g mtot))
    (Float.add (Totals.fats_g totals) (Totals.fats_g mtot))
    (Float.add (Totals.fiber_g totals) (Totals.fiber_g mtot))
    (Totals.sodium_mg totals + Totals.sodium_mg mtot).

(** [int(round(split[meal] * calories))]. *)
Definition meal_target_cal (split : dict float) (meal : string) (calories : Z)
  : option Z :=
  Float.py_round (Float.mul (item split meal) (Float.of_Z calories)).

(** One turn of the loop over breakfast, lunch and dinner: the state is the
    [meals] dictionary and the notes written so far. ([sodium_by_meal] has
    every key of [split], so its lookup does not fail.) *)
Definition plan_main_meal (candidates : string -> list FoodItem.t)
    (split : dict float) (sodium_by_meal : dict Z) (calories : Z)
    (st : option (dict (list MealItem.t) * list string)) (meal : string)
  : option (dict (list MealItem.t) * list string) :=
  '(meals, planner_notes) ← st;
  target_cal ← meal_target_cal split meal calories;
  budget ← dict_get sodium_by_meal meal;
  let picks := _pick_items_for_meal (candidates meal) target_cal budget in
  let meals := dict_set meals meal picks in
  let planner_notes :=
    match picks with
    | [] => planner_notes ++
              ["No candidates found for " ++ meal ++
               " meeting constraints; consider relaxing dislikes or cuisines."]%string
    | _ => planner_notes
    end in
  Some (meals, planner_notes).

(** [{m: int(sodium_limit * split[m]) for m in split}]. *)
Fixpoint sodium_budgets (sodium_limit : Z) (split : dict float)
  : option (dict Z) :=
  match split with
  | [] => Some []
  | (m, share) :: r =>
      b ← Float.py_int (Float.mul (Float.of_Z sodium_limit) share);
      bs ← sodium_budgets sodium_limit r;
      Some ((m, b) :: bs)
  end.

(** The "Snacks" block of [assemble_day_plan]. *)
Definition plan_snacks (candidates : string -> list FoodItem.t)
    (split : dict float) (sodium_by_meal : dict Z) (calories : Z)
    (meals : dict (list MealItem.t)) (planner_notes : list string)
  : option (dict (list MealItem.t) * list string) :=
  let snack_cands :=
    match candidates "snacks" with
    | [] => candidates "snack"
    | cs => cs
    end in
  match snack_cands with
  | [] =>
      Some (dict_set meals "snacks" [],
            planner_notes ++ ["No snack candidates available under current constraints."])
  | _ =>
      target_cal ← meal_target_cal split "snacks" calories;
      budget ← dict_get sodium_by_meal "snacks";
      let picks := _pick_items_for_meal snack_cands target_cal budget in
      Some (dict_set meals "snacks" picks, planner_notes)
  end.

(** The "Totals" block of [assemble_day_plan], with the final rounding of
    the gram totals to the nearest 0.1. *)
Definition plan_totals (meals : dict (list MealItem.t)) : option Totals.t :=
  let totals :=
    fold_left (fun totals kv => add_totals totals (agg (snd kv))) meals
      (Totals.mk 0 (Float.of_Z 0) (Float.of_Z 0) (Float.of_Z 0) (Float.of_Z 0) 0) in
  (* Rounding for display neatness *)
  protein ← round_nearest (Totals.protein_g totals) (Float.lit 1 10);
  carbs ← round_nearest (Totals.carbs_g totals) (Float.lit 1 10);
  fats ← round_nearest (Totals.fats_g totals) (Float.lit 1 10);
  fiber ← round_nearest (Totals.fiber_g totals) (Float.lit 1 10);
  Some (Totals.mk (Totals.calories totals) protein carbs fats fiber
          (Totals.sodium_mg totals)).

(** [assemble_day_plan]; the catalog returned by [get_foods()] is the
    parameter [all_foods]. *)
Definition assemble_day_plan (all_foods : list FoodItem.t)
    (profile : UserProfile.t) (calories sodium_limit : Z)
  : option (DayPlan.t * list string) :=
  let '(constraints, _) := build_constraints profile in
  let filtered := filter_foods all_foods profile constraints in
  let split := _compute_meal_split profile in
  sodium_by_meal ← sodium_budgets sodium_limit split;
  let planner_notes : list string := [] in
  let candidates (meal : string) : list FoodItem.t :=
    List.filter (fun f => mem meal (FoodItem.meal_types f)) filtered in
  let meals : dict (list MealItem.t) := map (fun kv => (fst kv, [])) split in
  '(meals, planner_notes) ←
    fold_left (plan_main_meal candidates split sodium_by_meal calories)
      ["breakfast"; "lunch"; "dinner"] (Some (meals, planner_notes));
  (* Snacks: aim for 1 light snack *)
  '(meals, planner_notes) ←
    plan_snacks candidates split sodium_by_meal calories meals planner_notes;
  totals ← plan_totals meals;
  Some (DayPlan.mk meals totals split, planner_notes).

Definition week_days : list string :=
  ["Mon"; "Tue"; "Wed"; "Thu"; "Fri"; "Sat"; "Sun"].

(** One day of the weekly rotation: [idx] is the day's index. The index
    [idx % len(items)] always lies inside a non-empty [items]. *)
Definition rotate_day (day_plan : DayPlan.t) (idx : nat)
  : dict (list MealItem.t) :=
  map (fun kv =>
         let '(meal, items) := kv in
         match items with
         | [] => (meal, [])
         | _ =>
             let rot := (idx mod List.length items)%nat in
             match items !! rot with
             | Some it => (meal, [it])
             | None => (meal, [])
             end
         end)
      (DayPlan.meals day_plan).

Definition generate_weekly_plan (day_plan : DayPlan.t)
  : dict (dict (list MealItem.t)) :=
  imap (fun idx day => (day, rotate_day day_plan idx)) week_days.

(* ===================================================================== *)
(** * Further functions of the same modules                               *)
(* ===================================================================== *)

(** ** explain_rules (app/rules/engine.py) *)

(** [str(n)] for an integer. *)
Definition str_of_Z (n : Z) : string :=
  DecimalString.NilZero.string_of_int (Z.to_int n).

(** [sorted(s)] for a set of strings: the elements in increasing order. *)
Definition sorted_strings (s : gset string) : list string :=
  stable_sort String.leb (elements s).

(** [sep.join(xs)]. *)
Definition join (sep : string) (xs : list string) : string :=
  String.concat sep xs.

Definition explain_rules (explanations : list string)
    (constraints : ConstraintSpec.t) : list string :=
  let notes := explanations in
  let notes :=
    match ConstraintSpec.max_sodium_mg constraints with
    | Some m =>
        notes ++ ["Sodium target set to ~" ++ str_of_Z m ++ " mg/day."]%string
    | None => notes
    end in
  let notes :=
    if nonempty (ConstraintSpec.required_tags constraints) then
      notes ++ ["Required tags: "
                ++ join ", " (sorted_strings (ConstraintSpec.required_tags constraints))]%string
    else notes in
  let notes :=
    if nonempty (ConstraintSpec.prefer_tags constraints) then
      notes ++ ["Preferred tags: "
                ++ join ", " (sorted_strings (ConstraintSpec.prefer_tags constraints))]%string
    else notes in
  let notes :=
    if nonempty (ConstraintSpec.exclude_allergens constraints) then
      notes ++ ["Allergen filters: "
                ++ join ", " (sorted_strings (ConstraintSpec.exclude_allergens constraints))]%string
    else notes in
  notes.

(** ** estimate_water_salt_sugar (app/services/calculators.py) *)

Module Targets.
Record t := mk {
  water_liters : float;
  sodium_mg_limit : Z;
  sugar_g_limit : Z
}.
End Targets.

Definition estimate_water_salt_sugar (profile : UserProfile.t) (calories : Z)
  : option Targets.t :=
  let nutrition := UserProfile.nutrition profile in
  let special := UserProfile.special profile in
  let conditions :=
    set_of (map lower (MedicalParameters.conditions (UserProfile.medical profile))) in
  (* Water *)
  let water_l :=
    match NutritionalRequirements.water_liters nutrition with
    | Some w => w
    | None =>
        let base :=
          Float.mul (Float.lit 3 100)
            (PersonalDetails.weight_kg (UserProfile.personal profile)) in
        let active_bonus :=
          if Float.leb (Float.lit 155 100)
               (_activity_factor
                  (LifestyleParameters.activity_level (UserProfile.lifestyle profile)))
          then Float.lit 5 10 else Float.of_Z 0 in
        Float.max (Float.of_Z 2) (Float.min (Float.of_Z 4) (Float.add base active_bonus))
    end in
  (* Sodium and Sugar *)
  let sodium_mg_limit :=
    match NutritionalRequirements.salt_limit_g nutrition with
    | Some s => Float.mul (Float.mul s (Float.of_Z 1000)) (Float.lit 4 10)
    | None =>
        if smem "hypertension" conditions || SpecialDietRules.low_sodium special
        then Float.of_Z 1500 else Float.of_Z 2000
    end in
  let sugar_g_limit :=
    match NutritionalRequirements.sugar_limit_g nutrition with
    | Some s => s
    | None =>
        if smem "diabetes" conditions || SpecialDietRules.weight_loss special
        then Float.of_Z 25
        else if String.eqb (PersonalDetails.gender (UserProfile.personal profile)) "male"
             then Float.of_Z 36 else Float.of_Z 30
    end in
  let water := Float.py_round_nd water_l 2 in
  sodium ← Float.py_round sodium_mg_limit;
  sugar ← Float.py_round sugar_g_limit;
  Some (Targets.mk water sodium sugar).

(** ** Helpers (app/utils/helpers.py) *)

(** The loop body of [merge_unique]: the state is [(seen, out)]. *)
Definition merge_item (st : gset string * list string) (item : string)
  : gset string * list string :=
  let '(seen, out) := st in
  let key := lower (strip item) in
  if smem key seen then (seen, out)
  else (seen ∪ {[ key ]}, out ++ [item]).

Definition merge_unique (lists : list (list string)) : list string :=
  let seen : gset string := ∅ in
  let out : list string := [] in
  snd (fold_left (fun st lst => fold_left merge_item lst st) lists (seen, out)).

Definition clamp (val low high : float) : float :=
  Float.max low (Float.min high val).

(** ** Normalisation helpers (app/data/schema.py) *)

(** [normalize_gender(g)]; a missing value is the empty string. *)
Definition normalize_gender (g : string) : string :=
  let g := lower (strip g) in
  if mem g ["m"; "male"] then "male"
  else if mem g ["f"; "female"] then "female"
  else "other".

(** [bool(s)] for a string: non-empty. *)
Definition nonempty_str (s : string) : bool :=
  match s with
  | EmptyString => false
  | _ => true
  end.

(** [normalize_list(xs)] for a list of strings; [None] is the empty
    list. *)
Definition normalize_list (xs : list string) : list string :=
  map (fun x => lower (strip x)) (List.filter (fun x => nonempty_str (strip x)) xs).

(** ** Include and avoid lists (app/services/recommender.py) *)

Definition _foods_to_include (filtered_names : list string) : list string :=
  firstn 12 filtered_names.

(** The closing loop of [_foods_to_avoid]: keep the first occurrence of
    every lowercased name. *)
Definition dedupe_item (st : gset string * list string) (x : string)
  : gset string * list string :=
  let '(seen, out) := st in
  let key := lower x in
  if smem key seen then (seen, out)
  else (seen ∪ {[ key ]}, out ++ [x]).

Definition _foods_to_avoid (profile : UserProfile.t) : list string :=
  let special := UserProfile.special profile in
  let cset :=
    set_of (map lower (MedicalParameters.conditions (UserProfile.medical profile))) in
  let avoids : list string := [] in
  let avoids :=
    if smem "diabetes" cset || SpecialDietRules.low_gi special
    then avoids ++ ["refined sugar"; "sweetened beverages"; "white bread";
                    "refined flour"; "desserts"]
    else avoids in
  let avoids :=
    if smem "hypertension" cset || SpecialDietRules.low_sodium special
    then avoids ++ ["pickles"; "papad"; "salted snacks"; "processed meats";
                    "instant noodles"]
    else avoids in
  let avoids :=
    if smem "heart disease" cset
    then avoids ++ ["fried foods"; "trans fat"; "butter-heavy dishes"]
    else avoids in
  let avoids :=
    if smem "kidney disease" cset || SpecialDietRules.renal special
    then avoids ++ ["banana"; "coconut water"; "tomato puree"; "colas"]
    else avoids in
  let avoids :=
    if smem "gastric" cset || smem "gastric issues" cset
    then avoids ++ ["very spicy curries"; "deep-fried snacks"; "carbonated drinks"]
    else avoids in
  let avoids :=
    if SpecialDietRules.gluten_free special
    then avoids ++ ["wheat roti"; "atta"; "barley"]
    else avoids in
  let avoids :=
    if SpecialDietRules.lactose_free special
    then avoids ++ ["milk"; "paneer"; "yogurt"]
    else avoids in
  (* Deduplicate while preserving order *)
  snd (fold_left dedupe_item avoids (∅, [])).

(* ===================================================================== *)
(** * Sample inputs                                                       *)
(* ===================================================================== *)

Definition no_toggles : SpecialDietRules.t :=
  SpecialDietRules.mk false false false false false false false false false false.

Definition no_overrides : NutritionalRequirements.t :=
  NutritionalRequirements.mk None None None None None None None.

(** The profile of the calorie scenario: 45 years, male, 175 cm, 80 kg,
    sedentary, low stress, with the given conditions, diet type, overrides
    and toggles. *)
Definition sample_profile (conditions : list string) (diet_type : string)
    (nutrition : NutritionalRequirements.t) (special : SpecialDietRules.t)
  : UserProfile.t :=
  UserProfile.mk
    (PersonalDetails.mk 45 "male" (Float.of_Z 175) (Float.of_Z 80) None None)
    (MedicalParameters.mk conditions [] [] None None None None)
    (DietaryPreferences.mk diet_type [] [] [] 3 "moderate")
    (LifestyleParameters.mk "sedentary" "none" (Float.of_Z 7) "low")
    nutrition special.

Definition plain_profile : UserProfile.t :=
  sample_profile [] "vegan" no_overrides no_toggles.

(** [profile.medical.allergies.append(a)]. *)
Definition add_allergy (a : string) (profile : UserProfile.t) : UserProfile.t :=
  let m := UserProfile.medical profile in
  UserProfile.mk (UserProfile.personal profile)
    (MedicalParameters.mk (MedicalParameters.conditions m)
       (MedicalParameters.allergies m ++ [a])
       (MedicalParameters.medications m)
       (MedicalParameters.blood_sugar_mgdl m)
       (MedicalParameters.blood_pressure m)
       (MedicalParameters.cholesterol_mgdl m)
       (MedicalParameters.hemoglobin_gdl m))
    (UserProfile.dietary profile) (UserProfile.lifestyle profile)
    (UserProfile.nutrition profile) (UserProfile.special profile).

Definition sample_food (name : string) (calories sodium_mg : Z) (gi : string)
    (tags diet_types meal_types : list string) : FoodItem.t :=
  FoodItem.mk name calories (Float.of_Z 6) (Float.of_Z 30) (Float.of_Z 3)
    (Float.lit 35 10) sodium_mg gi tags diet_types meal_types ["global"] [].

Definition sample_catalog : list FoodItem.t :=
  [ sample_food "Oats porridge" 100 50 "low" ["low_gi"] ["veg"; "vegan"] ["breakfast"];
    sample_food "Fruit bowl" 300 100 "medium" ["high_fiber"] ["veg"; "vegan"] ["breakfast"; "lunch"];
    sample_food "Dal with rice" 500 200 "low" ["low_gi"] ["veg"; "vegan"] ["lunch"; "dinner"];
    sample_food "Roasted chana" 150 10 "low" ["low_gi"] ["veg"; "vegan"] ["snack"];
    sample_food "Paneer curry" 250 900 "low" [] ["veg"] ["dinner"] ].

(* ===================================================================== *)
(** * Vocabulary of the properties                                        *)
(* ===================================================================== *)

(** The second state of the locals holds every tag, name and allergen of
    the first. *)
Definition grows (st st' : Locals.t) : Prop :=
  Locals.required st ⊆ Locals.required st'
  /\ Locals.prefer st ⊆ Locals.prefer st'
  /\ Locals.avoid st ⊆ Locals.avoid st'
  /\ Locals.avoid_names st ⊆ Locals.avoid_names st'
  /\ Locals.allergens st ⊆ Locals.allergens st'.

(** Two states of the locals that agree except that the second may exclude
    more allergens. *)
Definition agree_but_allergens (st st' : Locals.t) : Prop :=
  Locals.required st' = Locals.required st
  /\ Locals.prefer st' = Locals.prefer st
  /\ Locals.avoid st' = Locals.avoid st
  /\ Locals.avoid_names st' = Locals.avoid_names st
  /\ Locals.sodium_limit st' = Locals.sodium_limit st
  /\ Locals.explanations st' = Locals.explanations st
  /\ Locals.allergens st ⊆ Locals.allergens st'.

(** Total sodium of a list of picked items. *)
Definition total_sodium (picked : list MealItem.t) : Z :=
  fold_left (fun acc i => acc + MealItem.sodium_mg i) picked 0.

(** Every entry of a [meals] dictionary holds items made from foods that
    satisfy [P]. *)
Definition meals_from (P : FoodItem.t -> Prop) (meals : dict (list MealItem.t)) : Prop :=
  forall meal items it,
    In (meal, items) meals -> In it items -> exists f, P f /\ it = _to_item f.

(** A day plan with a two-item slot, two one-item slots and an empty
    slot. *)
Definition sample_item (name : string) (calories sodium_mg : Z) : MealItem.t :=
  MealItem.mk name calories (Float.of_Z 6) (Float.of_Z 30) (Float.of_Z 3)
    (Float.lit 35 10) sodium_mg.

Definition sample_day_plan : DayPlan.t :=
  DayPlan.mk
    [ ("breakfast", [sample_item "Oats porridge" 100 50; sample_item "Fruit bowl" 300 100]);
      ("lunch", [sample_item "Dal with rice" 500 200]);
      ("dinner", []);
      ("snacks", [sample_item "Roasted chana" 150 10]) ]
    (Totals.mk 1050 (Float.of_Z 24) (Float.of_Z 120) (Float.of_Z 12) (Float.of_Z 14) 360)
    DEFAULT_MEAL_SPLIT.

(** The scenario profile with daily_calories = 0 and carbs_g = 0.0 among
    otherwise non-zero overrides. *)
Definition zero_calories_profile : UserProfile.t :=
  sample_profile [] "veg"
    (NutritionalRequirements.mk (Some 0) (Some (Float.of_Z 90)) (Some (Float.of_Z 0))
       (Some (Float.of_Z 60)) None None None)
    no_toggles.

(** [compute_macros] takes its first branch: all three overrides are
    present and non-zero. *)
Definition overrides_complete (nutrition : NutritionalRequirements.t) : bool :=
  truthy_float (NutritionalRequirements.protein_g nutrition)
  && truthy_float (NutritionalRequirements.carbs_g nutrition)
  && truthy_float (NutritionalRequirements.fats_g nutrition).

(** One of the three adjustments that recompute a percentage as
    [1.0 - x - y] applies. *)
Definition subtractive_adjustment (profile : UserProfile.t) : bool :=
  let special := UserProfile.special profile in
  let conditions :=
    set_of (map lower (MedicalParameters.conditions (UserProfile.medical profile))) in
  SpecialDietRules.weight_loss special
  || (smem "kidney disease" conditions || SpecialDietRules.renal special)
  || (smem "heart disease" conditions || high_cholesterol profile).

(** The exact sum of three doubles, in lowest terms. *)
Definition exact_sum (x : float * float * float) : option Q :=
  let '(a, b, c) := x in
  match Float.to_Q a, Float.to_Q b, Float.to_Q c with
  | Some qa, Some qb, Some qc => Some (Qred (qa + qb + qc))
  | _, _, _ => None
  end.

(** The sum of three doubles as Python evaluates [a + b + c]. *)
Definition float_sum (x : float * float * float) : float :=
  let '(a, b, c) := x in Float.add (Float.add a b) c.

(** The energy [4*protein_g + 4*carbs_g + 9*fats_g] of gram values, exactly
    and as Python evaluates it. *)
Definition exact_energy (grams : float * float * float) : option Q :=
  let '(p, c, f) := grams in
  match Float.to_Q p, Float.to_Q c, Float.to_Q f with
  | Some qp, Some qc, Some qf => Some (Qred (4 * qp + 4 * qc + 9 * qf))
  | _, _, _ => None
  end.

(** [4 * protein_g + 4 * carbs_g + 9 * fats_g] in binary64. *)
Definition float_energy (grams : float * float * float) : float :=
  let '(p, c, f) := grams in
  Float.add
    (Float.add (Float.mul (Float.of_Z 4) p) (Float.mul (Float.of_Z 4) c))
    (Float.mul (Float.of_Z 9) f).

(** The toggles high_protein and weight_loss, and no other. *)
Definition high_protein_weight_loss : SpecialDietRules.t :=
  SpecialDietRules.mk false false false false true false false true false false.

(** The least integer not below [a / b]. *)
Definition ceil_div (a : Z) (b : positive) : Z := - ((- a) / Zpos b).

(** For the target [t], the double [0.6 * t] separates the integers
    exactly as the rational 3t/5 does. *)
Definition sixty_exact (t : Z) : bool :=
  match Float.to_frac (Float.mul (Float.lit 6 10) (Float.of_Z t)) with
  | Some (n, d) => ceil_div n d =? ceil_div (3 * t) 5
  | None => false
  end.

(** [sixty_exact] on the [fuel] consecutive targets from [t] on. *)
Fixpoint sixty_exact_from (fuel : nat) (t : Z) : bool :=
  match fuel with
  | O => true
  | S k => sixty_exact t && sixty_exact_from k (t + 1)
  end.

(** [profile]'s lowercased condition names, as [build_constraints] computes
    them. *)
Definition conditions_of (profile : UserProfile.t) : gset string :=
  set_of (map lower (MedicalParameters.conditions (UserProfile.medical profile))).

(** The conditions under which the thirteen rules of [build_constraints]
    fire, in the order of the source. *)
Definition rule_triggers (profile : UserProfile.t) : list bool :=
  let cs := conditions_of profile in
  let special := UserProfile.special profile in
  [ smem "diabetes" cs;
    smem "hypertension" cs || SpecialDietRules.low_sodium special;
    smem "heart disease" cs || high_cholesterol profile;
    smem "kidney disease" cs || SpecialDietRules.renal special;
    smem "pcod" cs || smem "pcos" cs;
    smem "gastric" cs || smem "gastric issues" cs;
    smem "thyroid" cs;
    SpecialDietRules.low_gi special;
    SpecialDietRules.high_fiber special;
    SpecialDietRules.high_protein special;
    SpecialDietRules.anti_inflammatory special;
    SpecialDietRules.gluten_free special;
    SpecialDietRules.lactose_free special ].

(** The number of [true] entries. *)
Definition count_true (bs : list bool) : nat :=
  List.length (List.filter (fun b => b) bs).

(** The hard constraints of [filter_foods], as propositions. *)
Definition passes (profile : UserProfile.t) (constraints : ConstraintSpec.t)
    (food : FoodItem.t) : Prop :=
  In (DietaryPreferences.diet_type (UserProfile.dietary profile))
     (FoodItem.diet_types food)
  /\ (forall a, In a (FoodItem.allergens food) ->
                a ∉ ConstraintSpec.exclude_allergens constraints)
  /\ (forall n, n ∈ ConstraintSpec.avoid_names constraints ->
                contains (lower (FoodItem.name food)) n = false)
  /\ (forall tag, In tag (FoodItem.tags food) ->
                  tag ∉ ConstraintSpec.avoid_tags constraints)
  /\ ~ ("high_gi" ∈ ConstraintSpec.avoid_tags constraints
        /\ lower (FoodItem.gi food) = "high")
  /\ required_tags_check constraints food = true
  /\ (forall d, In d (DietaryPreferences.dislikes (UserProfile.dietary profile)) ->
                contains (lower (FoodItem.name food)) (lower d) = false).

(** The preference score of a food: the negated sort key of
    [filter_foods]. *)
Definition preference (profile : UserProfile.t) (constraints : ConstraintSpec.t)
    (food : FoodItem.t) : Z :=
  - score constraints
      (set_of (map lower (DietaryPreferences.likes (UserProfile.dietary profile))))
      food.

(** The plain profile with the dislikes "okra" and the empty string. *)
Definition empty_dislike_profile : UserProfile.t :=
  UserProfile.mk (UserProfile.personal plain_profile)
    (UserProfile.medical plain_profile)
    (DietaryPreferences.mk "vegan" [] ["okra"; EmptyString] [] 3 "moderate")
    (UserProfile.lifestyle plain_profile)
    (UserProfile.nutrition plain_profile)
    (UserProfile.special plain_profile).

(** The four shares of a meal split, in ten-thousandths, and the split
    they stand for. *)
Definition split_of_shares (shares : Z * Z * Z * Z) : dict float :=
  let '(b, l, d, s) := shares in
  [ ("breakfast", Float.lit b 10000); ("lunch", Float.lit l 10000);
    ("dinner", Float.lit d 10000); ("snacks", Float.lit s 10000) ].

(** The splits that [_compute_meal_split] can return. *)
Definition split_table : list (Z * Z * Z * Z) :=
  [ (2500, 3800, 3000, 700); (2500, 3500, 3000, 1000);
    (2500, 3000, 3000, 1500); (2500, 3338, 2862, 1300);
    (2500, 3069, 2631, 1800); (2500, 3177, 2723, 1600);
    (2500, 2962, 2538, 2000); (2500, 3015, 2585, 1900) ].

(** The part of [_compute_meal_split] that follows the computation of
    [freq] and [snack_base]. *)
Definition meal_split_from (freq : Z) (snack_base : float) : dict float :=
  let split := DEFAULT_MEAL_SPLIT in
  let split :=
    if 4 <=? freq then
      let extra := Float.mul (Float.lit 3 100) (Float.of_Z (freq - 3)) in
      let snack_share := Float.min (Float.lit 20 100) (Float.add snack_base extra) in
      let reduce := Float.sub snack_share (item split "snacks") in
      let lunch_dinner_total := Float.add (item split "lunch") (item split "dinner") in
      let split := dict_set split "snacks" snack_share in
      let split :=
        dict_set split "lunch"
          (Float.sub (item split "lunch")
             (Float.mul reduce (Float.div (item split "lunch") lunch_dinner_total))) in
      let split :=
        dict_set split "dinner"
          (Float.sub (item split "dinner")
             (Float.mul reduce (Float.div (item split "dinner") lunch_dinner_total))) in
      split
    else
      let delta := Float.sub snack_base (item split "snacks") in
      if Float.ltb (Float.lit 1 1000000) (Float.abs delta) then
        let split := dict_set split "snacks" snack_base in
        let split := dict_set split "lunch" (Float.sub (item split "lunch") delta) in
        split
      else split in
  let total := py_sum (dict_values split) in
  normalize_split split total.

(** The note that [assemble_day_plan] writes for a main meal without
    picks. *)
Definition main_note (meal : string) (picks : list MealItem.t) : list string :=
  match picks with
  | [] => ["No candidates found for " ++ meal ++
           " meeting constraints; consider relaxing dislikes or cuisines."]%string
  | _ => []
  end.

(** The candidates of a meal in [assemble_day_plan]. *)
Definition meal_candidates (all_foods : list FoodItem.t) (profile : UserProfile.t)
    (meal : string) : list FoodItem.t :=
  List.filter (fun f => mem meal (FoodItem.meal_types f))
    (filter_foods all_foods profile (fst (build_constraints profile))).

(** The snack candidates of [assemble_day_plan]: tagged "snacks", or else
    tagged "snack". *)
Definition snack_candidates (all_foods : list FoodItem.t) (profile : UserProfile.t)
  : list FoodItem.t :=
  match meal_candidates all_foods profile "snacks" with
  | [] => meal_candidates all_foods profile "snack"
  | cs => cs
  end.

(** Calories and sodium of all items of a [meals] dictionary. *)
Definition meals_calories (meals : dict (list MealItem.t)) : Z :=
  fold_left (fun acc kv => acc + sum_calories (snd kv)) meals 0.

Definition meals_sodium (meals : dict (list MealItem.t)) : Z :=
  fold_left (fun acc kv => acc + total_sodium (snd kv)) meals 0.

(** [day_plan.meals.get(meal, [])]: the items of a slot, as [recommend]
    reads them. *)
Definition slot (plan : DayPlan.t) (meal : string) : list MealItem.t :=
  match dict_get (DayPlan.meals plan) meal with
  | Some items => items
  | None => []
  end.

(** The sodium budgets of a split are not negative and add up to at most
    the limit. *)
Definition budgets_fit (sodium_limit : Z) (split : dict float) : bool :=
  match sodium_budgets sodium_limit split with
  | Some budgets =>
      forallb (fun kv => 0 <=? snd kv) budgets
      && (fold_left (fun acc kv => acc + snd kv) budgets 0 <=? sodium_limit)
  | None => false
  end.

(** [budgets_fit] for every split of the list and each of the [fuel]
    limits from [sodium_limit] on. *)
Fixpoint budgets_fit_from (splits : list (dict float)) (fuel : nat)
    (sodium_limit : Z) : bool :=
  match fuel with
  | O => true
  | S n =>
      forallb (budgets_fit sodium_limit) splits
      && budgets_fit_from splits n (sodium_limit + 1)
  end.

(** The note of [assemble_day_plan] about missing snack candidates. *)
Definition snack_note (cands : list FoodItem.t) : list string :=
  match cands with
  | [] => ["No snack candidates available under current constraints."]
  | _ => []
  end.

(** [x.strip().lower()]: the normal form of [normalize_list] and of the
    keys of [merge_unique]. *)
Definition normal_form (x : string) : string := lower (strip x).

(** The scenario profile with the renal toggle, without and with the
    condition heart disease. *)
Definition renal_profile : UserProfile.t :=
  sample_profile [] "veg" no_overrides
    (SpecialDietRules.mk false false false true false false false false false false).

Definition renal_heart_profile : UserProfile.t :=
  sample_profile ["heart disease"] "veg" no_overrides
    (SpecialDietRules.mk false false false true false false false false false false).

(** Every name that [_foods_to_avoid] can list, group after group. *)
Definition all_avoid_names : list string :=
  ["refined sugar"; "sweetened beverages"; "white bread"; "refined flour"; "desserts"]
  ++ ["pickles"; "papad"; "salted snacks"; "processed meats"; "instant noodles"]
  ++ ["fried foods"; "trans fat"; "butter-heavy dishes"]
  ++ ["banana"; "coconut water"; "tomato puree"; "colas"]
  ++ ["very spicy curries"; "deep-fried snacks"; "carbonated drinks"]
  ++ ["wheat roti"; "atta"; "barley"]
  ++ ["milk"; "paneer"; "yogurt"].

(** The three gram values of a result of [compute_macros]. *)
Definition grams_of (macros : Macros.t) : float * float * float :=
  (Macros.protein_g macros, Macros.carbs_g macros, Macros.fats_g macros).

(** The exact value of a finite double as a fraction (not reduced); zero
    for an infinity or a NaN. *)
Definition exact_value (x : float) : Q :=
  match Float.to_frac x with
  | Some (n, d) => n # d
  | None => 0
  end.

(** A positive double with a 53-bit mantissa and an exponent between [lo]
    and [hi]. *)
Definition normal_in (lo hi : Z) (x : float) : bool :=
  match x with
  | S754_finite false m e =>
      (Zpos (digits2_pos m) =? 53) && (lo <=? e) && (e <=? hi)
  | _ => false
  end.

(** A shift record that holds the quotient [N/D] shifted right by [k]
    bits: the mantissa, the round bit and the sticky bit locate [N/D]
    between two multiples of [2^k]. *)
Definition shifted (N D k : Z) (mrs : shr_record) : Prop :=
  0 <= shr_m mrs
  /\ exists t,
       2 * N = (2 * shr_m mrs + Z.b2z (shr_r mrs)) * (D * 2 ^ k) + t
       /\ 0 <= t < D * 2 ^ k
       /\ (shr_s mrs = true <-> 0 < t).

(* ===================================================================== *)
(** * Properties                                                          *)
(* ===================================================================== *)

(** ** The arithmetic on sample values *)

(** The literals of the source are the doubles Python reads. *)
Example literal_doubles :
  Float.lit 6 10 = S754_finite false 5404319552844595 (-53)
  /\ Float.lit 12 10 = S754_finite false 5404319552844595 (-52)
  /\ Float.lit 625 100 = S754_finite false 7036874417766400 (-50)
  /\ Float.lit 10 100 = S754_finite false 7205759403792794 (-56).
Proof. repeat split; vm_compute; reflexivity. Qed.

(** [round] sends ties to the even integer: round(2.5) = 2,
    round(3.5) = 4, round(-2.5) = -2, round(2.6) = 3. *)
Example round_ties_to_even :
  Float.py_round (Float.lit 25 10) = Some 2
  /\ Float.py_round (Float.lit 35 10) = Some 4
  /\ Float.py_round (Float.lit (-25) 10) = Some (-2)
  /\ Float.py_round (Float.lit 26 10) = Some 3.
Proof. repeat split; vm_compute; reflexivity. Qed.

(** round(0.35 / 0.9999999999999999, 4) = 0.35 and int(-3.7) = -3. *)
Example round_to_decimals :
  Float.py_round_nd
    (Float.div (Float.lit 35 100) (S754_finite false 9007199254740991 (-53))) 4
  = Float.lit 35 100
  /\ Float.py_int (Float.lit (-37) 10) = Some (-3).
Proof. repeat split; vm_compute; reflexivity. Qed.

(** The text operations on sample strings. *)
Example text_operations :
  lower "Type 2 DIABETES" = "type 2 diabetes"
  /\ strip "  Moderate " = "Moderate"
  /\ contains "type 2 diabetes" "diabetes" = true
  /\ contains "diabetes" "type 2 diabetes" = false.
Proof. repeat split; reflexivity. Qed.

(** Sorting by key is stable: equal keys keep the input order. *)
Example stable_sort_is_stable :
  stable_sort (fun a b => fst a <=? fst b)
    [(2, "a"); (1, "b"); (2, "c"); (1, "d")]
  = [(1, "b"); (1, "d"); (2, "a"); (2, "c")].
Proof. reflexivity. Qed.

(** The greedy pick on the sample catalog: a 300 kcal item for a 502 kcal
    target is below 60%, so the 100 kcal item is added. *)
Example pick_items_sample :
  map MealItem.name (_pick_items_for_meal sample_catalog 502 500)
  = ["Dal with rice"]
  /\ map MealItem.name
       (_pick_items_for_meal
          (List.filter (fun f => mem "breakfast" (FoodItem.meal_types f)) sample_catalog)
          502 500)
     = ["Fruit bowl"; "Oats porridge"].
Proof. split; vm_compute; reflexivity. Qed.

(** ** Membership tests *)

Lemma smem_spec (x : string) (s : gset string) : smem x s = true <-> x ∈ s.
Proof. unfold smem. apply bool_decide_eq_true. Qed.

Lemma smem_false (x : string) (s : gset string) : smem x s = false <-> x ∉ s.
Proof. unfold smem. apply bool_decide_eq_false. Qed.

Lemma mem_spec (x : string) (xs : list string) : mem x xs = true <-> In x xs.
Proof.
  unfold mem. rewrite existsb_exists. split.
  - intros (y & Hy & Heq). apply String.eqb_eq in Heq. now subst.
  - intros H. exists x. split; [assumption | apply String.eqb_refl].
Qed.

Lemma nonempty_spec (s : gset string) : nonempty s = true <-> s ≠ ∅.
Proof.
  unfold nonempty. rewrite negb_true_iff. apply bool_decide_eq_false.
Qed.

Lemma set_of_spec (x : string) (xs : list string) : x ∈ set_of xs <-> In x xs.
Proof. unfold set_of. rewrite elem_of_list_to_set. apply list_elem_of_In. Qed.

Lemma any_of_spec (pred : string -> bool) (s : gset string) :
  any_of pred s = true <-> exists x, x ∈ s /\ pred x = true.
Proof.
  unfold any_of. rewrite existsb_exists. split.
  - intros (x & Hin & Hp). exists x. split; [| assumption].
    apply elem_of_elements. now apply list_elem_of_In.
  - intros (x & Hin & Hp). exists x. split; [| assumption].
    apply list_elem_of_In. now apply elem_of_elements.
Qed.

(** ** The rules only add to the locals *)

Lemma grows_refl st : grows st st.
Proof. unfold grows. set_solver. Qed.

Lemma grows_trans st1 st2 st3 : grows st1 st2 -> grows st2 st3 -> grows st1 st3.
Proof.
  intros (? & ? & ? & ? & ?) (? & ? & ? & ? & ?).
  repeat split; etransitivity; eassumption.
Qed.

Ltac rule_grows :=
  match goal with
  | |- grows ?st (?rule _ ?st) => unfold rule
  | |- grows ?st (?rule _ _ ?st) => unfold rule
  end;
  match goal with
  | |- grows _ (if ?c then _ else _) => destruct c
  end;
  [ unfold grows; cbn; set_solver | apply grows_refl ].

Lemma rule_diabetes_grows cs st : grows st (rule_diabetes cs st).
Proof. rule_grows. Qed.
Lemma rule_hypertension_grows cs p st : grows st (rule_hypertension cs p st).
Proof. rule_grows. Qed.
Lemma rule_heart_grows cs p st : grows st (rule_heart cs p st).
Proof. rule_grows. Qed.
Lemma rule_kidney_grows cs p st : grows st (rule_kidney cs p st).
Proof. rule_grows. Qed.
Lemma rule_pcos_grows cs st : grows st (rule_pcos cs st).
Proof. rule_grows. Qed.
Lemma rule_gastric_grows cs st : grows st (rule_gastric cs st).
Proof. rule_grows. Qed.
Lemma rule_thyroid_grows cs st : grows st (rule_thyroid cs st).
Proof. rule_grows. Qed.
Lemma toggle_low_gi_grows sp st : grows st (toggle_low_gi sp st).
Proof. rule_grows. Qed.
Lemma toggle_high_fiber_grows sp st : grows st (toggle_high_fiber sp st).
Proof. rule_grows. Qed.
Lemma toggle_high_protein_grows sp st : grows st (toggle_high_protein sp st).
Proof. rule_grows. Qed.
Lemma toggle_anti_inflammatory_grows sp st : grows st (toggle_anti_inflammatory sp st).
Proof. rule_grows. Qed.
Lemma toggle_gluten_free_grows sp st : grows st (toggle_gluten_free sp st).
Proof. rule_grows. Qed.
Lemma toggle_lactose_free_grows sp st : grows st (toggle_lactose_free sp st).
Proof. rule_grows. Qed.

Create HintDb rules.

#[local] Hint Resolve rule_hypertension_grows rule_heart_grows rule_kidney_grows
  rule_pcos_grows rule_gastric_grows rule_thyroid_grows toggle_low_gi_grows
  toggle_high_fiber_grows toggle_high_protein_grows
  toggle_anti_inflammatory_grows toggle_gluten_free_grows
  toggle_lactose_free_grows : rules.

(** Everything the diabetes rule has put in the locals is still there when
    the last rule has run. *)
Lemma apply_rules_after_diabetes profile cs st :
  grows (rule_diabetes cs st) (apply_rules profile cs st).
Proof.
  unfold apply_rules. cbv zeta.
  repeat (eapply grows_trans; [| solve [auto with rules]]).
  apply grows_refl.
Qed.

Lemma rule_diabetes_fires cs st :
  "diabetes" ∈ cs ->
  "low_gi" ∈ Locals.required (rule_diabetes cs st)
  /\ "high_fiber" ∈ Locals.prefer (rule_diabetes cs st)
  /\ "high_gi" ∈ Locals.avoid (rule_diabetes cs st)
  /\ "refined_sugar" ∈ Locals.avoid (rule_diabetes cs st)
  /\ "refined_carbs" ∈ Locals.avoid (rule_diabetes cs st).
Proof.
  intros H. apply smem_spec in H. unfold rule_diabetes. rewrite H. cbn.
  set_solver.
Qed.

(** C1 (as amended). For every profile that has a medical condition whose
    lowercased text EQUALS "diabetes", [build_constraints] returns a
    ConstraintSpec with "low_gi" in required_tags, "high_fiber" in
    prefer_tags, and "high_gi", "refined_sugar", "refined_carbs" in
    avoid_tags: the condition rules trigger on a case-insensitive exact
    match against the profile's condition names. *)
Theorem build_constraints_diabetes_exact (profile : UserProfile.t) :
  (exists c, In c (MedicalParameters.conditions (UserProfile.medical profile))
             /\ lower c = "diabetes") ->
  let cs := fst (build_constraints profile) in
  "low_gi" ∈ ConstraintSpec.required_tags cs
  /\ "high_fiber" ∈ ConstraintSpec.prefer_tags cs
  /\ "high_gi" ∈ ConstraintSpec.avoid_tags cs
  /\ "refined_sugar" ∈ ConstraintSpec.avoid_tags cs
  /\ "refined_carbs" ∈ ConstraintSpec.avoid_tags cs.
Proof.
  intros (c & Hin & Hc). cbn.
  set (cs := set_of (map lower (MedicalParameters.conditions (UserProfile.medical profile)))).
  assert (Hd : "diabetes" ∈ cs).
  { subst cs. apply set_of_spec. rewrite <- Hc. now apply in_map. }
  match goal with
  | |- context [apply_rules profile cs ?st0] =>
      pose proof (apply_rules_after_diabetes profile cs st0) as Hg;
      pose proof (rule_diabetes_fires cs st0 Hd) as Hf
  end.
  destruct Hg as (Hr & Hp & Ha & _). destruct Hf as (F1 & F2 & F3 & F4 & F5).
  repeat split; [apply Hr | apply Hp | apply Ha ..]; assumption.
Qed.

Lemma build_constraints_diabetes_exact_witness :
  (exists c, In c (MedicalParameters.conditions
                     (UserProfile.medical
                        (sample_profile ["Diabetes"] "veg" no_overrides no_toggles)))
             /\ lower c = "diabetes")
  /\ "low_gi" ∈ ConstraintSpec.required_tags
       (fst (build_constraints (sample_profile ["Diabetes"] "veg" no_overrides no_toggles))).
Proof.
  assert (H : exists c, In c (MedicalParameters.conditions
                     (UserProfile.medical
                        (sample_profile ["Diabetes"] "veg" no_overrides no_toggles)))
             /\ lower c = "diabetes").
  { exists "Diabetes". split; [left; reflexivity | reflexivity]. }
  split; [exact H |].
  exact (proj1 (build_constraints_diabetes_exact _ H)).
Defined.

(** C1 (as stated) fails: "type 2 diabetes" contains "diabetes" as a
    substring, yet no diabetes rule is applied: "low_gi" is not required,
    "high_fiber" is not preferred and "high_gi" is not avoided. *)
Lemma build_constraints_substring_counterexample :
  let profile := sample_profile ["type 2 diabetes"] "veg" no_overrides no_toggles in
  let cs := fst (build_constraints profile) in
  (exists c, In c (MedicalParameters.conditions (UserProfile.medical profile))
             /\ contains (lower c) "diabetes" = true)
  /\ ("low_gi" ∉ ConstraintSpec.required_tags cs)
  /\ ("high_fiber" ∉ ConstraintSpec.prefer_tags cs)
  /\ ("high_gi" ∉ ConstraintSpec.avoid_tags cs).
Proof.
  cbv zeta. split.
  - exists "type 2 diabetes". split; [left; reflexivity | reflexivity].
  - repeat split; apply smem_false; vm_compute; reflexivity.
Qed.

(** ** Stable sorting rearranges its input *)

Lemma insert_sorted_perm {A} (le : A -> A -> bool) (x : A) (l : list A) :
  insert_sorted le x l ≡ₚ x :: l.
Proof.
  induction l as [| y r IH]; cbn.
  - reflexivity.
  - destruct (le x y).
    + reflexivity.
    + rewrite IH. apply Permutation_swap.
Qed.

Lemma stable_sort_perm {A} (le : A -> A -> bool) (l : list A) :
  stable_sort le l ≡ₚ l.
Proof.
  induction l as [| x r IH]; cbn.
  - reflexivity.
  - fold (stable_sort le r). rewrite insert_sorted_perm. now rewrite IH.
Qed.

Lemma stable_sort_In {A} (le : A -> A -> bool) (l : list A) (x : A) :
  In x (stable_sort le l) <-> In x l.
Proof.
  split; apply Permutation_in; [| symmetry]; apply stable_sort_perm.
Qed.

Lemma stable_sort_length {A} (le : A -> A -> bool) (l : list A) :
  List.length (stable_sort le l) = List.length l.
Proof. apply Permutation_length, stable_sort_perm. Qed.

(** ** The required-tags check of [filter_foods] *)

Lemma has_tag_spec (tags : list string) (x : string) :
  existsb (fun t => String.eqb t x) tags = true <-> In x tags.
Proof.
  rewrite existsb_exists. split.
  - intros (t & Hin & Heq). apply String.eqb_eq in Heq. now subst.
  - intros H. exists x. split; [assumption | apply String.eqb_refl].
Qed.

Lemma any_tag_spec (tags : list string) (s : gset string) :
  existsb (fun tag => smem tag s) tags = true
  <-> exists tag, In tag tags /\ tag ∈ s.
Proof.
  rewrite existsb_exists.
  split; intros (t & Hin & Hs); exists t; (split; [assumption |]);
    now apply smem_spec.
Qed.

(** The check as the code performs it, with the GI attribute compared after
    lowercasing. *)
Lemma required_tags_check_spec (constraints : ConstraintSpec.t) (food : FoodItem.t) :
  let req := ConstraintSpec.required_tags constraints in
  required_tags_check constraints food = true <->
  ("low_gi" ∈ req ->
     lower (FoodItem.gi food) = "low" \/ In "low_gi" (FoodItem.tags food))
  /\ (req ∖ {[ "low_gi" ]} ≠ ∅ ->
      exists tag, In tag (FoodItem.tags food) /\ tag ∈ req ∖ {[ "low_gi" ]}).
Proof.
  cbv zeta. unfold required_tags_check.
  set (req := ConstraintSpec.required_tags constraints).
  set (tags := FoodItem.tags food).
  destruct (nonempty req) eqn:Hne.
  - destruct (smem "low_gi" req) eqn:Hlow.
    + apply smem_spec in Hlow.
      destruct (String.eqb (lower (FoodItem.gi food)) "low"
                || existsb (fun t => String.eqb t "low_gi") tags) eqn:Hok; cbn.
      * apply orb_true_iff in Hok. rewrite String.eqb_eq, has_tag_spec in Hok.
        destruct (nonempty (req ∖ {[ "low_gi" ]})) eqn:Hrest; cbn.
        -- apply nonempty_spec in Hrest.
           destruct (existsb (fun tag => smem tag (req ∖ {[ "low_gi" ]})) tags) eqn:Hany; cbn.
           ++ apply any_tag_spec in Hany. tauto.
           ++ split; [discriminate |]. intros [_ H].
              apply H, any_tag_spec in Hrest. congruence.
        -- split; [| reflexivity]. intros _. split; [tauto |].
           intros H. apply nonempty_spec in H. congruence.
      * apply orb_false_iff in Hok. destruct Hok as [Hgi Htag].
        split; [discriminate |]. intros [H _]. destruct (H Hlow) as [H1 | H1].
        -- apply String.eqb_eq in H1. congruence.
        -- apply has_tag_spec in H1. congruence.
    + apply smem_false in Hlow. cbn.
      assert (Hsame : req ∖ {[ "low_gi" ]} = req).
      { apply set_eq. intros x. rewrite elem_of_difference, elem_of_singleton.
        split; [tauto |]. intros Hx. split; [assumption |].
        intros ->. contradiction. }
      rewrite Hsame.
      rewrite Hne. cbn.
      apply nonempty_spec in Hne.
      destruct (existsb (fun tag => smem tag req) tags) eqn:Hany; cbn.
      * apply any_tag_spec in Hany. tauto.
      * split; [discriminate |]. intros [_ H].
        apply H, any_tag_spec in Hne. congruence.
  - assert (Hempty : req = ∅).
    { unfold nonempty in Hne. apply negb_false_iff, bool_decide_eq_true in Hne.
      exact Hne. }
    rewrite Hempty. split; [| reflexivity]. intros _. split.
    + intros H. set_solver.
    + intros H. exfalso. apply H. set_solver.
Qed.

(** C2. In [filter_foods], a food passes the required-tags check if and
    only if (1) whenever "low_gi" is in required_tags, the food's gi
    attribute equals "low" or "low_gi" is among its tags, and (2) whenever
    required_tags minus {"low_gi"} is non-empty, the food carries at least
    one tag from that remainder (any-of, not all-of). The gi attribute is
    one of the lower-case values "low" | "medium" | "high" of the catalog
    ([lower gi = gi]); the equivalence holds whether or not required_tags
    is empty. *)
Theorem required_tags_any_of (constraints : ConstraintSpec.t) (food : FoodItem.t) :
  lower (FoodItem.gi food) = FoodItem.gi food ->
  let req := ConstraintSpec.required_tags constraints in
  required_tags_check constraints food = true <->
  ("low_gi" ∈ req ->
     FoodItem.gi food = "low" \/ In "low_gi" (FoodItem.tags food))
  /\ (req ∖ {[ "low_gi" ]} ≠ ∅ ->
      exists tag, In tag (FoodItem.tags food) /\ tag ∈ req ∖ {[ "low_gi" ]}).
Proof.
  intros Hgi. pose proof (required_tags_check_spec constraints food) as H.
  cbv zeta in *. rewrite Hgi in H. exact H.
Qed.

Lemma required_tags_any_of_witness :
  let constraints :=
    fst (build_constraints (sample_profile ["diabetes"] "veg" no_overrides no_toggles)) in
  let food := sample_food "Fruit bowl" 300 100 "medium" ["high_fiber"] ["veg"] ["lunch"] in
  lower (FoodItem.gi food) = FoodItem.gi food
  /\ (required_tags_check constraints food = true <->
      ("low_gi" ∈ ConstraintSpec.required_tags constraints ->
         FoodItem.gi food = "low" \/ In "low_gi" (FoodItem.tags food))
      /\ (ConstraintSpec.required_tags constraints ∖ {[ "low_gi" ]} ≠ ∅ ->
          exists tag, In tag (FoodItem.tags food)
                      /\ tag ∈ ConstraintSpec.required_tags constraints ∖ {[ "low_gi" ]})).
Proof.
  cbv zeta. split.
  - reflexivity.
  - apply (required_tags_any_of
             (fst (build_constraints (sample_profile ["diabetes"] "veg" no_overrides no_toggles)))
             (sample_food "Fruit bowl" 300 100 "medium" ["high_fiber"] ["veg"] ["lunch"])).
    reflexivity.
Defined.

(** ** Adding an allergy only adds to the excluded allergens *)

Ltac rule_agrees :=
  intros (Hr & Hp & Ha & Hn & Hs & He & Hal);
  match goal with
  | |- agree_but_allergens (?rule _ _) _ => unfold rule
  | |- agree_but_allergens (?rule _ _ _) _ => unfold rule
  end;
  cbn;
  repeat match goal with
  | |- context [high_cholesterol (add_allergy ?a ?p)] =>
      change (high_cholesterol (add_allergy a p)) with (high_cholesterol p)
  end;
  match goal with
  | |- agree_but_allergens (if ?c then _ else _) _ => destruct c
  end;
  unfold agree_but_allergens; cbn;
  rewrite ?Hr, ?Hp, ?Ha, ?Hn, ?Hs, ?He;
  repeat split; try reflexivity; try assumption;
  apply union_mono_r; assumption.

Lemma rule_diabetes_agrees cs st st' :
  agree_but_allergens st st' ->
  agree_but_allergens (rule_diabetes cs st) (rule_diabetes cs st').
Proof. rule_agrees. Qed.

Lemma rule_hypertension_agrees a cs p st st' :
  agree_but_allergens st st' ->
  agree_but_allergens (rule_hypertension cs p st)
    (rule_hypertension cs (add_allergy a p) st').
Proof. rule_agrees. Qed.

Lemma rule_heart_agrees a cs p st st' :
  agree_but_allergens st st' ->
  agree_but_allergens (rule_heart cs p st) (rule_heart cs (add_allergy a p) st').
Proof. rule_agrees. Qed.

Lemma rule_kidney_agrees a cs p st st' :
  agree_but_allergens st st' ->
  agree_but_allergens (rule_kidney cs p st) (rule_kidney cs (add_allergy a p) st').
Proof. rule_agrees. Qed.

Lemma rule_pcos_agrees cs st st' :
  agree_but_allergens st st' ->
  agree_but_allergens (rule_pcos cs st) (rule_pcos cs st').
Proof. rule_agrees. Qed.

Lemma rule_gastric_agrees cs st st' :
  agree_but_allergens st st' ->
  agree_but_allergens (rule_gastric cs st) (rule_gastric cs st').
Proof. rule_agrees. Qed.

Lemma rule_thyroid_agrees cs st st' :
  agree_but_allergens st st' ->
  agree_but_allergens (rule_thyroid cs st) (rule_thyroid cs st').
Proof. rule_agrees. Qed.

Lemma toggle_low_gi_agrees sp st st' :
  agree_but_allergens st st' ->
  agree_but_allergens (toggle_low_gi sp st) (toggle_low_gi sp st').
Proof. rule_agrees. Qed.

Lemma toggle_high_fiber_agrees sp st st' :
  agree_but_allergens st st' ->
  agree_but_allergens (toggle_high_fiber sp st) (toggle_high_fiber sp st').
Proof. rule_agrees. Qed.

Lemma toggle_high_protein_agrees sp st st' :
  agree_but_allergens st st' ->
  agree_but_allergens (toggle_high_protein sp st) (toggle_high_protein sp st').
Proof. rule_agrees. Qed.

Lemma toggle_anti_inflammatory_agrees sp st st' :
  agree_but_allergens st st' ->
  agree_but_allergens (toggle_anti_inflammatory sp st)
    (toggle_anti_inflammatory sp st').
Proof. rule_agrees. Qed.

Lemma toggle_gluten_free_agrees sp st st' :
  agree_but_allergens st st' ->
  agree_but_allergens (toggle_gluten_free sp st) (toggle_gluten_free sp st').
Proof. rule_agrees. Qed.

Lemma toggle_lactose_free_agrees sp st st' :
  agree_but_allergens st st' ->
  agree_but_allergens (toggle_lactose_free sp st) (toggle_lactose_free sp st').
Proof. rule_agrees. Qed.

Lemma apply_rules_agrees a p cs st st' :
  agree_but_allergens st st' ->
  agree_but_allergens (apply_rules p cs st) (apply_rules (add_allergy a p) cs st').
Proof.
  intros H. unfold apply_rules. cbv zeta.
  change (UserProfile.special (add_allergy a p)) with (UserProfile.special p).
  apply toggle_lactose_free_agrees, toggle_gluten_free_agrees,
    toggle_anti_inflammatory_agrees, toggle_high_protein_agrees,
    toggle_high_fiber_agrees, toggle_low_gi_agrees, rule_thyroid_agrees,
    rule_gastric_agrees, rule_pcos_agrees, rule_kidney_agrees,
    rule_heart_agrees, rule_hypertension_agrees, rule_diabetes_agrees, H.
Qed.

(** The constraints of the profile with one more allergy: every field is
    unchanged except exclude_allergens, which can only grow. *)
Lemma build_constraints_add_allergy (a : string) (p : UserProfile.t) :
  let c := fst (build_constraints p) in
  let c' := fst (build_constraints (add_allergy a p)) in
  ConstraintSpec.required_tags c' = ConstraintSpec.required_tags c
  /\ ConstraintSpec.avoid_tags c' = ConstraintSpec.avoid_tags c
  /\ ConstraintSpec.avoid_names c' = ConstraintSpec.avoid_names c
  /\ ConstraintSpec.exclude_allergens c ⊆ ConstraintSpec.exclude_allergens c'.
Proof.
  cbv zeta. unfold build_constraints. cbv zeta.
  cbn [fst ConstraintSpec.required_tags ConstraintSpec.avoid_tags
       ConstraintSpec.avoid_names ConstraintSpec.exclude_allergens].
  change (MedicalParameters.conditions (UserProfile.medical (add_allergy a p)))
    with (MedicalParameters.conditions (UserProfile.medical p)).
  match goal with
  | |- context [apply_rules (add_allergy a p) ?cs ?st'] =>
      match goal with
      | |- context [apply_rules p cs ?st] =>
          assert (Hag : agree_but_allergens (apply_rules p cs st)
                          (apply_rules (add_allergy a p) cs st'))
      end
  end.
  { apply apply_rules_agrees. unfold agree_but_allergens. cbn.
    repeat split; try reflexivity.
    intros x. rewrite !set_of_spec, map_app, in_app_iff. tauto. }
  destruct Hag as (Hr & _ & Ha & Hn & _ & _ & Hal).
  repeat split; assumption.
Qed.

Lemma excluded_allergen_mono (s s' : gset string) (allergens : list string) :
  s ⊆ s' ->
  existsb (fun a => smem a s) allergens = true ->
  existsb (fun a => smem a s') allergens = true.
Proof.
  intros Hsub. rewrite !any_tag_spec. intros (t & Hin & Hs).
  exists t. split; [assumption | now apply Hsub].
Qed.

Lemma allowed_add_allergy (a : string) (p : UserProfile.t)
    (dislikes : gset string) (food : FoodItem.t) :
  allowed (add_allergy a p) (fst (build_constraints (add_allergy a p))) dislikes food = true ->
  allowed p (fst (build_constraints p)) dislikes food = true.
Proof.
  destruct (build_constraints_add_allergy a p) as (Hr & Ha & Hn & Hal).
  unfold allowed, required_tags_check.
  change (UserProfile.dietary (add_allergy a p)) with (UserProfile.dietary p).
  rewrite Hr, Ha, Hn.
  destruct (negb (mem _ _)); [discriminate |].
  destruct (existsb (fun a0 => smem a0 (ConstraintSpec.exclude_allergens
              (fst (build_constraints p)))) (FoodItem.allergens food)) eqn:He.
  - rewrite (excluded_allergen_mono _ _ _ Hal He). discriminate.
  - destruct (existsb (fun a0 => smem a0 (ConstraintSpec.exclude_allergens
                (fst (build_constraints (add_allergy a p)))))
                (FoodItem.allergens food)); [discriminate |].
    trivial.
Qed.

Lemma filter_length_le {A} (f g : A -> bool) (l : list A) :
  (forall x, f x = true -> g x = true) ->
  (List.length (List.filter f l) <= List.length (List.filter g l))%nat.
Proof.
  intros Himp. induction l as [| x r IH]; cbn; [lia |].
  destruct (f x) eqn:Hf.
  - rewrite (Himp x Hf). cbn. lia.
  - destruct (g x); cbn; lia.
Qed.

(** C3. Filtering is antitone in allergies: for every catalog, every
    profile and every allergen string [a], the list returned by
    [filter_foods] for the profile with [a] added to
    profile.medical.allergies (and hence to constraints.exclude_allergens)
    is no longer than the list returned for the original profile. *)
Theorem filter_foods_antitone_in_allergies
    (foods : list FoodItem.t) (profile : UserProfile.t) (a : string) :
  (List.length
     (filter_foods foods (add_allergy a profile)
        (fst (build_constraints (add_allergy a profile))))
   <= List.length
        (filter_foods foods profile (fst (build_constraints profile))))%nat.
Proof.
  unfold filter_foods. cbv zeta. rewrite !stable_sort_length.
  change (UserProfile.dietary (add_allergy a profile))
    with (UserProfile.dietary profile).
  apply filter_length_le. intros food. apply allowed_add_allergy.
Qed.

(** ** The greedy pick *)

Lemma find_none_iff {A} (f : A -> bool) (l : list A) :
  List.find f l = None <-> forall x, In x l -> f x = false.
Proof.
  split.
  - apply find_none.
  - induction l as [| y r IH]; cbn; intros H; [reflexivity |].
    rewrite (H y (or_introl eq_refl)). apply IH.
    intros x Hx. apply H. now right.
Qed.

(** Every picked item is one of the candidates. *)
Lemma pick_items_from_candidates (cands : list FoodItem.t)
    (target_cal sodium_budget : Z) (it : MealItem.t) :
  In it (_pick_items_for_meal cands target_cal sodium_budget) ->
  exists f, In f cands /\ it = _to_item f.
Proof.
  unfold _pick_items_for_meal. destruct cands as [| c0 r]; [intros [] |].
  set (sorted := stable_sort (pick_key_le target_cal) (c0 :: r)).
  destruct (List.find _ sorted) as [f |] eqn:F1; [| intros []].
  apply find_some in F1. destruct F1 as [Hf _].
  apply stable_sort_In in Hf.
  cbv zeta. destruct (below_60_percent _ _).
  - destruct (List.find _ sorted) as [g |] eqn:F2.
    + apply find_some in F2. destruct F2 as [Hg _].
      apply stable_sort_In in Hg.
      intros [<- | [<- | []]]; eauto.
    + intros [<- | []]; eauto.
  - intros [<- | []]; eauto.
Qed.

(** C4. For every candidate list and every non-negative sodium_budget,
    [_pick_items_for_meal] returns at most two items whose total sodium_mg
    is at most sodium_budget; it returns the empty list exactly when no
    candidate's sodium_mg fits the budget (or the candidate list is empty);
    and a second item is added only if the first item's calories are below
    60% of target_cal (the code's test [current_cal < 0.6 * target_cal]),
    the second has a distinct name, its calories fit target_cal minus the
    first item's calories, and its sodium fits the remaining budget. *)
Theorem pick_items_for_meal_spec (cands : list FoodItem.t)
    (target_cal sodium_budget : Z) :
  0 <= sodium_budget ->
  let picked := _pick_items_for_meal cands target_cal sodium_budget in
  (List.length picked <= 2)%nat
  /\ total_sodium picked <= sodium_budget
  /\ (picked = [] <->
      forall f, In f cands -> ~ FoodItem.sodium_mg f <= sodium_budget)
  /\ (forall first second, picked = [first; second] ->
        below_60_percent (MealItem.calories first) target_cal = true
        /\ MealItem.name second <> MealItem.name first
        /\ MealItem.calories second <= target_cal - MealItem.calories first
        /\ MealItem.sodium_mg second <= sodium_budget - MealItem.sodium_mg first).
Proof.
  intros Hbudget. cbv zeta. unfold _pick_items_for_meal.
  destruct cands as [| c0 r].
  { cbn. repeat split; try lia; try discriminate; try (intros _ f []). }
  set (cands := c0 :: r).
  set (sorted := stable_sort (pick_key_le target_cal) cands).
  destruct (List.find (fun f => FoodItem.sodium_mg f <=? sodium_budget) sorted)
    as [f |] eqn:F1.
  - pose proof (find_some _ _ F1) as [Hf Hsod]. clear F1.
    apply stable_sort_In in Hf. apply Z.leb_le in Hsod.
    assert (Hnonempty : forall l : list MealItem.t,
               (_to_item f :: l = [] <->
                forall g, In g cands -> ~ FoodItem.sodium_mg g <= sodium_budget)).
    { intros l. split; [discriminate |]. intros H. exfalso. exact (H f Hf Hsod). }
    unfold sum_calories. cbn [fold_left _to_item MealItem.calories MealItem.name].
    rewrite Z.add_0_l.
    destruct (below_60_percent (FoodItem.calories f) target_cal) eqn:H60.
    + destruct (List.find _ sorted) as [g |] eqn:F2.
      * apply find_some in F2. destruct F2 as [_ Hg]. cbv beta in Hg.
        rewrite !andb_true_iff, negb_true_iff, String.eqb_neq, !Z.leb_le in Hg.
        destruct Hg as [[Hcal Hs2] Hname].
        cbn. unfold total_sodium. cbn.
        repeat split; try lia; try (apply Hnonempty);
          match goal with
          | H : [_ ; _] = [_ ; _] |- _ =>
              injection H as <- <-; cbn; (assumption || lia)
          end.
      * cbn. unfold total_sodium. cbn.
        repeat split; try lia; try (apply Hnonempty); discriminate.
    + cbn. unfold total_sodium. cbn.
      repeat split; try lia; try (apply Hnonempty); discriminate.
  - pose proof (proj1 (find_none_iff _ _) F1) as Hnone.
    unfold total_sodium. cbn.
    split; [lia |]. split; [lia |]. split; [| discriminate].
    split; [| reflexivity]. intros _ g Hg Hle.
    apply (proj2 (stable_sort_In (pick_key_le target_cal) cands g)) in Hg.
    apply Hnone in Hg. apply Z.leb_gt in Hg. lia.
Qed.

Lemma pick_items_for_meal_spec_witness :
  0 <= 500
  /\ (List.length (_pick_items_for_meal sample_catalog 502 500) <= 2)%nat
  /\ total_sodium (_pick_items_for_meal sample_catalog 502 500) <= 500.
Proof.
  assert (H : 0 <= 500) by lia.
  pose proof (pick_items_for_meal_spec sample_catalog 502 500 H) as (H1 & H2 & _).
  exact (conj H (conj H1 H2)).
Defined.

(** ** The diet-type test *)

Lemma filter_foods_sound (foods : list FoodItem.t) (profile : UserProfile.t)
    (constraints : ConstraintSpec.t) (food : FoodItem.t) :
  In food (filter_foods foods profile constraints) ->
  In food foods
  /\ In (DietaryPreferences.diet_type (UserProfile.dietary profile))
       (FoodItem.diet_types food).
Proof.
  unfold filter_foods. cbv zeta. rewrite stable_sort_In, filter_In.
  intros [Hin Hal]. split; [assumption |].
  unfold allowed in Hal.
  destruct (mem _ (FoodItem.diet_types food)) eqn:Hd; cbn in Hal;
    [| discriminate].
  now apply mem_spec.
Qed.

Lemma dict_set_In {V} (d : dict V) (k : string) (v : V) (k' : string) (v' : V) :
  In (k', v') (dict_set d k v) -> (k', v') = (k, v) \/ In (k', v') d.
Proof.
  induction d as [| [k0 v0] r IH]; cbn.
  - intros [H | []]. now left.
  - destruct (String.eqb k k0); cbn.
    + intros [H | H]; [now left | right; now right].
    + intros [H | H]; [right; now left |].
      destruct (IH H) as [H' | H']; [now left | right; now right].
Qed.

Lemma meals_from_dict_set P meals k picks :
  meals_from P meals ->
  (forall it, In it picks -> exists f, P f /\ it = _to_item f) ->
  meals_from P (dict_set meals k picks).
Proof.
  intros Hm Hp meal items it Hin Hit.
  apply dict_set_In in Hin. destruct Hin as [[= -> ->] | Hin].
  - now apply Hp.
  - exact (Hm _ _ _ Hin Hit).
Qed.

Lemma plan_main_meal_from P candidates split sodium_by_meal calories st meal
    meals' notes' :
  (forall m f, In f (candidates m) -> P f) ->
  (forall meals notes, st = Some (meals, notes) -> meals_from P meals) ->
  plan_main_meal candidates split sodium_by_meal calories st meal
  = Some (meals', notes') ->
  meals_from P meals'.
Proof.
  intros Hc Hst. unfold plan_main_meal.
  destruct st as [[meals notes] |]; cbn; [| discriminate].
  destruct (meal_target_cal split meal calories) as [target_cal |]; cbn;
    [| discriminate].
  destruct (dict_get sodium_by_meal meal) as [budget |]; cbn; [| discriminate].
  intros [= <- _].
  apply meals_from_dict_set; [now apply (Hst meals notes) |].
  intros it Hit. apply pick_items_from_candidates in Hit.
  destruct Hit as (f & Hf & ->). exists f. split; [| reflexivity].
  exact (Hc _ _ Hf).
Qed.

Lemma plan_main_meals_from P candidates split sodium_by_meal calories
    (ms : list string) st meals' notes' :
  (forall m f, In f (candidates m) -> P f) ->
  (forall meals notes, st = Some (meals, notes) -> meals_from P meals) ->
  fold_left (plan_main_meal candidates split sodium_by_meal calories) ms st
  = Some (meals', notes') ->
  meals_from P meals'.
Proof.
  intros Hc. revert st. induction ms as [| m r IH]; cbn; intros st Hst Hfold.
  - exact (Hst _ _ Hfold).
  - apply (IH _ (fun meals notes Heq =>
                   plan_main_meal_from P _ _ _ _ _ _ _ _ Hc Hst Heq) Hfold).
Qed.

Lemma plan_snacks_from P candidates split sodium_by_meal calories meals notes
    meals' notes' :
  (forall m f, In f (candidates m) -> P f) ->
  meals_from P meals ->
  plan_snacks candidates split sodium_by_meal calories meals notes
  = Some (meals', notes') ->
  meals_from P meals'.
Proof.
  intros Hc Hm. unfold plan_snacks.
  set (snack_cands := match candidates "snacks" with
                      | [] => candidates "snack"
                      | cs => cs
                      end).
  assert (Hsn : forall f, In f snack_cands -> P f).
  { subst snack_cands. intros f. destruct (candidates "snacks") eqn:Hs.
    - apply Hc.
    - rewrite <- Hs. apply Hc. }
  cbv zeta. destruct snack_cands as [| f0 r0] eqn:Hsc.
  - intros [= <- _]. apply meals_from_dict_set; [assumption | intros ? []].
  - rewrite <- Hsc in *. clear Hsc. intros Hplan.
    apply bind_Some in Hplan. destruct Hplan as (target_cal & _ & Hplan).
    apply bind_Some in Hplan. destruct Hplan as (budget & _ & [= <- _]).
    apply meals_from_dict_set; [assumption |].
    intros it Hit. apply pick_items_from_candidates in Hit.
    destruct Hit as (f & Hf & ->). exists f. split; [| reflexivity].
    now apply Hsn.
Qed.

(** C7. For every profile with diet_type "vegan" and every catalog, every
    food in the output of [filter_foods] (under any constraints) comes from
    the catalog and has "vegan" in its diet_types, and so does the food
    behind every item in every meal slot of the assembled day plan. *)
Theorem vegan_profile_gets_vegan_foods
    (catalog : list FoodItem.t) (profile : UserProfile.t) :
  DietaryPreferences.diet_type (UserProfile.dietary profile) = "vegan" ->
  (forall constraints food,
      In food (filter_foods catalog profile constraints) ->
      In food catalog /\ In "vegan" (FoodItem.diet_types food))
  /\ (forall calories sodium_limit plan notes meal items it,
        assemble_day_plan catalog profile calories sodium_limit = Some (plan, notes) ->
        In (meal, items) (DayPlan.meals plan) ->
        In it items ->
        exists food,
          In food catalog /\ In "vegan" (FoodItem.diet_types food)
          /\ it = _to_item food).
Proof.
  intros Hvegan.
  assert (Hfilter : forall constraints food,
             In food (filter_foods catalog profile constraints) ->
             In food catalog /\ In "vegan" (FoodItem.diet_types food)).
  { intros constraints food Hin. apply filter_foods_sound in Hin.
    now rewrite Hvegan in Hin. }
  split; [exact Hfilter |].
  intros calories sodium_limit plan notes meal items it.
  unfold assemble_day_plan.
  destruct (build_constraints profile) as [constraints explanations].
  set (filtered := filter_foods catalog profile constraints).
  set (split := _compute_meal_split profile).
  set (P := fun f => In f catalog /\ In "vegan" (FoodItem.diet_types f)).
  set (candidates := fun meal : string =>
         List.filter (fun f => mem meal (FoodItem.meal_types f)) filtered).
  assert (Hcands : forall m f, In f (candidates m) -> P f).
  { intros m f Hin. apply filter_In in Hin. destruct Hin as [Hin _].
    exact (Hfilter _ _ Hin). }
  intros Hplan.
  apply bind_Some in Hplan. destruct Hplan as (sodium_by_meal & _ & Hplan).
  apply bind_Some in Hplan. destruct Hplan as ([meals1 notes1] & Hmain & Hplan).
  apply bind_Some in Hplan. destruct Hplan as ([meals2 notes2] & Hsnack & Hplan).
  apply bind_Some in Hplan. destruct Hplan as (totals & _ & [= <- _]).
  cbn [DayPlan.meals]. intros Hin Hit.
  assert (H1 : meals_from P meals1).
  { apply (plan_main_meals_from P _ _ _ _ _ _ _ _ Hcands) in Hmain;
      [assumption |].
    intros meals0 notes0 [= <- _] m0 items0 it0 Hin0 Hit0.
    apply in_map_iff in Hin0. destruct Hin0 as (kv & [= _ <-] & _).
    destruct Hit0. }
  assert (H2 : meals_from P meals2).
  { exact (plan_snacks_from P _ _ _ _ _ _ _ _ Hcands H1 Hsnack). }
  destruct (H2 _ _ _ Hin Hit) as (f & [Hf1 Hf2] & ->). exists f. auto.
Qed.

Lemma vegan_profile_gets_vegan_foods_witness :
  DietaryPreferences.diet_type (UserProfile.dietary plain_profile) = "vegan"
  /\ (forall constraints food,
         In food (filter_foods sample_catalog plain_profile constraints) ->
         In food sample_catalog /\ In "vegan" (FoodItem.diet_types food))
  /\ exists plan notes,
       assemble_day_plan sample_catalog plain_profile 2008 2000 = Some (plan, notes)
       /\ map fst (DayPlan.meals plan) = ["breakfast"; "lunch"; "dinner"; "snacks"]
       /\ forall meal items it,
            In (meal, items) (DayPlan.meals plan) ->
            In it items ->
            exists food,
              In food sample_catalog /\ In "vegan" (FoodItem.diet_types food)
              /\ it = _to_item food.
Proof.
  split; [reflexivity |].
  split.
  - exact (proj1 (vegan_profile_gets_vegan_foods sample_catalog plain_profile eq_refl)).
  - destruct (assemble_day_plan sample_catalog plain_profile 2008 2000)
      as [[plan notes] |] eqn:Hplan; [| vm_compute in Hplan; discriminate].
    exists plan, notes. split; [reflexivity |].
    split.
    + vm_compute in Hplan. injection Hplan as <- _. reflexivity.
    + intros meal items it.
      exact (proj2 (vegan_profile_gets_vegan_foods sample_catalog plain_profile eq_refl)
               2008 2000 plan notes meal items it Hplan).
Defined.

(** ** Daily calories *)

(** C5 (as amended). For the profile {age 45, male, 175 cm, 80 kg,
    sedentary, low stress, no nutrition overrides, no special toggles},
    whatever its other fields, [estimate_daily_calories] returns exactly
    2008: the TDEE is the double 2008.5 and Python's [round] sends a tie to
    the even integer. *)
Theorem scenario_daily_calories
    (bmi : option float) (body_type : option string)
    (medical : MedicalParameters.t) (dietary : DietaryPreferences.t)
    (exercise_routine : string) (sleep_hours : float) :
  estimate_daily_calories
    (UserProfile.mk
       (PersonalDetails.mk 45 "male" (Float.of_Z 175) (Float.of_Z 80) bmi body_type)
       medical dietary
       (LifestyleParameters.mk "sedentary" exercise_routine sleep_hours "low")
       no_overrides no_toggles)
  = Some 2008.
Proof. vm_compute. reflexivity. Qed.

(** C5 (as stated) fails: for the scenario profile the BMR is 1673.75 and
    the TDEE is exactly 2008.5, but the result is 2008, not 2009. *)
Lemma scenario_daily_calories_counterexample :
  Float.to_Q (_bmr_mifflin_st_jeor plain_profile) = Some (6695 # 4)%Q
  /\ Float.to_Q (tdee plain_profile) = Some (4017 # 2)%Q
  /\ estimate_daily_calories plain_profile = Some 2008
  /\ estimate_daily_calories plain_profile <> Some 2009.
Proof.
  assert (H : estimate_daily_calories plain_profile = Some 2008)
    by (vm_compute; reflexivity).
  split; [vm_compute; reflexivity |].
  split; [vm_compute; reflexivity |].
  split; [exact H | rewrite H; discriminate].
Qed.

(** ** Meal split *)

(** C6. For every profile with meal_frequency = 3 and
    snacking_preference = "moderate", [_compute_meal_split] returns exactly
    {breakfast: 0.25, lunch: 0.35, dinner: 0.30, snacks: 0.10} (the doubles
    of DEFAULT_MEAL_SPLIT) after the final normalization and rounding to 4
    decimals. *)
Theorem meal_split_three_moderate (profile : UserProfile.t) :
  DietaryPreferences.meal_frequency (UserProfile.dietary profile) = 3 ->
  DietaryPreferences.snacking_preference (UserProfile.dietary profile) = "moderate" ->
  _compute_meal_split profile
  = [ ("breakfast", Float.lit 25 100); ("lunch", Float.lit 35 100);
      ("dinner", Float.lit 30 100); ("snacks", Float.lit 10 100) ].
Proof.
  intros Hfreq Hsnack. unfold _compute_meal_split.
  rewrite Hfreq, Hsnack. vm_compute. reflexivity.
Qed.

Lemma meal_split_three_moderate_witness :
  DietaryPreferences.meal_frequency (UserProfile.dietary plain_profile) = 3
  /\ DietaryPreferences.snacking_preference (UserProfile.dietary plain_profile)
     = "moderate"
  /\ _compute_meal_split plain_profile
     = [ ("breakfast", Float.lit 25 100); ("lunch", Float.lit 35 100);
         ("dinner", Float.lit 30 100); ("snacks", Float.lit 10 100) ].
Proof.
  split; [reflexivity |]. split; [reflexivity |].
  exact (meal_split_three_moderate plain_profile eq_refl eq_refl).
Defined.

(** The left-to-right sum of the default fractions is the double just
    below 1; a compensated summation (the [sum] of recent CPython) gives
    1.0. The normalized split is the same for both totals. *)
Lemma default_split_total :
  py_sum (dict_values DEFAULT_MEAL_SPLIT) = S754_finite false 9007199254740991 (-53)
  /\ normalize_split DEFAULT_MEAL_SPLIT (py_sum (dict_values DEFAULT_MEAL_SPLIT))
     = DEFAULT_MEAL_SPLIT
  /\ normalize_split DEFAULT_MEAL_SPLIT (Float.of_Z 1) = DEFAULT_MEAL_SPLIT.
Proof. repeat split; vm_compute; reflexivity. Qed.

(** ** Weekly rotation *)

Lemma map_lookup {A B} (f : A -> B) (l : list A) (j : nat) :
  map f l !! j = option_map f (l !! j).
Proof.
  revert j. induction l as [| x r IH]; intros [| j]; cbn; try reflexivity.
  apply IH.
Qed.

(** C8. For every DayPlan, [generate_weekly_plan] produces exactly 7 day
    entries (Mon through Sun, indices 0 to 6) where, for each meal slot
    holding n >= 1 items, day i's slot contains exactly the single item at
    index i mod n, and an empty slot stays empty every day. *)
Theorem weekly_plan_rotation (day_plan : DayPlan.t) :
  let weekly := generate_weekly_plan day_plan in
  dict_keys weekly = ["Mon"; "Tue"; "Wed"; "Thu"; "Fri"; "Sat"; "Sun"]
  /\ forall (i : nat) (day : string) (day_meals : dict (list MealItem.t)),
       weekly !! i = Some (day, day_meals) ->
       dict_keys day_meals = dict_keys (DayPlan.meals day_plan)
       /\ forall (j : nat) (meal : string) (items : list MealItem.t),
            DayPlan.meals day_plan !! j = Some (meal, items) ->
            exists slot,
              day_meals !! j = Some (meal, slot)
              /\ (items = [] -> slot = [])
              /\ (forall n, (1 <= n)%nat -> List.length items = n ->
                    exists it, items !! (i mod n)%nat = Some it /\ slot = [it]).
Proof.
  cbv zeta. split; [reflexivity |].
  intros i day day_meals Hday.
  unfold generate_weekly_plan in Hday. rewrite list_lookup_imap in Hday.
  destruct (week_days !! i) as [d |]; [| discriminate].
  cbn in Hday. injection Hday as _ <-.
  unfold rotate_day. split.
  - unfold dict_keys. rewrite map_map. apply map_ext.
    intros [meal items]. destruct items as [| x r]; [reflexivity |].
    destruct (_ !! _); reflexivity.
  - intros j meal items Hj. rewrite map_lookup, Hj. cbn.
    destruct items as [| x r].
    + exists []. repeat split. intros n Hn Hlen. cbn in Hlen. lia.
    + assert (Hlt : (i mod List.length (x :: r) < List.length (x :: r))%nat)
        by (apply Nat.mod_upper_bound; discriminate).
      apply lookup_lt_is_Some in Hlt. destruct Hlt as [it Hit].
      rewrite Hit. exists [it]. repeat split; [discriminate |].
      intros n _ <-. exists it. split; [exact Hit | reflexivity].
Qed.

Lemma weekly_plan_rotation_witness :
  generate_weekly_plan sample_day_plan !! 3%nat
  = Some ("Thu",
          [ ("breakfast", [sample_item "Fruit bowl" 300 100]);
            ("lunch", [sample_item "Dal with rice" 500 200]);
            ("dinner", []);
            ("snacks", [sample_item "Roasted chana" 150 10]) ])
  /\ exists slot,
       [ ("breakfast", [sample_item "Fruit bowl" 300 100]);
         ("lunch", [sample_item "Dal with rice" 500 200]);
         ("dinner", []);
         ("snacks", [sample_item "Roasted chana" 150 10]) ] !! 0%nat
       = Some ("breakfast", slot)
       /\ exists it,
            [sample_item "Oats porridge" 100 50; sample_item "Fruit bowl" 300 100]
              !! (3 mod 2)%nat = Some it
            /\ slot = [it].
Proof.
  assert (Hday : generate_weekly_plan sample_day_plan !! 3%nat
                 = Some ("Thu",
                         [ ("breakfast", [sample_item "Fruit bowl" 300 100]);
                           ("lunch", [sample_item "Dal with rice" 500 200]);
                           ("dinner", []);
                           ("snacks", [sample_item "Roasted chana" 150 10]) ]))
    by reflexivity.
  split; [exact Hday |].
  destruct (proj2 (weekly_plan_rotation sample_day_plan) 3%nat _ _ Hday)
    as [_ Hslots].
  destruct (Hslots 0%nat "breakfast"
              [sample_item "Oats porridge" 100 50; sample_item "Fruit bowl" 300 100]
              eq_refl) as (slot & Hslot & _ & Hrot).
  exists slot. split; [exact Hslot |].
  exact (Hrot 2%nat (le_S _ _ (le_n 1)) eq_refl).
Defined.

(** ** Overrides equal to zero *)

Lemma truthy_nonzero (x : float) :
  Float.truthy x = true <-> x <> S754_zero false /\ x <> S754_zero true.
Proof.
  destruct x as [[|] | | |]; cbn; split; try discriminate; try tauto;
    try (intros _; split; discriminate); intros [H1 H2]; congruence.
Qed.

Lemma compute_macros_falls_through (profile : UserProfile.t) (calories : Z) :
  truthy_float (NutritionalRequirements.protein_g (UserProfile.nutrition profile))
  && truthy_float (NutritionalRequirements.carbs_g (UserProfile.nutrition profile))
  && truthy_float (NutritionalRequirements.fats_g (UserProfile.nutrition profile))
  = false ->
  compute_macros profile calories = macros_from_ratios profile calories.
Proof.
  unfold compute_macros.
  destruct (NutritionalRequirements.protein_g _) as [p |];
    destruct (NutritionalRequirements.carbs_g _) as [c |];
    destruct (NutritionalRequirements.fats_g _) as [f |]; cbn;
    try reflexivity.
  intros ->. reflexivity.
Qed.



(** With daily_calories = 0 the scenario profile still gets 2008 kcal. *)
Example zero_calories_falls_through :
  estimate_daily_calories zero_calories_profile = Some 2008.
Proof. vm_compute. reflexivity. Qed.

(** ** Rounding error of the binary64 operations *)

Lemma digits2_pos_size (p : positive) : digits2_pos p = Pos.size p.
Proof. induction p as [p IH | p IH |]; cbn; congruence. Qed.

Lemma digits_bounds (p : positive) :
  2 ^ (Zpos (digits2_pos p) - 1) <= Zpos p < 2 ^ Zpos (digits2_pos p).
Proof.
  rewrite digits2_pos_size.
  pose proof (Pos.size_gt p) as Hgt. pose proof (Pos.size_le p) as Hle.
  apply Pos2Z.pos_lt_pos in Hgt. apply Pos2Z.pos_le_pos in Hle.
  rewrite Pos2Z.inj_pow in Hgt, Hle. rewrite (Pos2Z.inj_xO p) in Hle.
  split; [| exact Hgt].
  replace (Zpos (Pos.size p)) with (Z.succ (Zpos (Pos.size p) - 1)) in Hle by lia.
  rewrite Z.pow_succ_r in Hle by lia. lia.
Qed.

Lemma digits_unique (p : positive) (d : Z) :
  2 ^ (d - 1) <= Zpos p < 2 ^ d -> Zpos (digits2_pos p) = d.
Proof.
  intros [Hlo Hhi]. pose proof (digits_bounds p) as [Hlo' Hhi'].
  destruct (Z.lt_trichotomy (Zpos (digits2_pos p)) d) as [Hlt | [Heq | Hgt]];
    [| exact Heq |]; exfalso.
  - assert (2 ^ Zpos (digits2_pos p) <= 2 ^ (d - 1))
      by (apply Z.pow_le_mono_r; lia).
    lia.
  - assert (2 ^ d <= 2 ^ (Zpos (digits2_pos p) - 1))
      by (apply Z.pow_le_mono_r; lia).
    lia.
Qed.

Lemma fexp_normal (x : Z) : -1021 <= x -> fexp 53 1024 x = x - 53.
Proof. unfold fexp, emin. lia. Qed.

Lemma shr_1_shifted (N D k : Z) (mrs : shr_record) :
  0 < D -> 0 <= k -> shifted N D k mrs -> shifted N D (k + 1) (shr_1 mrs).
Proof.
  intros HD Hk (Hm & t & Heq & Ht & Hs).
  destruct mrs as [m r s]. cbn [shr_m shr_r shr_s] in *.
  assert (HP : 0 < D * 2 ^ k)
    by (apply Z.mul_pos_pos; [lia | apply Z.pow_pos_nonneg; lia]).
  unfold shifted.
  rewrite Z.pow_add_r by lia. change (2 ^ 1) with 2.
  replace (D * (2 ^ k * 2)) with (2 * (D * 2 ^ k)) by lia.
  set (P := D * 2 ^ k) in *.
  destruct m as [| [p | p |] | p]; try lia;
    cbn [shr_1 shr_m shr_r shr_s Z.b2z];
    (split; [lia |]); exists (Z.b2z r * P + t);
    (split; [destruct r; cbn [Z.b2z] in *; lia |]);
    (split; [destruct r; cbn [Z.b2z]; lia |]);
    destruct r, s; cbn [orb Z.b2z]; split; intros H; try reflexivity; try lia;
    try (exfalso; destruct Hs as [Hs1 Hs2]; first [discriminate (Hs2 ltac:(lia)) | lia]).
Qed.

Lemma iter_shr_1_shifted (N D : Z) (p : positive) :
  0 < D ->
  forall k mrs, 0 <= k -> shifted N D k mrs ->
  shifted N D (k + Zpos p) (iter_pos shr_1 p mrs).
Proof.
  intros HD. induction p as [p IH | p IH |]; intros k mrs Hk H; cbn [iter_pos].
  - replace (k + Zpos p~1) with (((k + 1) + Zpos p) + Zpos p) by lia.
    apply IH; [lia |]. apply IH; [lia |]. now apply shr_1_shifted.
  - replace (k + Zpos p~0) with ((k + Zpos p) + Zpos p) by lia.
    apply IH; [lia |]. now apply IH.
  - now apply shr_1_shifted.
Qed.

Lemma shifted_bounds (N D k : Z) (mrs : shr_record) :
  shifted N D k mrs ->
  shr_m mrs * (D * 2 ^ k) <= N < (shr_m mrs + 1) * (D * 2 ^ k).
Proof.
  intros (Hm & t & Heq & Ht & _).
  destruct (shr_r mrs); cbn [Z.b2z] in Heq; lia.
Qed.

(** Rounding to nearest, ties to even, moves a shifted quotient by at most
    half a unit. *)
Lemma round_nearest_even_shifted (N D k : Z) (mrs : shr_record) :
  shifted N D k mrs ->
  let mr := round_nearest_even (shr_m mrs) (loc_of_shr_record mrs) in
  shr_m mrs <= mr <= shr_m mrs + 1
  /\ Z.abs (2 * N - 2 * mr * (D * 2 ^ k)) <= D * 2 ^ k.
Proof.
  intros (Hm & t & Heq & Ht & Hs). cbv zeta.
  destruct mrs as [m r s]. cbn [shr_m shr_r shr_s] in *.
  set (P := D * 2 ^ k) in *.
  assert (Ht0 : s = false -> t = 0).
  { intros ->. destruct (Z.eq_dec t 0) as [-> | Hne]; [reflexivity |].
    destruct Hs as [_ Hs]. discriminate (Hs ltac:(lia)). }
  assert (Ht1 : s = true -> 0 < t) by (intros ->; now apply Hs).
  destruct r, s; cbn [loc_of_shr_record round_nearest_even Z.b2z] in *;
    try specialize (Ht0 eq_refl); try specialize (Ht1 eq_refl);
    try destruct (Z.even m); split; lia.
Qed.

(** The rounding step shared by multiplication and division: the quotient
    [N/D], truncated to the integer [q] with its location [l] and scaled
    by [2^e], is rounded to a double with a 53-bit mantissa whose value
    differs from [N/D * 2^e] by at most [2^-53] of it. *)
Lemma binary_round_aux_correct (sx : bool) (q : positive) (e : Z) (l : location)
    (N D : Z) :
  0 < D ->
  shifted N D 0 (shr_record_of_loc (Zpos q) l) ->
  53 <= Zpos (digits2_pos q) ->
  -1021 <= Zpos (digits2_pos q) + e <= 1023 ->
  exists (m : positive) (j : Z),
    binary_round_aux 53 1024 sx (Zpos q) e l = S754_finite sx m (e + j)
    /\ digits2_pos m = 53%positive
    /\ Zpos (digits2_pos q) - 53 <= j <= Zpos (digits2_pos q) - 52
    /\ Z.abs (N - Zpos m * 2 ^ j * D) * 2 ^ 53 <= N.
Proof.
  intros HD H0 Hd He.
  pose proof (digits_bounds q) as Hq.
  remember (Zpos (digits2_pos q)) as d eqn:Ed.
  remember (d - 53) as k eqn:Ek.
  assert (Hk : 0 <= k) by lia.
  assert (HK : 0 < 2 ^ k) by (apply Z.pow_pos_nonneg; lia).
  assert (Hlo : 2 ^ (d - 1) = 2 ^ 52 * 2 ^ k)
    by (rewrite <- Z.pow_add_r by lia; f_equal; lia).
  assert (Hhi : 2 ^ d = 2 ^ 53 * 2 ^ k)
    by (rewrite <- Z.pow_add_r by lia; f_equal; lia).
  rewrite Hlo, Hhi in Hq.
  (* the first shift *)
  assert (Hsh : exists mrs',
             shr_fexp 53 1024 (Zpos q) e l = (mrs', e + k)
             /\ shifted N D k mrs').
  { unfold shr_fexp. cbn [Zdigits2]. rewrite <- Ed.
    rewrite fexp_normal by lia.
    replace (d + e - 53 - e) with k by lia.
    unfold shr. destruct k as [| p | p]; [| | lia].
    - eexists. rewrite Z.add_0_r. split; [reflexivity | exact H0].
    - eexists. split; [reflexivity |].
      exact (iter_shr_1_shifted N D p HD 0 _ ltac:(lia) H0). }
  destruct Hsh as (mrs' & Hshr & Hmrs').
  pose proof (shifted_bounds _ _ _ _ H0) as B0.
  pose proof (shifted_bounds _ _ _ _ Hmrs') as Bk.
  pose proof (round_nearest_even_shifted _ _ _ _ Hmrs') as Hr.
  cbv zeta in Hr.
  cbn [shr_record_of_loc shr_m] in B0.
  assert (Hm0 : shr_m (shr_record_of_loc (Zpos q) l) = Zpos q)
    by (destruct l as [| []]; reflexivity).
  rewrite Hm0 in B0. rewrite Z.pow_0_r, Z.mul_1_r in B0.
  unfold binary_round_aux. rewrite Hshr.
  set (m1 := shr_m mrs') in *.
  set (mr := round_nearest_even m1 (loc_of_shr_record mrs')) in *.
  set (P := D * 2 ^ k) in *.
  assert (HP : 0 < P) by (apply Z.mul_pos_pos; assumption).
  (* the mantissa before rounding has 53 bits *)
  assert (Hm1 : 2 ^ 52 <= m1 < 2 ^ 53).
  { split.
    - assert (Zpos q * D < (m1 + 1) * (2 ^ k * D)) by (unfold P in Bk; lia).
      assert (Zpos q < (m1 + 1) * 2 ^ k) by nia.
      assert (2 ^ 52 * 2 ^ k < (m1 + 1) * 2 ^ k) by lia.
      assert (2 ^ 52 < m1 + 1) by nia. lia.
    - assert (m1 * (2 ^ k * D) < (Zpos q + 1) * D) by (unfold P in Bk; lia).
      assert (m1 * 2 ^ k < Zpos q + 1) by nia.
      assert (m1 * 2 ^ k < 2 ^ 53 * 2 ^ k) by lia.
      nia. }
  assert (Herr : Z.abs (N - mr * P) * 2 ^ 53 <= N).
  { destruct Hr as [_ Hr].
    assert (2 ^ 52 * P <= N) by nia.
    replace (2 * N - 2 * mr * P) with (2 * (N - mr * P)) in Hr by lia.
    rewrite Z.abs_mul in Hr. change (Z.abs 2) with 2 in Hr.
    change (2 ^ 53) with (2 * 2 ^ 52). lia. }
  destruct (Z.eq_dec mr (2 ^ 53)) as [Hcarry | Hnocarry].
  - (* the rounding carried into a 54th bit *)
    rewrite Hcarry.
    exists (Z.to_pos (2 ^ 52)), (k + 1).
    split.
    { unfold shr_fexp. change (Zdigits2 (2 ^ 53)) with 54.
      rewrite fexp_normal by lia.
      replace (54 + (e + k) - 53 - (e + k)) with 1 by lia.
      cbn [shr iter_pos].
      change (shr_1 (shr_record_of_loc (2 ^ 53) loc_Exact))
        with (Build_shr_record (2 ^ 52) false false).
      cbn [shr_m]. change (2 ^ 52) with (Zpos (Z.to_pos (2 ^ 52))) at 1.
      cbv iota beta.
      replace (e + k + 1 <=? 1024 - 53) with true by (symmetry; apply Z.leb_le; lia).
      now rewrite Z.add_assoc. }
    split; [reflexivity |]. split; [lia |].
    rewrite Hcarry in Herr. unfold P in Herr.
    rewrite Z.pow_add_r by lia.
    replace (Zpos (Z.to_pos (2 ^ 52)) * (2 ^ k * 2 ^ 1) * D)
      with (2 ^ 53 * (D * 2 ^ k)) by (change (Zpos (Z.to_pos (2 ^ 52))) with (2 ^ 52); change (2 ^ 53) with (2 ^ 52 * 2); change (2 ^ 1) with 2; lia).
    exact Herr.
  - assert (Hmr : 2 ^ 52 <= mr < 2 ^ 53) by lia.
    destruct mr as [| pr | pr] eqn:Emr; [lia | | lia].
    exists pr, k.
    assert (Hdig : Zpos (digits2_pos pr) = 53) by (apply digits_unique; exact Hmr).
    split.
    { unfold shr_fexp. cbn [Zdigits2]. rewrite Hdig.
      rewrite fexp_normal by lia.
      replace (53 + (e + k) - 53 - (e + k)) with 0 by lia.
      cbn [shr shr_record_of_loc shr_m].
      replace (e + k <=? 1024 - 53) with true by (symmetry; apply Z.leb_le; lia).
      reflexivity. }
    split; [injection Hdig as ->; reflexivity |]. split; [lia |].
    unfold P in Herr.
    replace (Zpos pr * 2 ^ k * D) with (Zpos pr * (D * 2 ^ k)) by lia.
    exact Herr.
Qed.

Lemma digits_range (p : positive) (lo hi : Z) :
  2 ^ lo <= Zpos p < 2 ^ hi -> 0 <= lo ->
  lo < Zpos (digits2_pos p) <= hi.
Proof.
  intros [Hlo Hhi] H0. pose proof (digits_bounds p) as [Hlo' Hhi'].
  split.
  - apply (Z.pow_lt_mono_r_iff 2); lia.
  - assert (Zpos (digits2_pos p) - 1 < hi); [| lia].
    destruct (Z.le_gt_cases hi 0) as [Hneg | Hpos].
    + exfalso. assert (2 ^ hi <= 2 ^ 0) by (apply Z.pow_le_mono_r; lia).
      change (2 ^ 0) with 1 in *. lia.
    + apply (Z.pow_lt_mono_r_iff 2); lia.
Qed.

Lemma normal_in_spec (lo hi : Z) (x : float) :
  normal_in lo hi x = true ->
  exists m e, x = S754_finite false m e
              /\ Zpos (digits2_pos m) = 53 /\ lo <= e <= hi.
Proof.
  destruct x as [| | | [] m e]; try discriminate. cbn [normal_in].
  rewrite !andb_true_iff, Z.eqb_eq, !Z.leb_le. intros [[H1 H2] H3].
  exists m, e. auto.
Qed.

Lemma normal_in_intro (lo hi : Z) (m : positive) (e : Z) :
  Zpos (digits2_pos m) = 53 -> lo <= e <= hi ->
  normal_in lo hi (S754_finite false m e) = true.
Proof.
  intros H1 H2. cbn [normal_in].
  rewrite !andb_true_iff, Z.eqb_eq, !Z.leb_le. repeat split; lia.
Qed.

Lemma two_not_zero : ~ (2 == 0)%Q.
Proof. discriminate. Qed.

Lemma pow2_pos (e : Z) : (0 < 2 ^ e)%Q.
Proof. apply Qpower_0_lt. reflexivity. Qed.

Lemma inject_pow2 (n : Z) : 0 <= n -> (inject_Z (2 ^ n) == 2 ^ n)%Q.
Proof. intros H. now rewrite Zpower_Qpower. Qed.

Lemma exact_value_finite (m : positive) (e : Z) :
  (exact_value (S754_finite false m e) == inject_Z (Zpos m) * 2 ^ e)%Q.
Proof.
  unfold exact_value, Float.to_frac. destruct e as [| p | p].
  - rewrite Z.pow_0_r, Z.mul_1_r. change (2 ^ 0)%Q with 1%Q.
    rewrite Qmult_1_r. reflexivity.
  - change (Zpos m * 2 ^ Zpos p # 1) with (inject_Z (Zpos m * 2 ^ Zpos p)).
    rewrite inject_Z_mult, inject_pow2 by lia. reflexivity.
  - rewrite Qmake_Qdiv, Pos2Z.inj_pow.
    rewrite inject_pow2 by lia.
    change (Zneg p) with (- Zpos p). rewrite Qpower_opp. reflexivity.
Qed.

Lemma exact_value_zero (s : bool) : (exact_value (S754_zero s) == 0)%Q.
Proof. reflexivity. Qed.

(** From an error bound on integers to the same bound on scaled values. *)
Lemma scaled_error (A B : Z) (s : Q) :
  (0 < s)%Q ->
  Z.abs (A - B) * 2 ^ 53 <= A ->
  (Qabs (inject_Z B * s - inject_Z A * s)
   <= (1 # 9007199254740992) * (inject_Z A * s))%Q.
Proof.
  intros Hs H.
  assert (H1 : A * 2 ^ 53 <= A + B * 2 ^ 53) by lia.
  assert (H2 : B * 2 ^ 53 <= A + A * 2 ^ 53) by lia.
  rewrite Zle_Qle in H1, H2.
  rewrite !inject_Z_plus, !inject_Z_mult in H1, H2.
  change (inject_Z (2 ^ 53)) with 9007199254740992%Q in H1, H2.
  set (a := inject_Z A) in *. set (b := inject_Z B) in *.
  apply Qabs_Qle_condition.
  assert (Ha : (- ((1 # 9007199254740992) * a) <= b - a
                /\ b - a <= (1 # 9007199254740992) * a)%Q) by (split; lra).
  destruct Ha as [Ha1 Ha2].
  apply (Qmult_le_compat_r _ _ s) in Ha1; [| lra].
  apply (Qmult_le_compat_r _ _ s) in Ha2; [| lra].
  split; lra.
Qed.

Lemma exact_shifted (q : Z) : 0 <= q -> shifted q 1 0 (shr_record_of_loc q loc_Exact).
Proof.
  intros Hq. split; [exact Hq |]. exists 0. cbn [shr_record_of_loc shr_m shr_r shr_s Z.b2z].
  rewrite Z.pow_0_r. split; [lia |]. split; [lia |]. split; [discriminate | lia].
Qed.

(** A product of two doubles is rounded with a relative error of at most
    [2^-53]. *)
Lemma mul_correct (x y : float) (a b c d : Z) :
  normal_in a b x = true -> normal_in c d y = true ->
  -1126 <= a + c -> b + d <= 917 ->
  normal_in (a + c + 52) (b + d + 54) (Float.mul x y) = true
  /\ (Qabs (exact_value (Float.mul x y) - exact_value x * exact_value y)
      <= (1 # 9007199254740992) * (exact_value x * exact_value y))%Q.
Proof.
  intros Hx Hy Hlo Hhi.
  apply normal_in_spec in Hx, Hy.
  destruct Hx as (mx & ex & -> & Hdx & Hex).
  destruct Hy as (my & ey & -> & Hdy & Hey).
  pose proof (digits_bounds mx) as Bx. pose proof (digits_bounds my) as By.
  rewrite Hdx in Bx. rewrite Hdy in By.
  change (2 ^ (53 - 1)) with (2 ^ 52) in *.
  assert (Hprod : 2 ^ 104 <= Zpos (mx * my) < 2 ^ 106).
  { rewrite Pos2Z.inj_mul.
    change (2 ^ 104) with (2 ^ 52 * 2 ^ 52). change (2 ^ 106) with (2 ^ 53 * 2 ^ 53).
    split; nia. }
  pose proof (digits_range _ 104 106 Hprod ltac:(lia)) as Hdq.
  destruct (binary_round_aux_correct false (mx * my) (ex + ey) loc_Exact
              (Zpos (mx * my)) 1) as (m & j & Heq & Hdm & Hj & Herr);
    [lia | apply exact_shifted; lia | lia | lia |].
  unfold Float.mul, SFmul, Float.prec, Float.emax. cbn [xorb]. rewrite Heq.
  split.
  - apply normal_in_intro; [now rewrite Hdm | lia].
  - rewrite !exact_value_finite.
    assert (E1 : (inject_Z (Zpos m) * 2 ^ (ex + ey + j)
                  == inject_Z (Zpos m * 2 ^ j) * 2 ^ (ex + ey))%Q).
    { rewrite (Qpower_plus 2 (ex + ey) j two_not_zero).
      rewrite inject_Z_mult, inject_pow2 by lia. ring. }
    assert (E2 : (inject_Z (Zpos mx) * 2 ^ ex * (inject_Z (Zpos my) * 2 ^ ey)
                  == inject_Z (Zpos (mx * my)) * 2 ^ (ex + ey))%Q).
    { rewrite (Qpower_plus 2 ex ey two_not_zero).
      rewrite Pos2Z.inj_mul, inject_Z_mult. ring. }
    rewrite E1, E2. apply scaled_error; [apply pow2_pos |].
    replace (Zpos m * 2 ^ j) with (Zpos m * 2 ^ j * 1) by lia. exact Herr.
Qed.

Lemma iter_xO (p n : positive) : Zpos (Pos.iter xO p n) = Zpos p * 2 ^ Zpos n.
Proof.
  induction n as [| n IH] using Pos.peano_ind.
  - cbn [Pos.iter]. rewrite Pos2Z.inj_xO. change (2 ^ 1) with 2. lia.
  - rewrite Pos.iter_succ, Pos2Z.inj_xO, IH, Pos2Z.inj_succ, Z.pow_succ_r by lia. lia.
Qed.

(** An integer below [2^53] is a double, exactly. *)
Lemma of_Z_correct (z : Z) :
  1 <= z < 2 ^ 53 ->
  normal_in (-52) 0 (Float.of_Z z) = true
  /\ (exact_value (Float.of_Z z) == inject_Z z)%Q.
Proof.
  intros Hz. destruct z as [| p | p]; try lia.
  assert (Hp : 2 ^ 0 <= Zpos p < 2 ^ 53) by (change (2 ^ 0) with 1; lia).
  pose proof (digits_range _ 0 53 Hp ltac:(lia)) as Hd.
  pose proof (digits_bounds p) as Bp.
  remember (Zpos (digits2_pos p)) as d eqn:Ed.
  remember (53 - d) as n eqn:En.
  assert (Hal : exists mz,
             shl_align p 0 (fexp 53 1024 (d + 0)) = (mz, - n)
             /\ Zpos mz = Zpos p * 2 ^ n).
  { rewrite fexp_normal by lia. unfold shl_align.
    replace (d + 0 - 53 - 0) with (- n) by lia.
    destruct n as [| n' | n']; [| | lia].
    - exists p. cbn [Z.opp]. rewrite Z.pow_0_r. split; [reflexivity | lia].
    - cbn [Z.opp]. eexists. split; [f_equal; lia |]. apply iter_xO. }
  destruct Hal as (mz & Hal & Hmz).
  assert (Hn : 0 <= n) by lia.
  assert (Hmz52 : 2 ^ 52 <= Zpos mz < 2 ^ 53).
  { rewrite Hmz.
    assert (E1 : 2 ^ 52 = 2 ^ (d - 1) * 2 ^ n)
      by (rewrite <- Z.pow_add_r by lia; f_equal; lia).
    assert (E2 : 2 ^ 53 = 2 ^ d * 2 ^ n)
      by (rewrite <- Z.pow_add_r by lia; f_equal; lia).
    assert (0 < 2 ^ n) by (apply Z.pow_pos_nonneg; lia).
    rewrite E1, E2. split; nia. }
  assert (Hdz : Zpos (digits2_pos mz) = 53) by (apply digits_unique; exact Hmz52).
  destruct (binary_round_aux_correct false mz (- n) loc_Exact (Zpos mz) 1)
    as (m & j & Heq & Hdm & Hj & Herr);
    [lia | apply exact_shifted; lia | lia | lia |].
  pose proof (digits_bounds m) as Bm. rewrite Hdm in Bm.
  change (2 ^ (53 - 1)) with (2 ^ 52) in Bm.
  assert (Hj0 : j = 0).
  { destruct (Z.eq_dec j 0) as [| Hne]; [assumption | exfalso].
    assert (j = 1) by lia. subst j. change (2 ^ 1) with 2 in Herr.
    change (2 ^ 53) with (2 * 2 ^ 52) in *. lia. }
  subst j. rewrite Z.pow_0_r in Herr.
  assert (Hmm : m = mz).
  { assert (Zpos m = Zpos mz); [| congruence].
    change (2 ^ 53) with 9007199254740992 in *. lia. }
  subst m.
  assert (Hof : Float.of_Z (Zpos p) = S754_finite false mz (- n)).
  { unfold Float.of_Z, binary_normalize, binary_round, Float.prec, Float.emax.
    rewrite <- Ed, Hal, Heq. now rewrite Z.add_0_r. }
  rewrite Hof. split.
  - apply normal_in_intro; [exact Hdz | lia].
  - rewrite exact_value_finite, Hmz, inject_Z_mult, inject_pow2 by lia.
    rewrite Qpower_opp. field. apply Qpower_not_0. exact two_not_zero.
Qed.

(** The location that [SFdiv_core_binary] computes for a remainder. *)
Lemma new_location_shifted (N D q r : Z) :
  0 < D -> 0 <= q -> N = D * q + r -> 0 <= r < D ->
  shifted N D 0 (shr_record_of_loc q (new_location D r)).
Proof.
  intros HD Hq HN Hr.
  assert (Hpar : Z.even D = false -> D <> 2 * r).
  { intros Hodd ->. rewrite Z.even_mul in Hodd. discriminate. }
  unfold shifted, new_location, new_location_even, new_location_odd.
  rewrite Z.pow_0_r.
  destruct (Z.even D); [| specialize (Hpar eq_refl)];
    destruct (Z.eqb_spec r 0) as [-> | Hr0];
    try (cbn [shr_record_of_loc shr_m shr_r shr_s Z.b2z];
         split; [lia |]; exists 0;
         split; [lia |]; split; [lia |]; split; [discriminate | lia]).
  - destruct (Z.compare_spec (2 * r) D) as [He | Hl | Hg];
      cbn [shr_record_of_loc shr_m shr_r shr_s Z.b2z]; (split; [lia |]).
    + exists 0. split; [lia |]. split; [lia |]. split; [discriminate | lia].
    + exists (2 * r). split; [lia |]. split; [lia |]. split; [lia | reflexivity].
    + exists (2 * r - D). split; [lia |]. split; [lia |]. split; [lia | reflexivity].
  - destruct (Z.compare_spec (2 * r + 1) D) as [He | Hl | Hg];
      cbn [shr_record_of_loc shr_m shr_r shr_s Z.b2z]; (split; [lia |]).
    + exists (2 * r). split; [lia |]. split; [lia |]. split; [lia | reflexivity].
    + exists (2 * r). split; [lia |]. split; [lia |]. split; [lia | reflexivity].
    + exists (2 * r - D). split; [lia |]. split; [lia |]. split; [lia | reflexivity].
Qed.

(** A quotient of two positive doubles is rounded with a relative error of
    at most [2^-53]; the bound is stated without a division. *)
Lemma div_correct (mx my : positive) (ex ey : Z) :
  let dx := Zpos (digits2_pos mx) in
  let dy := Zpos (digits2_pos my) in
  let x := S754_finite false mx ex in
  let y := S754_finite false my ey in
  dx <= dy + 53 ->
  -1021 <= dx + ex - (dy + ey) <= 1022 ->
  normal_in (dx + ex - (dy + ey) - 53) (dx + ex - (dy + ey) - 51) (Float.div x y) = true
  /\ (Qabs (exact_value (Float.div x y) * exact_value y - exact_value x)
      <= (1 # 9007199254740992) * exact_value x)%Q.
Proof.
  cbv zeta. intros Hdxy Hrange.
  pose proof (digits_bounds mx) as Bx. pose proof (digits_bounds my) as By.
  remember (Zpos (digits2_pos mx)) as dx eqn:Edx.
  remember (Zpos (digits2_pos my)) as dy eqn:Edy.
  assert (Hdx1 : 1 <= dx) by lia. assert (Hdy1 : 1 <= dy) by lia.
  remember (dx + ex - (dy + ey) - 53) as e' eqn:Ee'.
  remember (53 + dy - dx) as s eqn:Es.
  assert (Hs : 0 <= s) by lia.
  set (N := Zpos mx * 2 ^ s).
  set (D := Zpos my).
  assert (Hcore : SFdiv_core_binary 53 1024 (Zpos mx) ex (Zpos my) ey
                  = (N / D, e', new_location D (N mod D))).
  { unfold SFdiv_core_binary. cbn [Zdigits2]. rewrite <- Edx, <- Edy.
    rewrite fexp_normal by lia.
    rewrite Z.min_l by lia.
    replace (dx + ex - (dy + ey) - 53) with e' by lia.
    replace (ex - ey - e') with s by lia.
    assert (Hm' : match s with
                  | 0 => Zpos mx
                  | Zpos _ => Z.shiftl (Zpos mx) s
                  | Zneg _ => 0
                  end = N).
    { unfold N. destruct s as [| p | p]; [| | lia].
      - rewrite Z.pow_0_r. lia.
      - now rewrite Z.shiftl_mul_pow2 by lia. }
    rewrite Hm'. unfold Z.div, Z.modulo, D.
    destruct (Z.div_eucl N (Zpos my)) as [q r]. reflexivity. }
  assert (HD : 0 < D) by (unfold D; lia).
  pose proof (Z.div_mod N D ltac:(lia)) as Hdm.
  pose proof (Z.mod_pos_bound N D HD) as Hmod.
  set (q := N / D) in *. set (r := N mod D) in *.
  assert (H2s : 0 < 2 ^ s) by (apply Z.pow_pos_nonneg; lia).
  assert (HNlo : 2 ^ 52 * 2 ^ dy <= N).
  { unfold N. replace (2 ^ 52 * 2 ^ dy) with (2 ^ (dx - 1) * 2 ^ s)
      by (rewrite <- !Z.pow_add_r by lia; f_equal; lia).
    nia. }
  assert (HNhi : N < 2 ^ 54 * 2 ^ (dy - 1)).
  { unfold N. replace (2 ^ 54 * 2 ^ (dy - 1)) with (2 ^ dx * 2 ^ s)
      by (rewrite <- !Z.pow_add_r by lia; f_equal; lia).
    nia. }
  assert (Hq : 2 ^ 52 <= q < 2 ^ 54).
  { fold D in By. split.
    - assert (2 ^ 52 * D < (q + 1) * D) by nia. nia.
    - assert (q * D < 2 ^ 54 * D) by nia. nia. }
  destruct q as [| pq | pq] eqn:Eq; [lia | | lia].
  pose proof (digits_range pq 52 54 Hq ltac:(lia)) as Hdq.
  destruct (binary_round_aux_correct false pq e' (new_location D r) N D)
    as (m & j & Heq & Hdm' & Hj & Herr);
    [exact HD | apply new_location_shifted; lia | lia | lia |].
  assert (Hdiv : Float.div (S754_finite false mx ex) (S754_finite false my ey)
                 = S754_finite false m (e' + j)).
  { unfold Float.div, SFdiv, Float.prec, Float.emax. rewrite Hcore.
    cbn [xorb]. exact Heq. }
  rewrite Hdiv. split.
  - apply normal_in_intro; [now rewrite Hdm' | lia].
  - rewrite !exact_value_finite.
    assert (E1 : (inject_Z (Zpos m) * 2 ^ (e' + j) * (inject_Z (Zpos my) * 2 ^ ey)
                  == inject_Z (Zpos m * 2 ^ j * D) * 2 ^ (e' + ey))%Q).
    { rewrite (Qpower_plus 2 e' j two_not_zero).
      rewrite (Qpower_plus 2 e' ey two_not_zero).
      unfold D. rewrite !inject_Z_mult, inject_pow2 by lia. ring. }
    assert (E2 : (inject_Z (Zpos mx) * 2 ^ ex
                  == inject_Z N * 2 ^ (e' + ey))%Q).
    { replace ex with (s + (e' + ey)) at 1 by lia.
      rewrite (Qpower_plus 2 s (e' + ey) two_not_zero).
      unfold N. rewrite inject_Z_mult, inject_pow2 by lia. ring. }
    rewrite E1, E2. apply scaled_error; [apply pow2_pos | exact Herr].
Qed.

(** Rounding a fraction to the nearest integer, ties to even, moves it by
    at most one half. *)
Lemma round_half_even_close (num : Z) (den : positive) :
  0 <= num ->
  0 <= Float.round_half_even num den
  /\ Z.abs (2 * (Float.round_half_even num den * Zpos den - num)) <= Zpos den.
Proof.
  intros Hnum. unfold Float.round_half_even.
  pose proof (Z.div_mod num (Zpos den) ltac:(lia)) as Hdm.
  pose proof (Z.mod_pos_bound num (Zpos den) ltac:(lia)) as Hmod.
  pose proof (Z.div_pos num (Zpos den) Hnum ltac:(lia)) as Hq.
  set (q := num / Zpos den) in *. set (r := num mod Zpos den) in *.
  destruct (Z.compare_spec (2 * r) (Zpos den)) as [He | Hl | Hg];
    try destruct (Z.even q); split; lia.
Qed.

Lemma exact_value_pos (lo hi : Z) (x : float) :
  normal_in lo hi x = true -> (0 < exact_value x)%Q.
Proof.
  intros H. apply normal_in_spec in H. destruct H as (m & e & -> & _ & _).
  rewrite exact_value_finite.
  apply Qmult_lt_0_compat; [reflexivity | apply pow2_pos].
Qed.

Lemma exact_value_below (lo : Z) (x : float) :
  normal_in lo 0 x = true -> (exact_value x <= 9007199254740992)%Q.
Proof.
  intros H. apply normal_in_spec in H. destruct H as (m & e & -> & Hd & He).
  pose proof (digits_bounds m) as Bm. rewrite Hd in Bm.
  unfold exact_value, Float.to_frac.
  destruct e as [| p | p]; [| lia |].
  - rewrite Z.pow_0_r, Z.mul_1_r. unfold Qle. cbn [Qnum Qden].
    change (2 ^ 53) with 9007199254740992 in Bm. lia.
  - unfold Qle. cbn [Qnum Qden].
    change (2 ^ 53) with 9007199254740992 in Bm.
    assert (1 <= Zpos (2 ^ p)) by lia. nia.
Qed.

(** [round(x, 1)] of a positive double below [2^53] differs from it by at
    most 0.05 and a relative [2^-53]. *)
Lemma py_round_1_correct (lo : Z) (x : float) :
  normal_in lo 0 x = true ->
  (Qabs (exact_value (Float.py_round_nd x 1) - exact_value x)
   <= (1 # 20) + (1 # 9007199254740992) * (exact_value x + (1 # 20)))%Q
  /\ Float.to_frac (Float.py_round_nd x 1) <> None.
Proof.
  intros Hx. pose proof (exact_value_below lo x Hx) as Hbelow.
  pose proof (exact_value_pos lo 0 x Hx) as Hpos.
  apply normal_in_spec in Hx. destruct Hx as (m & e & Ex & Hd & He).
  assert (Hfr : exists n d, Float.to_frac x = Some (n, d) /\ 0 <= n
                            /\ exact_value x = n # d).
  { subst x. unfold exact_value, Float.to_frac.
    destruct e as [| p | p]; [| lia |]; eexists _, _;
      (split; [reflexivity |]); (split; [lia | reflexivity]). }
  destruct Hfr as (n & d & Hfrac & Hn & HX). clear Ex.
  unfold Float.py_round_nd. rewrite Hfrac. rewrite HX in *.
  change (Pos.pow 10 1) with 10%positive.
  destruct (round_half_even_close (n * 10) d ltac:(lia)) as [Hk0 Hk].
  assert (HkQ : (Qabs (inject_Z (Float.round_half_even (n * 10) d) - 10 * (n # d))
                 <= 1 # 2)%Q).
  { apply Qabs_Qle_condition.
    set (k := Float.round_half_even (n * 10) d) in *.
    split; unfold Qle, Qminus, Qplus, Qmult, Qopp, inject_Z; cbn [Qnum Qden]; lia. }
  destruct (Float.round_half_even (n * 10) d) as [| k | k] eqn:Ek; [| | lia].
  - (* the result is zero *)
    split; [| discriminate].
    rewrite exact_value_zero.
    apply Qabs_Qle_condition in HkQ. apply Qabs_Qle_condition.
    change (inject_Z 0) with 0%Q in HkQ. split; lra.
  - assert (HkB : Zpos k < 2 ^ 57).
    { apply Qabs_Qle_condition in HkQ.
      assert (Hlt : (inject_Z (Zpos k) < inject_Z (2 ^ 57))%Q).
      { change (inject_Z (2 ^ 57)) with 144115188075855872%Q. lra. }
      now rewrite <- Zlt_Qlt in Hlt. }
    assert (Hk1 : 2 ^ 0 <= Zpos k < 2 ^ 57) by (change (2 ^ 0) with 1; lia).
    pose proof (digits_range k 0 57 Hk1 ltac:(lia)) as Hdk.
    destruct (div_correct k 10 0 0) as [Hnorm Herr].
    { change (Zpos (digits2_pos 10)) with 4. lia. }
    { change (Zpos (digits2_pos 10)) with 4. lia. }
    cbv zeta in Hnorm, Herr.
    split.
    + set (R := Float.div (S754_finite false k 0) (S754_finite false 10 0)) in *.
      change (exact_value (S754_finite false 10 0)) with (10 # 1)%Q in Herr.
      assert (EK : (exact_value (S754_finite false k 0) == inject_Z (Zpos k))%Q).
      { rewrite exact_value_finite. change (2 ^ 0)%Q with 1%Q. ring. }
      rewrite EK in Herr.
      apply Qabs_Qle_condition in HkQ, Herr. apply Qabs_Qle_condition.
      split; lra.
    + apply normal_in_spec in Hnorm. destruct Hnorm as (m' & e' & -> & _ & _).
      destruct e'; discriminate.
Qed.

Lemma normal_in_weaken (lo hi lo' hi' : Z) (x : float) :
  lo' <= lo -> hi <= hi' ->
  normal_in lo hi x = true -> normal_in lo' hi' x = true.
Proof.
  intros Hlo Hhi H. apply normal_in_spec in H.
  destruct H as (m & e & -> & Hd & He). apply normal_in_intro; [exact Hd | lia].
Qed.

Lemma normal_in_finite (lo hi : Z) (x : float) :
  normal_in lo hi x = true -> Float.to_frac x <> None.
Proof.
  intros H. apply normal_in_spec in H. destruct H as (m & e & -> & _ & _).
  destruct e; discriminate.
Qed.

(** The divisors 4.0 and 9.0 of [compute_macros]. *)
Lemma four_and_nine :
  Float.lit 40 10 = S754_finite false 4503599627370496 (-50)
  /\ Float.lit 90 10 = S754_finite false 5066549580791808 (-49).
Proof. split; vm_compute; reflexivity. Qed.

(** One gram value before rounding: [calories * pct / w] for the divisor
    [w], with a relative error of at most [3 * 2^-53]. *)
Lemma gram_correct (cal : Z) (pct dv : float) (w : Q) :
  1 <= cal < 2 ^ 53 ->
  normal_in (-55) (-53) pct = true ->
  normal_in (-50) (-49) dv = true ->
  (exact_value dv == w)%Q ->
  let g := Float.div (Float.mul (Float.of_Z cal) pct) dv in
  normal_in (-59) 0 g = true
  /\ (Qabs (w * exact_value g - inject_Z cal * exact_value pct)
      <= (3 # 9007199254740992) * (inject_Z cal * exact_value pct))%Q.
Proof.
  intros Hcal Hpct Hdv Hw. cbv zeta.
  destruct (of_Z_correct cal Hcal) as [Hc Ec].
  pose proof (exact_value_pos _ _ _ Hpct) as Hp0.
  destruct (mul_correct _ _ _ _ _ _ Hc Hpct ltac:(lia) ltac:(lia)) as [Hm Em].
  rewrite Ec in Em.
  set (x1 := Float.mul (Float.of_Z cal) pct) in *.
  pose proof Hm as Hm'. apply normal_in_spec in Hm'.
  destruct Hm' as (m1 & e1 & E1 & Hd1 & He1).
  pose proof Hdv as Hdv'. apply normal_in_spec in Hdv'.
  destruct Hdv' as (md & ed & Ed & Hdd & Hed).
  destruct (div_correct m1 md e1 ed) as [Hg Eg];
    [rewrite Hd1, Hdd; lia | rewrite Hd1, Hdd; lia |].
  cbv zeta in Hg, Eg. rewrite Hd1, Hdd in Hg. rewrite <- E1, <- Ed in Hg, Eg.
  split.
  - revert Hg. apply normal_in_weaken; lia.
  - rewrite Hw in Eg.
    assert (Hc0 : (1 <= inject_Z cal)%Q)
      by (change 1%Q with (inject_Z 1); rewrite <- Zle_Qle; lia).
    assert (HX : (0 <= inject_Z cal * exact_value pct)%Q)
      by (apply Qmult_le_0_compat; lra).
    set (X := (inject_Z cal * exact_value pct)%Q) in *.
    set (v1 := exact_value x1) in *.
    set (v2 := exact_value (Float.div x1 dv)) in *.
    apply Qabs_Qle_condition in Em, Eg. apply Qabs_Qle_condition.
    split; lra.
Qed.

(** The exact energy of three finite gram values. *)
Lemma exact_energy_value (a b c : float) :
  Float.to_frac a <> None -> Float.to_frac b <> None -> Float.to_frac c <> None ->
  exists E,
    exact_energy (a, b, c) = Some E
    /\ (E == 4 * exact_value a + 4 * exact_value b + 9 * exact_value c)%Q.
Proof.
  intros Ha Hb Hc. unfold exact_energy, Float.to_Q, exact_value.
  destruct (Float.to_frac a) as [[na da] |]; [| contradiction].
  destruct (Float.to_frac b) as [[nb db] |]; [| contradiction].
  destruct (Float.to_frac c) as [[nc dc] |]; [| contradiction].
  eexists. split; [reflexivity |].
  rewrite !Qred_correct. reflexivity.
Qed.

(** The energy of the gram values of [compute_macros], before and after
    the rounding to one decimal, for percentages that add up to 1 within
    [2^-54]. *)
Lemma energy_bound (cal : Z) (p c f : float) :
  0 <= cal < 2 ^ 53 ->
  normal_in (-55) (-53) p = true ->
  normal_in (-55) (-53) c = true ->
  normal_in (-55) (-53) f = true ->
  (Qabs (exact_value p + exact_value c + exact_value f - 1)
   <= 1 # 18014398509481984)%Q ->
  let '(pg, cg, fg) := macro_grams cal (p, c, f) in
  exists E E',
    exact_energy (pg, cg, fg) = Some E
    /\ (Qabs (E - inject_Z cal) <= inject_Z cal * (1 # 2251799813685248))%Q
    /\ exact_energy (Float.py_round_nd pg 1, Float.py_round_nd cg 1,
                     Float.py_round_nd fg 1) = Some E'
    /\ (Qabs (E' - inject_Z cal)
        <= (17 # 20) + inject_Z cal * (1 # 1125899906842624))%Q.
Proof.
  intros Hcal Hp Hc Hf Hsum. unfold macro_grams.
  destruct four_and_nine as [-> ->].
  destruct (Z.eq_dec cal 0) as [-> | Hne].
  - (* no calories: every gram value is zero *)
    apply normal_in_spec in Hp, Hc, Hf.
    destruct Hp as (mp & ep & -> & _). destruct Hc as (mc & ec & -> & _).
    destruct Hf as (mf & ef & -> & _).
    exists 0%Q, 0%Q. repeat split; vm_compute; congruence.
  - assert (Hcal1 : 1 <= cal < 2 ^ 53) by lia.
    destruct (gram_correct cal p (S754_finite false 4503599627370496 (-50)) 4
                Hcal1 Hp eq_refl ltac:(reflexivity)) as [Np Ep].
    destruct (gram_correct cal c (S754_finite false 4503599627370496 (-50)) 4
                Hcal1 Hc eq_refl ltac:(reflexivity)) as [Nc Ec].
    destruct (gram_correct cal f (S754_finite false 5066549580791808 (-49)) 9
                Hcal1 Hf eq_refl ltac:(reflexivity)) as [Nf Ef].
    cbv zeta in *.
    set (pg := Float.div (Float.mul (Float.of_Z cal) p) _) in *.
    set (cg := Float.div (Float.mul (Float.of_Z cal) c) _) in *.
    set (fg := Float.div (Float.mul (Float.of_Z cal) f) _) in *.
    destruct (py_round_1_correct _ _ Np) as [Rp Fp].
    destruct (py_round_1_correct _ _ Nc) as [Rc Fc].
    destruct (py_round_1_correct _ _ Nf) as [Rf Ff].
    destruct (exact_energy_value pg cg fg) as (E & HE & EE);
      try (eapply normal_in_finite; eassumption).
    destruct (exact_energy_value _ _ _ Fp Fc Ff) as (E' & HE' & EE').
    pose proof (exact_value_pos _ _ _ Hp) as Pp.
    pose proof (exact_value_pos _ _ _ Hc) as Pc.
    pose proof (exact_value_pos _ _ _ Hf) as Pf.
    assert (Hc0 : (1 <= inject_Z cal)%Q)
      by (change 1%Q with (inject_Z 1); rewrite <- Zle_Qle; lia).
    apply Qabs_Qle_condition in Ep, Ec, Ef, Hsum, Rp, Rc, Rf.
    set (k := inject_Z cal) in *.
    set (P := exact_value p) in *. set (C := exact_value c) in *.
    set (F := exact_value f) in *.
    set (gp := exact_value pg) in *. set (gc := exact_value cg) in *.
    set (gf := exact_value fg) in *.
    assert (Hs1 : (k * (P + C + F - 1) <= k * (1 # 18014398509481984))%Q)
      by (apply Qmult_le_l; lra).
    assert (Hs2 : (k * - (1 # 18014398509481984) <= k * (P + C + F - 1))%Q)
      by (apply Qmult_le_l; lra).
    assert (HEk : (- (k * (1 # 2251799813685248)) <= E - k
                   /\ E - k <= k * (1 # 2251799813685248))%Q).
    { rewrite EE. split; lra. }
    exists E, E'. split; [exact HE |]. split; [| split; [exact HE' |]].
    + apply Qabs_Qle_condition. exact HEk.
    + apply Qabs_Qle_condition. rewrite EE'. rewrite EE in HEk.
      split; lra.
Qed.

(** *** Negative calories: every step commutes with the change of sign *)

Lemma binary_round_aux_opp (m e : Z) (l : location) :
  binary_round_aux 53 1024 true m e l
  = SFopp (binary_round_aux 53 1024 false m e l).
Proof.
  unfold binary_round_aux.
  destruct (shr_fexp 53 1024 m e l) as [mrs' e'].
  destruct (shr_fexp 53 1024 _ e' loc_Exact) as [mrs'' e''].
  destruct (shr_m mrs''); [reflexivity | | reflexivity].
  destruct (e'' <=? 1024 - 53); reflexivity.
Qed.

Lemma of_Z_opp (p : positive) :
  Float.of_Z (Zneg p) = SFopp (Float.of_Z (Zpos p)).
Proof.
  unfold Float.of_Z, binary_normalize, binary_round, Float.prec, Float.emax.
  destruct (shl_align p 0 _) as [mz ez]. apply binary_round_aux_opp.
Qed.

Lemma mul_opp (mx my : positive) (ex ey : Z) :
  Float.mul (S754_finite true mx ex) (S754_finite false my ey)
  = SFopp (Float.mul (S754_finite false mx ex) (S754_finite false my ey)).
Proof.
  unfold Float.mul, SFmul, Float.prec, Float.emax. cbn [xorb].
  apply binary_round_aux_opp.
Qed.

Lemma div_opp (mx my : positive) (ex ey : Z) :
  Float.div (S754_finite true mx ex) (S754_finite false my ey)
  = SFopp (Float.div (S754_finite false mx ex) (S754_finite false my ey)).
Proof.
  unfold Float.div, SFdiv, Float.prec, Float.emax. cbn [xorb].
  destruct (SFdiv_core_binary 53 1024 (Zpos mx) ex (Zpos my) ey) as [[mz ez] lz].
  apply binary_round_aux_opp.
Qed.

Lemma round_half_even_opp (num : Z) (den : positive) :
  Float.round_half_even (- num) den = - Float.round_half_even num den.
Proof.
  unfold Float.round_half_even.
  pose proof (Z.div_mod num (Zpos den) ltac:(lia)) as Hdm.
  pose proof (Z.mod_pos_bound num (Zpos den) ltac:(lia)) as Hmod.
  set (q := num / Zpos den) in *. set (r := num mod Zpos den) in *.
  destruct (Z.eq_dec r 0) as [Hr0 | Hr0].
  - assert (Hq' : - num / Zpos den = - q)
      by (symmetry; apply (Z.div_unique _ _ _ 0); lia).
    assert (Hr' : - num mod Zpos den = 0)
      by (symmetry; apply (Z.mod_unique _ _ (- q) 0); lia).
    rewrite Hq', Hr', Hr0. cbn [Z.mul Z.compare]. reflexivity.
  - assert (Hq' : - num / Zpos den = - q - 1)
      by (symmetry; apply (Z.div_unique _ _ _ (Zpos den - r)); lia).
    assert (Hr' : - num mod Zpos den = Zpos den - r)
      by (symmetry; apply (Z.mod_unique _ _ (- q - 1)); lia).
    rewrite Hq', Hr'.
    destruct (Z.compare_spec (2 * r) (Zpos den)) as [He | Hl | Hg];
      destruct (Z.compare_spec (2 * (Zpos den - r)) (Zpos den)) as [He' | Hl' | Hg'];
      try lia.
    replace (- q - 1) with (- (q + 1)) by lia.
    rewrite Z.even_opp, Z.even_add. cbn [Z.even].
    destruct (Z.even q); cbn [Bool.eqb]; lia.
Qed.

Lemma py_round_1_opp (lo hi : Z) (x : float) :
  normal_in lo hi x = true ->
  Float.py_round_nd (SFopp x) 1 = SFopp (Float.py_round_nd x 1).
Proof.
  intros Hx. apply normal_in_spec in Hx. destruct Hx as (m & e & -> & _ & _).
  cbn [SFopp negb]. unfold Float.py_round_nd.
  assert (Hfr : exists n d,
             Float.to_frac (S754_finite false m e) = Some (n, d)
             /\ Float.to_frac (S754_finite true m e) = Some (- n, d)
             /\ 0 <= n).
  { unfold Float.to_frac. destruct e as [| p | p]; eexists _, _;
      (split; [reflexivity |]); (split; [f_equal; f_equal; lia | lia]). }
  destruct Hfr as (n & d & -> & -> & Hn).
  replace (- n * Zpos (10 ^ 1)) with (- (n * Zpos (10 ^ 1))) by lia.
  rewrite round_half_even_opp.
  destruct (round_half_even_close (n * Zpos (10 ^ 1)) d ltac:(lia)) as [Hk0 _].
  destruct (Float.round_half_even (n * Zpos (10 ^ 1)) d) as [| k | k];
    [reflexivity | | lia].
  cbn [Z.opp]. apply div_opp.
Qed.

Lemma exact_value_opp (x : float) :
  (exact_value (SFopp x) == - exact_value x)%Q.
Proof.
  destruct x as [s | s | | s m e]; try reflexivity.
  unfold exact_value, Float.to_frac. cbn [SFopp].
  destruct s, e as [| p | p]; cbn [negb]; unfold Qeq, Qopp; cbn [Qnum Qden]; lia.
Qed.

Lemma to_frac_opp (x : float) :
  Float.to_frac x <> None -> Float.to_frac (SFopp x) <> None.
Proof. destruct x as [s | s | | s m [| p | p]]; cbn; congruence. Qed.

(** One gram value for negative calories. *)
Lemma gram_opp (z : positive) (pct dv : float) :
  Zpos z < 2 ^ 53 ->
  normal_in (-55) (-53) pct = true ->
  normal_in (-50) (-49) dv = true ->
  Float.div (Float.mul (Float.of_Z (Zneg z)) pct) dv
  = SFopp (Float.div (Float.mul (Float.of_Z (Zpos z)) pct) dv).
Proof.
  intros Hz Hpct Hdv.
  destruct (of_Z_correct (Zpos z) ltac:(lia)) as [Hc _].
  destruct (mul_correct _ _ _ _ _ _ Hc Hpct ltac:(lia) ltac:(lia)) as [Hm _].
  rewrite of_Z_opp.
  apply normal_in_spec in Hc, Hpct, Hdv, Hm.
  destruct Hc as (mc & ec & Ec & _). destruct Hpct as (mp & ep & -> & _).
  destruct Hdv as (md & ed & -> & _). destruct Hm as (m1 & e1 & Em & _).
  rewrite Ec in *. cbn [SFopp negb]. rewrite mul_opp, Em. cbn [SFopp negb].
  apply div_opp.
Qed.

(** The energy bounds for calories of either sign. *)
Lemma energy_bound_signed (cal : Z) (p c f : float) :
  - 2 ^ 53 < cal < 2 ^ 53 ->
  normal_in (-55) (-53) p = true ->
  normal_in (-55) (-53) c = true ->
  normal_in (-55) (-53) f = true ->
  (Qabs (exact_value p + exact_value c + exact_value f - 1)
   <= 1 # 18014398509481984)%Q ->
  let '(pg, cg, fg) := macro_grams cal (p, c, f) in
  exists E E',
    exact_energy (pg, cg, fg) = Some E
    /\ (Qabs (E - inject_Z cal)
        <= inject_Z (Z.abs cal) * (1 # 2251799813685248))%Q
    /\ exact_energy (Float.py_round_nd pg 1, Float.py_round_nd cg 1,
                     Float.py_round_nd fg 1) = Some E'
    /\ (Qabs (E' - inject_Z cal)
        <= (17 # 20) + inject_Z (Z.abs cal) * (1 # 1125899906842624))%Q.
Proof.
  intros Hcal Hp Hc Hf Hsum.
  destruct cal as [| z | z].
  - exact (energy_bound 0 p c f ltac:(lia) Hp Hc Hf Hsum).
  - exact (energy_bound (Zpos z) p c f ltac:(lia) Hp Hc Hf Hsum).
  - pose proof (energy_bound (Zpos z) p c f ltac:(lia) Hp Hc Hf Hsum) as Hpos.
    unfold macro_grams in *. destruct four_and_nine as [E4 E9].
    rewrite E4, E9 in *.
    rewrite !gram_opp by (lia || assumption || reflexivity).
    destruct (gram_correct (Zpos z) p (S754_finite false 4503599627370496 (-50)) 4
                ltac:(lia) Hp eq_refl ltac:(reflexivity)) as [Np _].
    destruct (gram_correct (Zpos z) c (S754_finite false 4503599627370496 (-50)) 4
                ltac:(lia) Hc eq_refl ltac:(reflexivity)) as [Nc _].
    destruct (gram_correct (Zpos z) f (S754_finite false 5066549580791808 (-49)) 9
                ltac:(lia) Hf eq_refl ltac:(reflexivity)) as [Nf _].
    cbv zeta in Np, Nc, Nf.
    set (pg := Float.div (Float.mul (Float.of_Z (Zpos z)) p) _) in *.
    set (cg := Float.div (Float.mul (Float.of_Z (Zpos z)) c) _) in *.
    set (fg := Float.div (Float.mul (Float.of_Z (Zpos z)) f) _) in *.
    rewrite (py_round_1_opp _ _ _ Np), (py_round_1_opp _ _ _ Nc),
      (py_round_1_opp _ _ _ Nf).
    destruct (py_round_1_correct _ _ Np) as [_ Fp].
    destruct (py_round_1_correct _ _ Nc) as [_ Fc].
    destruct (py_round_1_correct _ _ Nf) as [_ Ff].
    pose proof (normal_in_finite _ _ _ Np) as Gp.
    pose proof (normal_in_finite _ _ _ Nc) as Gc.
    pose proof (normal_in_finite _ _ _ Nf) as Gf.
    destruct Hpos as (E & E' & HE & HEb & HE' & HEb').
    destruct (exact_energy_value _ _ _ Gp Gc Gf) as (E0 & HE0 & EE).
    rewrite HE in HE0. injection HE0 as <-.
    destruct (exact_energy_value _ _ _ Fp Fc Ff) as (E0' & HE0' & EE').
    rewrite HE' in HE0'. injection HE0' as <-.
    destruct (exact_energy_value _ _ _ (to_frac_opp _ Gp) (to_frac_opp _ Gc)
                (to_frac_opp _ Gf)) as (En & HEn & EEn).
    destruct (exact_energy_value _ _ _ (to_frac_opp _ Fp) (to_frac_opp _ Fc)
                (to_frac_opp _ Ff)) as (En' & HEn' & EEn').
    exists En, En'. split; [exact HEn |]. split; [| split; [exact HEn' |]].
    + rewrite EEn, !exact_value_opp. rewrite EE in HEb.
      change (Z.abs (Zneg z)) with (Zpos z).
      change (inject_Z (Zneg z)) with (- inject_Z (Zpos z))%Q.
      apply Qabs_Qle_condition in HEb. apply Qabs_Qle_condition. split; lra.
    + rewrite EEn', !exact_value_opp. rewrite EE' in HEb'.
      change (Z.abs (Zneg z)) with (Zpos z).
      change (inject_Z (Zneg z)) with (- inject_Z (Zpos z))%Q.
      apply Qabs_Qle_condition in HEb'. apply Qabs_Qle_condition. split; lra.
Qed.

(** ** Energy consistency of the macro percentages *)

Lemma macro_percentages_sum (profile : UserProfile.t) :
  exists q,
    exact_sum (macro_percentages profile) = Some q
    /\ (Qabs (q - 1) <= 1 # 18014398509481984)%Q
    /\ (subtractive_adjustment profile = false -> q = 1%Q).
Proof.
  unfold macro_percentages, subtractive_adjustment. cbv zeta.
  destruct (smem "diabetes" _ || SpecialDietRules.low_gi _);
    destruct (SpecialDietRules.high_protein _);
    destruct (SpecialDietRules.weight_loss _);
    destruct (smem "kidney disease" _ || SpecialDietRules.renal _);
    destruct (smem "heart disease" _ || high_cholesterol _);
    (eexists; split; [vm_compute; reflexivity |];
     split; [apply Qle_bool_imp_le; vm_compute; reflexivity |];
     cbn; intros H; first [discriminate H | reflexivity]).
Qed.

(** The percentages of [compute_macros] are positive doubles between 0.125
    and 1 whose exact sum is within [2^-54] of 1, in each of the 32
    combinations of adjustments. *)
Lemma macro_percentages_normal (profile : UserProfile.t) :
  let '(p, c, f) := macro_percentages profile in
  normal_in (-55) (-53) p = true
  /\ normal_in (-55) (-53) c = true
  /\ normal_in (-55) (-53) f = true
  /\ (Qabs (exact_value p + exact_value c + exact_value f - 1)
      <= 1 # 18014398509481984)%Q.
Proof.
  unfold macro_percentages. cbv zeta.
  destruct (smem "diabetes" _ || SpecialDietRules.low_gi _);
    destruct (SpecialDietRules.high_protein _);
    destruct (SpecialDietRules.weight_loss _);
    destruct (smem "kidney disease" _ || SpecialDietRules.renal _);
    destruct (smem "heart disease" _ || high_cholesterol _);
    (split; [vm_compute; reflexivity |];
     split; [vm_compute; reflexivity |];
     split; [vm_compute; reflexivity |];
     apply Qle_bool_imp_le; vm_compute; reflexivity).
Qed.

(** C9 (as amended). Whenever the user has not supplied all three macro
    overrides, [compute_macros] returns the ratio-derived values. The
    macro percentages after every conditional adjustment are doubles whose
    exact sum lies within 2^-54 of 1, and is exactly 1 when none of the
    weight-loss, renal and heart adjustments applies. For every integer
    calories with |calories| < 2^53, the unrounded gram values satisfy
    4*protein_g + 4*carbs_g + 9*fats_g = calories up to |calories| * 2^-51
    (in exact arithmetic on the doubles), and the returned gram values,
    each rounded to one decimal, satisfy it up to
    0.85 + |calories| * 2^-50. *)
Theorem macro_energy_consistency (profile : UserProfile.t) (calories : Z) :
  overrides_complete (UserProfile.nutrition profile) = false ->
  - 2 ^ 53 < calories < 2 ^ 53 ->
  compute_macros profile calories = macros_from_ratios profile calories
  /\ (exists q,
        exact_sum (macro_percentages profile) = Some q
        /\ (Qabs (q - 1) <= 1 # 18014398509481984)%Q
        /\ (subtractive_adjustment profile = false -> q = 1%Q))
  /\ (exists E,
        exact_energy (macro_grams calories (macro_percentages profile)) = Some E
        /\ (Qabs (E - inject_Z calories)
            <= inject_Z (Z.abs calories) * (1 # 2251799813685248))%Q)
  /\ (exists E',
        exact_energy (grams_of (compute_macros profile calories)) = Some E'
        /\ (Qabs (E' - inject_Z calories)
            <= (17 # 20) + inject_Z (Z.abs calories) * (1 # 1125899906842624))%Q).
Proof.
  intros Hover Hcal.
  pose proof (compute_macros_falls_through profile calories Hover) as Hfall.
  split; [exact Hfall |]. split; [apply macro_percentages_sum |].
  rewrite Hfall. unfold macros_from_ratios, grams_of.
  pose proof (macro_percentages_normal profile) as Hn.
  destruct (macro_percentages profile) as [[p c] f].
  destruct Hn as (Hp & Hc & Hf & Hsum).
  pose proof (energy_bound_signed calories p c f Hcal Hp Hc Hf Hsum) as Hb.
  destruct (macro_grams calories (p, c, f)) as [[pg cg] fg].
  destruct Hb as (E & E' & HE & HEb & HE' & HEb').
  cbn [Macros.protein_g Macros.carbs_g Macros.fats_g].
  split; [exists E | exists E']; auto.
Qed.

Lemma macro_energy_consistency_witness :
  overrides_complete (UserProfile.nutrition plain_profile) = false
  /\ - 2 ^ 53 < 2008 < 2 ^ 53
  /\ compute_macros plain_profile 2008 = macros_from_ratios plain_profile 2008
  /\ (exists q,
        exact_sum (macro_percentages plain_profile) = Some q
        /\ (Qabs (q - 1) <= 1 # 18014398509481984)%Q
        /\ (subtractive_adjustment plain_profile = false -> q = 1%Q))
  /\ (exists E,
        exact_energy (macro_grams 2008 (macro_percentages plain_profile)) = Some E
        /\ (Qabs (E - inject_Z 2008)
            <= inject_Z (Z.abs 2008) * (1 # 2251799813685248))%Q)
  /\ (exists E',
        exact_energy (grams_of (compute_macros plain_profile 2008)) = Some E'
        /\ (Qabs (E' - inject_Z 2008)
            <= (17 # 20) + inject_Z (Z.abs 2008) * (1 # 1125899906842624))%Q).
Proof.
  split; [reflexivity |]. split; [lia |].
  exact (macro_energy_consistency plain_profile 2008 eq_refl ltac:(lia)).
Defined.

(** At 2008 kcal the unrounded gram values of the plain profile, whose
    percentages add up to exactly 1, carry 2^-44 kcal too much; those of
    the profile with high_protein and weight_loss carry 5 * 2^-46 kcal too
    little. *)
Example energy_gap_at_2008 :
  exact_energy (macro_grams 2008 (macro_percentages plain_profile))
  = Some (Qred (2008 + (1 # 17592186044416)))
  /\ exact_energy
       (macro_grams 2008
          (macro_percentages
             (sample_profile [] "veg" no_overrides high_protein_weight_loss)))
     = Some (Qred (2008 - (5 # 70368744177664))).
Proof. split; vm_compute; reflexivity. Qed.

(** C9 (as stated) fails. With high_protein and weight_loss set and no
    overrides, the percentages are 0.3, 0.4 and 1.0 - 0.3 - 0.4 =
    0.29999999999999993: their exact sum is 1 - 2^-54 and their Python sum
    is 0.9999999999999999, not 1. At 2008 kcal the unrounded gram values
    do not satisfy 4*protein_g + 4*carbs_g + 9*fats_g = calories, neither
    exactly nor as Python evaluates the left-hand side. *)
Lemma macro_percentages_counterexample :
  let profile := sample_profile [] "veg" no_overrides high_protein_weight_loss in
  let pcts := macro_percentages profile in
  let grams := macro_grams 2008 pcts in
  overrides_complete (UserProfile.nutrition profile) = false
  /\ pcts = (Float.lit 30 100, Float.lit 40 100,
             S754_finite false 5404319552844594 (-54))
  /\ exact_sum pcts = Some (18014398509481983 # 18014398509481984)%Q
  /\ exact_sum pcts <> Some 1%Q
  /\ float_sum pcts = S754_finite false 9007199254740991 (-53)
  /\ Float.eqb (float_sum pcts) (Float.of_Z 1) = false
  /\ exact_energy grams <> Some (inject_Z 2008)
  /\ Float.eqb (float_energy grams) (Float.of_Z 2008) = false.
Proof.
  cbv zeta. repeat split; try (vm_compute; reflexivity);
    vm_compute; discriminate.
Qed.

(** ** The 60% test on doubles *)

Lemma lt_ceil_div (c a : Z) (b : positive) : c * Zpos b < a <-> c < ceil_div a b.
Proof.
  unfold ceil_div.
  pose proof (Z.div_mod (- a) (Zpos b) ltac:(lia)) as Hdm.
  pose proof (Z.mod_pos_bound (- a) (Zpos b) ltac:(lia)) as Hr.
  split; intros H; nia.
Qed.

Lemma sixty_exact_sound (t : Z) :
  sixty_exact t = true ->
  forall c, below_60_percent c t = (5 * c <? 3 * t).
Proof.
  unfold sixty_exact, below_60_percent, Float.Z_ltb.
  set (x := Float.mul (Float.lit 6 10) (Float.of_Z t)).
  destruct (Float.to_frac x) as [[n d] |] eqn:Hf; [| discriminate].
  intros Heq c. apply Z.eqb_eq in Heq.
  assert (Hlt : (c * Zpos d <? n) = (5 * c <? 3 * t)).
  { apply eq_true_iff_eq. rewrite !Z.ltb_lt.
    rewrite (lt_ceil_div c n d), Heq, <- (lt_ceil_div c (3 * t) 5). lia. }
  destruct x; try discriminate Hf; exact Hlt.
Qed.

Lemma sixty_exact_from_sound (fuel : nat) (t0 : Z) :
  sixty_exact_from fuel t0 = true ->
  forall t, t0 <= t < t0 + Z.of_nat fuel -> sixty_exact t = true.
Proof.
  revert t0. induction fuel as [| k IH]; intros t0 Hall t Ht; [lia |].
  cbn [sixty_exact_from] in Hall. apply andb_true_iff in Hall.
  destruct Hall as [H0 Hrest].
  destruct (Z.eq_dec t t0) as [-> | Hne]; [exact H0 |].
  apply (IH (t0 + 1) Hrest). lia.
Qed.

(** For every calorie target from 0 to 4000 kcal, the code's test
    [current_cal < 0.6 * target_cal] on the double holds exactly when
    current_cal is below 60% of target_cal. *)
Lemma below_60_percent_exact (target_cal current_cal : Z) :
  0 <= target_cal <= 4000 ->
  below_60_percent current_cal target_cal = (5 * current_cal <? 3 * target_cal).
Proof.
  intros Ht. apply sixty_exact_sound.
  apply (sixty_exact_from_sound (Z.to_nat 4001) 0); [| lia].
  vm_compute. reflexivity.
Qed.

(* ===================================================================== *)
(** * Further properties                                                  *)
(* ===================================================================== *)

(** ** The constraints in closed form *)

Lemma if_same {A} (c : bool) (x : A) : (if c then x else x) = x.
Proof. now destruct c. Qed.

Lemma required_if (c : bool) (a b : Locals.t) :
  Locals.required (if c then a else b)
  = if c then Locals.required a else Locals.required b.
Proof. now destruct c. Qed.

Lemma avoid_if (c : bool) (a b : Locals.t) :
  Locals.avoid (if c then a else b)
  = if c then Locals.avoid a else Locals.avoid b.
Proof. now destruct c. Qed.

Lemma avoid_names_if (c : bool) (a b : Locals.t) :
  Locals.avoid_names (if c then a else b)
  = if c then Locals.avoid_names a else Locals.avoid_names b.
Proof. now destruct c. Qed.

Lemma allergens_if (c : bool) (a b : Locals.t) :
  Locals.allergens (if c then a else b)
  = if c then Locals.allergens a else Locals.allergens b.
Proof. now destruct c. Qed.

Lemma sodium_limit_if (c : bool) (a b : Locals.t) :
  Locals.sodium_limit (if c then a else b)
  = if c then Locals.sodium_limit a else Locals.sodium_limit b.
Proof. now destruct c. Qed.

Lemma explanations_if (c : bool) (a b : Locals.t) :
  Locals.explanations (if c then a else b)
  = if c then Locals.explanations a else Locals.explanations b.
Proof. now destruct c. Qed.

(** Two sets built from unions, singletons and the empty set have the same
    members. *)
Ltac same_members :=
  apply set_eq; intros ?x;
  repeat rewrite ?elem_of_union, ?elem_of_singleton, ?elem_of_empty;
  tauto.

Lemma union_if (c : bool) (s x : gset string) :
  (if c then s ∪ x else s) = s ∪ (if c then x else ∅).
Proof.
  destruct c; [reflexivity |]. apply set_eq. intros y.
  rewrite elem_of_union, elem_of_empty. tauto.
Qed.

(** Run one rule: unfold it, push the projection of a local through its
    test, and evaluate the updates. *)
Ltac through_rule rule push :=
  unfold rule; rewrite ?push;
  cbn [Locals.required Locals.prefer Locals.avoid Locals.avoid_names
       Locals.allergens Locals.sodium_limit Locals.explanations
       required_update prefer_update avoid_update avoid_names_update
       allergens_add sodium_limit_cap explanations_append];
  rewrite ?if_same, ?union_if.

(** Run the thirteen rules, the last one first. *)
Ltac through_rules push :=
  unfold apply_rules; cbv zeta;
  through_rule toggle_lactose_free push;
  through_rule toggle_gluten_free push;
  through_rule toggle_anti_inflammatory push;
  through_rule toggle_high_protein push;
  through_rule toggle_high_fiber push;
  through_rule toggle_low_gi push;
  through_rule rule_thyroid push;
  through_rule rule_gastric push;
  through_rule rule_pcos push;
  through_rule rule_kidney push;
  through_rule rule_heart push;
  through_rule rule_hypertension push;
  through_rule rule_diabetes push.

Lemma build_constraints_required (profile : UserProfile.t) :
  ConstraintSpec.required_tags (fst (build_constraints profile))
  = if smem "diabetes" (conditions_of profile)
       || (smem "pcod" (conditions_of profile) || smem "pcos" (conditions_of profile))
       || SpecialDietRules.low_gi (UserProfile.special profile)
    then {[ "low_gi" ]} else ∅.
Proof.
  unfold build_constraints, conditions_of. cbv zeta.
  cbn [fst ConstraintSpec.required_tags].
  through_rules required_if.
  destruct (smem "diabetes" _); destruct (smem "pcod" _ || smem "pcos" _);
    destruct (SpecialDietRules.low_gi _); cbn; same_members.
Qed.

Lemma build_constraints_max_sodium (profile : UserProfile.t) :
  ConstraintSpec.max_sodium_mg (fst (build_constraints profile))
  = if smem "hypertension" (conditions_of profile)
       || SpecialDietRules.low_sodium (UserProfile.special profile)
    then Some 1500 else None.
Proof.
  unfold build_constraints, conditions_of. cbv zeta.
  cbn [fst ConstraintSpec.max_sodium_mg].
  through_rules sodium_limit_if. reflexivity.
Qed.

(** X1. required_tags is {"low_gi"} when the profile has the condition
    diabetes, pcod or pcos or the low_gi toggle, and empty otherwise: no
    rule requires any other tag. *)
Theorem required_tags_closed_form (profile : UserProfile.t) :
  let cs := conditions_of profile in
  ConstraintSpec.required_tags (fst (build_constraints profile))
  = if smem "diabetes" cs || (smem "pcod" cs || smem "pcos" cs)
       || SpecialDietRules.low_gi (UserProfile.special profile)
    then {[ "low_gi" ]} else ∅.
Proof. apply build_constraints_required. Qed.

(** X2. max_sodium_mg is 1500 when the profile has the condition
    hypertension or the low_sodium toggle, and unset otherwise. *)
Theorem max_sodium_closed_form (profile : UserProfile.t) :
  ConstraintSpec.max_sodium_mg (fst (build_constraints profile))
  = if smem "hypertension" (conditions_of profile)
       || SpecialDietRules.low_sodium (UserProfile.special profile)
    then Some 1500 else None.
Proof. apply build_constraints_max_sodium. Qed.

(** X3. avoid_names holds "banana" and "rajma" exactly when the profile has
    kidney disease or the renal toggle, "tofu" exactly when it has thyroid,
    and nothing else. *)
Theorem avoid_names_closed_form (profile : UserProfile.t) :
  let cs := conditions_of profile in
  ConstraintSpec.avoid_names (fst (build_constraints profile))
  = (if smem "kidney disease" cs
        || SpecialDietRules.renal (UserProfile.special profile)
     then {[ "banana"; "rajma" ]} else ∅)
    ∪ (if smem "thyroid" cs then {[ "tofu" ]} else ∅).
Proof.
  cbv zeta. unfold build_constraints, conditions_of. cbv zeta.
  cbn [fst ConstraintSpec.avoid_names].
  through_rules avoid_names_if.
  destruct (smem "kidney disease" _ || SpecialDietRules.renal _);
    destruct (smem "thyroid" _); same_members.
Qed.

(** X4. exclude_allergens is the set of the profile's lowercased allergies,
    with "gluten" added by the gluten_free toggle and "lactose" by the
    lactose_free toggle. *)
Theorem exclude_allergens_closed_form (profile : UserProfile.t) :
  let special := UserProfile.special profile in
  ConstraintSpec.exclude_allergens (fst (build_constraints profile))
  = set_of (map lower (MedicalParameters.allergies (UserProfile.medical profile)))
    ∪ (if SpecialDietRules.gluten_free special then {[ "gluten" ]} else ∅)
    ∪ (if SpecialDietRules.lactose_free special then {[ "lactose" ]} else ∅).
Proof.
  cbv zeta. unfold build_constraints. cbv zeta.
  cbn [fst ConstraintSpec.exclude_allergens].
  through_rules allergens_if.
  destruct (SpecialDietRules.gluten_free _);
    destruct (SpecialDietRules.lactose_free _); same_members.
Qed.

Lemma build_constraints_never_avoids_low_gi (profile : UserProfile.t) :
  "low_gi" ∉ ConstraintSpec.avoid_tags (fst (build_constraints profile)).
Proof.
  unfold build_constraints. cbv zeta. cbn [fst ConstraintSpec.avoid_tags].
  through_rules avoid_if.
  repeat (apply not_elem_of_union; split);
    try match goal with
    | |- _ ∉ (if ?c then _ else _) => destruct c
    end;
    apply smem_false; vm_compute; reflexivity.
Qed.

(** X5. For every profile, the four baseline tags fried, processed,
    refined_sugar and refined_carbs are avoided, and no tag is both
    required and avoided. *)
Theorem required_and_avoided_disjoint (profile : UserProfile.t) :
  let c := fst (build_constraints profile) in
  {[ "fried"; "processed"; "refined_sugar"; "refined_carbs" ]}
    ⊆ ConstraintSpec.avoid_tags c
  /\ ConstraintSpec.required_tags c ∩ ConstraintSpec.avoid_tags c = ∅.
Proof.
  cbv zeta. split.
  - unfold build_constraints. cbv zeta. cbn [fst ConstraintSpec.avoid_tags].
    match goal with
    | |- _ ⊆ Locals.avoid (apply_rules ?p ?cs ?st0) =>
        pose proof (apply_rules_after_diabetes p cs st0) as (_ & _ & Hav & _);
        pose proof (rule_diabetes_grows cs st0) as (_ & _ & Hav0 & _)
    end.
    etransitivity; [| exact Hav]. etransitivity; [| exact Hav0].
    reflexivity.
  - pose proof (build_constraints_never_avoids_low_gi profile) as Hlow.
    rewrite build_constraints_required.
    apply set_eq. intros x. rewrite elem_of_intersection, elem_of_empty.
    split; [| intros []]. intros [Hreq Hav].
    destruct (_ || _); [| now apply elem_of_empty in Hreq].
    apply elem_of_singleton in Hreq. subst x. contradiction.
Qed.

Lemma length_if_app {A} (c : bool) (l : list A) (x : A) :
  List.length (if c then l ++ [x] else l)
  = (List.length l + if c then 1 else 0)%nat.
Proof. destruct c; [rewrite length_app; cbn |]; lia. Qed.

Lemma count_true_cons (b : bool) (bs : list bool) :
  count_true (b :: bs) = ((if b then 1 else 0) + count_true bs)%nat.
Proof. unfold count_true. cbn. now destruct b. Qed.

(** Run one rule and count the explanation it may append. *)
Ltac count_rule rule :=
  unfold rule; rewrite explanations_if;
  cbn [Locals.explanations required_update prefer_update avoid_update
       avoid_names_update allergens_add sodium_limit_cap explanations_append];
  rewrite length_if_app.

(** X6. Every rule of [build_constraints] that fires appends exactly one
    explanation: the number of explanations returned is the number of
    rules whose test holds. *)
Theorem one_explanation_per_rule (profile : UserProfile.t) :
  List.length (snd (build_constraints profile))
  = count_true (rule_triggers profile).
Proof.
  unfold build_constraints, rule_triggers, conditions_of. cbv zeta.
  cbn [snd]. unfold apply_rules. cbv zeta.
  count_rule toggle_lactose_free. count_rule toggle_gluten_free.
  count_rule toggle_anti_inflammatory. count_rule toggle_high_protein.
  count_rule toggle_high_fiber. count_rule toggle_low_gi.
  count_rule rule_thyroid. count_rule rule_gastric. count_rule rule_pcos.
  count_rule rule_kidney. count_rule rule_heart. count_rule rule_hypertension.
  count_rule rule_diabetes.
  rewrite !count_true_cons. cbn [Locals.explanations List.length].
  unfold count_true. cbn [List.filter List.length]. lia.
Qed.

(** ** The summary notes *)

Lemma sorted_strings_singleton (x : string) : sorted_strings {[ x ]} = [x].
Proof. unfold sorted_strings. now rewrite elements_singleton. Qed.

(** X7. [explain_rules] keeps the explanations as a prefix and appends one
    note for each of: a set sodium ceiling, non-empty required tags,
    non-empty preferred tags, non-empty allergen filters. *)
Theorem explain_rules_appends (explanations : list string)
    (constraints : ConstraintSpec.t) :
  exists extra,
    explain_rules explanations constraints = explanations ++ extra
    /\ List.length extra
       = count_true
           [ match ConstraintSpec.max_sodium_mg constraints with
             | Some _ => true | None => false end;
             nonempty (ConstraintSpec.required_tags constraints);
             nonempty (ConstraintSpec.prefer_tags constraints);
             nonempty (ConstraintSpec.exclude_allergens constraints) ].
Proof.
  unfold explain_rules. cbv zeta.
  destruct (ConstraintSpec.max_sodium_mg constraints);
    destruct (nonempty (ConstraintSpec.required_tags constraints));
    destruct (nonempty (ConstraintSpec.prefer_tags constraints));
    destruct (nonempty (ConstraintSpec.exclude_allergens constraints));
    rewrite <- ?app_assoc;
    first [ eexists; split; [reflexivity | reflexivity]
          | exists []; split; [now rewrite app_nil_r | reflexivity] ].
Qed.

(** X8. For the constraints of any profile, the notes of [explain_rules]
    begin with the rule explanations, continue with the line
    "Sodium target set to ~1500 mg/day." exactly when the profile has
    hypertension or the low_sodium toggle, then with the line
    "Required tags: low_gi" exactly when low GI is required, and end with
    at most two more lines (preferred tags, allergen filters). *)
Theorem explain_rules_of_profile (profile : UserProfile.t) :
  let cs := conditions_of profile in
  let special := UserProfile.special profile in
  let '(constraints, explanations) := build_constraints profile in
  exists rest,
    explain_rules explanations constraints
    = explanations
      ++ (if smem "hypertension" cs || SpecialDietRules.low_sodium special
          then ["Sodium target set to ~1500 mg/day."] else [])
      ++ (if smem "diabetes" cs || (smem "pcod" cs || smem "pcos" cs)
             || SpecialDietRules.low_gi special
          then ["Required tags: low_gi"] else [])
      ++ rest
    /\ (List.length rest <= 2)%nat.
Proof.
  cbv zeta.
  pose proof (build_constraints_required profile) as Hreq.
  pose proof (build_constraints_max_sodium profile) as Hsod.
  destruct (build_constraints profile) as [constraints explanations].
  cbn [fst] in Hreq, Hsod. unfold explain_rules. cbv zeta.
  rewrite Hreq, Hsod.
  destruct (smem "hypertension" _ || SpecialDietRules.low_sodium _);
    destruct (smem "diabetes" _ || _ || SpecialDietRules.low_gi _);
    cbn [nonempty]; rewrite ?sorted_strings_singleton;
    destruct (nonempty (ConstraintSpec.prefer_tags constraints));
    destruct (nonempty (ConstraintSpec.exclude_allergens constraints));
    repeat match goal with
    | |- context [nonempty ?s] =>
        let H := fresh in
        assert (H : nonempty s = true) by (vm_compute; reflexivity);
        rewrite H; clear H
    | |- context [nonempty ∅] =>
        change (nonempty ∅) with false
    end;
    rewrite <- ?app_assoc; cbn [app];
    first [ eexists; split; [reflexivity | cbn; lia]
          | exists []; split; [now rewrite ?app_nil_r | cbn; lia] ].
Qed.

(** ** What [filter_foods] keeps, and in which order *)

Lemma existsb_false_iff {A} (f : A -> bool) (l : list A) :
  existsb f l = false <-> forall x, In x l -> f x = false.
Proof.
  induction l as [| y r IH]; cbn.
  - split; [intros _ x [] | reflexivity].
  - rewrite orb_false_iff, IH. split.
    + intros [Hy Hr] x [<- | Hx]; auto.
    + intros H. split; [apply H; now left | intros x Hx; apply H; now right].
Qed.

Lemma any_of_false_iff (pred : string -> bool) (s : gset string) :
  any_of pred s = false <-> forall x, x ∈ s -> pred x = false.
Proof.
  unfold any_of. rewrite existsb_false_iff. split; intros H x Hx; apply H.
  - apply list_elem_of_In. now apply elem_of_elements.
  - apply elem_of_elements. now apply list_elem_of_In.
Qed.

Lemma allowed_passes (profile : UserProfile.t) (constraints : ConstraintSpec.t)
    (food : FoodItem.t) :
  allowed profile constraints
    (set_of (map lower (DietaryPreferences.dislikes (UserProfile.dietary profile))))
    food = true
  <-> passes profile constraints food.
Proof.
  unfold allowed, passes.
  destruct (mem _ (FoodItem.diet_types food)) eqn:Hdiet; cbn [negb].
  2:{ split; [discriminate |]. intros [H _]. apply mem_spec in H. congruence. }
  apply mem_spec in Hdiet.
  destruct (existsb _ (FoodItem.allergens food)) eqn:Hall.
  { split; [discriminate |]. intros (_ & H & _).
    apply any_tag_spec in Hall. destruct Hall as (a & Ha & Hin).
    now apply H in Ha. }
  rewrite existsb_false_iff in Hall.
  destruct (_contains_any _ _) eqn:Hnames.
  { split; [discriminate |]. intros (_ & _ & H & _).
    apply any_of_spec in Hnames. destruct Hnames as (n & Hn & Hc).
    rewrite (H n Hn) in Hc. discriminate. }
  unfold _contains_any in Hnames. rewrite any_of_false_iff in Hnames.
  destruct (existsb _ (FoodItem.tags food)) eqn:Htags.
  { split; [discriminate |]. intros (_ & _ & _ & H & _).
    apply any_tag_spec in Htags. destruct Htags as (t & Ht & Hin).
    now apply H in Ht. }
  rewrite existsb_false_iff in Htags.
  destruct (smem "high_gi" _ && String.eqb _ "high") eqn:Hgi.
  { split; [discriminate |]. intros (_ & _ & _ & _ & H & _).
    apply andb_true_iff in Hgi. destruct Hgi as [H1 H2].
    apply smem_spec in H1. apply String.eqb_eq in H2. tauto. }
  destruct (required_tags_check constraints food) eqn:Hreq; cbn [negb].
  2:{ split; [discriminate |]. intros (_ & _ & _ & _ & _ & H & _). discriminate. }
  destruct (any_of _ _) eqn:Hdis.
  { split; [discriminate |]. intros (_ & _ & _ & _ & _ & _ & H).
    apply any_of_spec in Hdis. destruct Hdis as (d & Hd & Hc).
    apply set_of_spec, in_map_iff in Hd. destruct Hd as (d0 & <- & Hd0).
    rewrite (H d0 Hd0) in Hc. discriminate. }
  rewrite any_of_false_iff in Hdis.
  split; [intros _ | reflexivity].
  repeat split; try assumption.
  - intros a Ha. apply smem_false. now apply Hall.
  - intros tag Ht. apply smem_false. now apply Htags.
  - intros [H1 H2]. apply andb_false_iff in Hgi.
    destruct Hgi as [Hg | Hg].
    + apply smem_false in Hg. contradiction.
    + apply String.eqb_neq in Hg. contradiction.
  - intros d Hd. apply Hdis. apply set_of_spec. now apply in_map.
Qed.

(** X9. A food is returned by [filter_foods] exactly when it is in the
    catalog and passes every hard constraint: its diet_types contain the
    profile's diet type, none of its allergens is excluded, its lowercased
    name contains no avoided name and no (lowercased) dislike, it carries
    no avoided tag, its GI is not high while "high_gi" is avoided, and it
    passes the required-tags check. *)
Theorem filter_foods_keeps_exactly (foods : list FoodItem.t)
    (profile : UserProfile.t) (constraints : ConstraintSpec.t)
    (food : FoodItem.t) :
  In food (filter_foods foods profile constraints)
  <-> In food foods /\ passes profile constraints food.
Proof.
  unfold filter_foods. cbv zeta.
  rewrite stable_sort_In, filter_In, allowed_passes. reflexivity.
Qed.

Section SortFacts.
  Context {A : Type} (le : A -> A -> bool).
  Hypothesis le_total : forall a b, le a b = true \/ le b a = true.
  Hypothesis le_trans :
    forall a b c, le a b = true -> le b c = true -> le a c = true.

Let R (a b : A) : Prop := le a b = true.

Lemma insert_sorted_Forall (P : A -> Prop) (x : A) (l : list A) :
  P x -> List.Forall P l -> List.Forall P (insert_sorted le x l).
Proof.
  intros Hx Hl. induction Hl as [| y r Hy Hr IH]; cbn.
  - now constructor.
  - destruct (le x y); repeat constructor; assumption.
Qed.

Lemma insert_sorted_sorted (x : A) (l : list A) :
  StronglySorted R l -> StronglySorted R (insert_sorted le x l).
Proof.
  induction 1 as [| y r Hr IH Hy]; cbn.
  - repeat constructor.
  - destruct (le x y) eqn:Hxy.
    + constructor; [now constructor |].
      constructor; [exact Hxy |].
      eapply List.Forall_impl; [| exact Hy].
      intros z Hz. exact (le_trans _ _ _ Hxy Hz).
    + constructor; [exact IH |].
      apply insert_sorted_Forall; [| exact Hy].
      destruct (le_total x y) as [H | H]; [congruence | exact H].
Qed.

Lemma stable_sort_sorted (l : list A) : StronglySorted R (stable_sort le l).
Proof.
  induction l as [| x r IH]; cbn; [constructor |].
  now apply insert_sorted_sorted.
Qed.

(** Sorting a sorted list changes nothing. *)
Lemma stable_sort_of_sorted (l : list A) :
  StronglySorted R l -> stable_sort le l = l.
Proof.
  induction 1 as [| x r Hr IH Hx]; [reflexivity |].
  cbn. fold (stable_sort le r). rewrite IH.
  destruct Hx as [| y t Hy _]; [reflexivity |].
  cbn. unfold R in Hy. now rewrite Hy.
Qed.

(** The first element of a sorted list that satisfies a test comes before
    every element that satisfies it. *)
Lemma find_in_sorted (f : A -> bool) (l : list A) (x y : A) :
  StronglySorted R l -> List.find f l = Some x ->
  In y l -> f y = true -> R x y.
Proof.
  induction 1 as [| z r Hr IH Hz]; cbn; [discriminate |].
  destruct (f z) eqn:Hfz.
  - intros [= <-] [<- | Hy] _.
    + destruct (le_total z z); assumption.
    + exact (proj1 (List.Forall_forall _ _) Hz y Hy).
  - intros Hfind [<- | Hy] Hfy; [congruence |]. now apply IH.
Qed.
End SortFacts.

Section SortByKey.
  Context {A : Type} (key : A -> Z).

Let le (a b : A) : bool := key a <=? key b.

Lemma key_le_total (a b : A) : le a b = true \/ le b a = true.
Proof. unfold le. rewrite !Z.leb_le. lia. Qed.

Lemma key_le_trans (a b c : A) : le a b = true -> le b c = true -> le a c = true.
Proof. unfold le. rewrite !Z.leb_le. lia. Qed.

(** Elements of equal key keep their relative order. *)
Lemma insert_sorted_stable (v : Z) (x : A) (l : list A) :
  List.filter (fun a => key a =? v) (insert_sorted le x l)
  = List.filter (fun a => key a =? v) (x :: l).
Proof.
  induction l as [| y r IH]; [reflexivity |].
  cbn [insert_sorted]. destruct (le x y) eqn:Hxy; [reflexivity |].
  cbn [List.filter] in *. rewrite IH.
  unfold le in Hxy. apply Z.leb_gt in Hxy.
  destruct (key x =? v) eqn:Hx; destruct (key y =? v) eqn:Hy; try reflexivity.
  apply Z.eqb_eq in Hx, Hy. lia.
Qed.

Lemma stable_sort_stable (v : Z) (l : list A) :
  List.filter (fun a => key a =? v) (stable_sort le l)
  = List.filter (fun a => key a =? v) l.
Proof.
  induction l as [| x r IH]; [reflexivity |].
  cbn [stable_sort foldr]. fold (stable_sort le r).
  rewrite insert_sorted_stable. cbn [List.filter]. now rewrite IH.
Qed.
End SortByKey.

Lemma StronglySorted_weaken {A} (R R' : A -> A -> Prop) (l : list A) :
  (forall a b, R a b -> R' a b) -> StronglySorted R l -> StronglySorted R' l.
Proof.
  intros Himp. induction 1 as [| x r Hr IH Hx]; constructor; [exact IH |].
  eapply List.Forall_impl; [| exact Hx]. intros b. apply Himp.
Qed.

Lemma filter_all {A} (f : A -> bool) (l : list A) :
  List.Forall (fun x => f x = true) l -> List.filter f l = l.
Proof.
  induction 1 as [| x r Hx Hr IH]; cbn; [reflexivity |].
  now rewrite Hx, IH.
Qed.

Lemma filter_none {A} (f : A -> bool) (l : list A) :
  (forall x, f x = false) -> List.filter f l = [].
Proof.
  intros H. induction l as [| x r IH]; cbn; [reflexivity |]. now rewrite H.
Qed.

(** X10. [filter_foods] returns the allowed foods in order of
    non-increasing preference score (+2 cuisine, +1 preferred tag, +1
    liked name), and foods of equal score keep their catalog order. *)
Theorem filter_foods_order (foods : list FoodItem.t)
    (profile : UserProfile.t) (constraints : ConstraintSpec.t) :
  let result := filter_foods foods profile constraints in
  let pref := preference profile constraints in
  StronglySorted (fun f g => pref g <= pref f) result
  /\ (forall f, In f result -> 0 <= pref f <= 4)
  /\ forall v,
       List.filter (fun f => pref f =? v) result
       = List.filter (fun f => pref f =? v)
           (List.filter
              (allowed profile constraints
                 (set_of (map lower (DietaryPreferences.dislikes
                                       (UserProfile.dietary profile)))))
              foods).
Proof.
  cbv zeta. unfold filter_foods, preference. cbv zeta.
  set (likes := set_of (map lower (DietaryPreferences.likes (UserProfile.dietary profile)))).
  set (kept := List.filter _ foods).
  split; [| split].
  - pose proof (stable_sort_sorted
                  (fun f g => score constraints likes f <=? score constraints likes g)
                  (key_le_total (score constraints likes))
                  (key_le_trans (score constraints likes)) kept) as Hs.
    eapply StronglySorted_weaken; [| exact Hs].
    intros f g H. cbv beta in H. apply Z.leb_le in H. lia.
  - intros f _. unfold score.
    destruct (_ && _); destruct (existsb _ (FoodItem.tags f));
      destruct (any_of _ likes); cbn; lia.
  - intros v.
    assert (Hext : forall l,
               List.filter (fun f => - score constraints likes f =? v) l
               = List.filter (fun f => score constraints likes f =? - v) l).
    { intros l. apply filter_ext. intros f.
      destruct (Z.eqb_spec (- score constraints likes f) v);
        destruct (Z.eqb_spec (score constraints likes f) (- v));
        (reflexivity || lia). }
    rewrite !Hext.
    apply (stable_sort_stable (score constraints likes) (- v) kept).
Qed.

(** X11. Filtering is idempotent: filtering the output of [filter_foods]
    again, for the same profile and constraints, returns it unchanged. *)
Theorem filter_foods_idempotent (foods : list FoodItem.t)
    (profile : UserProfile.t) (constraints : ConstraintSpec.t) :
  filter_foods (filter_foods foods profile constraints) profile constraints
  = filter_foods foods profile constraints.
Proof.
  unfold filter_foods. cbv zeta.
  set (likes := set_of (map lower (DietaryPreferences.likes (UserProfile.dietary profile)))).
  set (ok := allowed profile constraints _).
  set (le := fun f g => score constraints likes f <=? score constraints likes g).
  rewrite (filter_all ok (stable_sort le (List.filter ok foods))).
  - apply stable_sort_of_sorted.
    apply (stable_sort_sorted le (key_le_total (score constraints likes))
             (key_le_trans (score constraints likes))).
  - apply List.Forall_forall. intros f Hf.
    apply stable_sort_In, filter_In in Hf. tauto.
Qed.

(** X12. An empty string among the dislikes rejects every food: it is a
    substring of every name, so [filter_foods] returns the empty list. *)
Theorem empty_dislike_rejects_all (foods : list FoodItem.t)
    (profile : UserProfile.t) (constraints : ConstraintSpec.t) :
  In EmptyString (DietaryPreferences.dislikes (UserProfile.dietary profile)) ->
  filter_foods foods profile constraints = [].
Proof.
  intros Hin. unfold filter_foods. cbv zeta.
  rewrite filter_none; [reflexivity |].
  intros f. destruct (allowed _ _ _ f) eqn:Hal; [| reflexivity].
  apply allowed_passes in Hal. destruct Hal as (_ & _ & _ & _ & _ & _ & Hd).
  specialize (Hd _ Hin). cbn in Hd.
  destruct (lower (FoodItem.name f)); discriminate.
Qed.

Lemma empty_dislike_rejects_all_witness :
  In EmptyString
    (DietaryPreferences.dislikes (UserProfile.dietary empty_dislike_profile))
  /\ filter_foods sample_catalog empty_dislike_profile
       (fst (build_constraints empty_dislike_profile))
     = [].
Proof.
  assert (H : In EmptyString
                (DietaryPreferences.dislikes
                   (UserProfile.dietary empty_dislike_profile)))
    by (right; left; reflexivity).
  split; [exact H |].
  exact (empty_dislike_rejects_all sample_catalog empty_dislike_profile
           (fst (build_constraints empty_dislike_profile)) H).
Defined.

(** ** The first pick is the best fitting candidate *)

Lemma pick_key_le_total (target_cal : Z) (f g : FoodItem.t) :
  pick_key_le target_cal f g = true \/ pick_key_le target_cal g f = true.
Proof.
  unfold pick_key_le.
  rewrite !orb_true_iff, !andb_true_iff, !Z.ltb_lt, !Z.eqb_eq, !Z.leb_le. lia.
Qed.

Lemma pick_key_le_trans (target_cal : Z) (f g h : FoodItem.t) :
  pick_key_le target_cal f g = true -> pick_key_le target_cal g h = true ->
  pick_key_le target_cal f h = true.
Proof.
  unfold pick_key_le.
  rewrite !orb_true_iff, !andb_true_iff, !Z.ltb_lt, !Z.eqb_eq, !Z.leb_le. lia.
Qed.

(** X13. When [_pick_items_for_meal] picks anything, its first item fits
    the sodium budget and is the best such candidate: no candidate that
    fits the budget is closer in calories to the target, and among those
    equally close none has less sodium. *)
Theorem first_pick_is_best (cands : list FoodItem.t)
    (target_cal sodium_budget : Z) (first : MealItem.t) (rest : list MealItem.t) :
  _pick_items_for_meal cands target_cal sodium_budget = first :: rest ->
  MealItem.sodium_mg first <= sodium_budget
  /\ forall g, In g cands -> FoodItem.sodium_mg g <= sodium_budget ->
       Z.abs (MealItem.calories first - target_cal)
       < Z.abs (FoodItem.calories g - target_cal)
       \/ (Z.abs (MealItem.calories first - target_cal)
           = Z.abs (FoodItem.calories g - target_cal)
           /\ MealItem.sodium_mg first <= FoodItem.sodium_mg g).
Proof.
  unfold _pick_items_for_meal. destruct cands as [| c0 r]; [discriminate |].
  set (cands := c0 :: r).
  set (sorted := stable_sort (pick_key_le target_cal) cands).
  destruct (List.find (fun f => FoodItem.sodium_mg f <=? sodium_budget) sorted)
    as [f |] eqn:F1; [| discriminate].
  intros Hpick.
  assert (Hfirst : first = _to_item f).
  { cbv zeta in Hpick. destruct (below_60_percent _ _);
      [match type of Hpick with
       | context [List.find ?p sorted] => destruct (List.find p sorted)
       end |];
      cbn [app] in Hpick; now injection Hpick as <- _. }
  subst first. clear Hpick. cbn [_to_item MealItem.sodium_mg MealItem.calories].
  pose proof (find_some _ _ F1) as [_ Hfit]. apply Z.leb_le in Hfit.
  split; [exact Hfit |].
  intros g Hg Hgfit.
  assert (Hle : pick_key_le target_cal f g = true).
  { apply (find_in_sorted (pick_key_le target_cal) (pick_key_le_total target_cal)
             (fun f => FoodItem.sodium_mg f <=? sodium_budget) sorted f g).
    - apply stable_sort_sorted;
        [apply pick_key_le_total | apply pick_key_le_trans].
    - exact F1.
    - now apply stable_sort_In.
    - now apply Z.leb_le. }
  unfold pick_key_le in Hle.
  rewrite orb_true_iff, andb_true_iff, Z.ltb_lt, Z.eqb_eq, Z.leb_le in Hle.
  exact Hle.
Qed.

Lemma first_pick_is_best_witness :
  _pick_items_for_meal sample_catalog 502 500
  = [_to_item (sample_food "Dal with rice" 500 200 "low" ["low_gi"]
                 ["veg"; "vegan"] ["lunch"; "dinner"])]
  /\ forall g, In g sample_catalog -> FoodItem.sodium_mg g <= 500 ->
       Z.abs (500 - 502) < Z.abs (FoodItem.calories g - 502)
       \/ (Z.abs (500 - 502) = Z.abs (FoodItem.calories g - 502)
           /\ 200 <= FoodItem.sodium_mg g).
Proof.
  assert (H : _pick_items_for_meal sample_catalog 502 500
              = [_to_item (sample_food "Dal with rice" 500 200 "low" ["low_gi"]
                             ["veg"; "vegan"] ["lunch"; "dinner"])])
    by (vm_compute; reflexivity).
  split; [exact H |].
  exact (proj2 (first_pick_is_best sample_catalog 502 500 _ _ H)).
Defined.

(** ** The meal split *)

Lemma compute_meal_split_from (profile : UserProfile.t) :
  exists freq snack_base,
    _compute_meal_split profile = meal_split_from freq snack_base
    /\ 3 <= freq <= 6
    /\ In snack_base [Float.lit 7 100; Float.lit 10 100; Float.lit 15 100].
Proof.
  unfold _compute_meal_split. cbv zeta.
  eexists _, _. split; [reflexivity |]. split; [lia |].
  set (s := lower _). unfold dict_get.
  destruct (String.eqb s "low"); [now left |].
  destruct (String.eqb s "moderate"); [right; now left |].
  destruct (String.eqb s "high"); [right; right; now left |].
  right; now left.
Qed.

Lemma compute_meal_split_in_table (profile : UserProfile.t) :
  In (_compute_meal_split profile) (map split_of_shares split_table).
Proof.
  destruct (compute_meal_split_from profile)
    as (freq & snack_base & -> & Hfreq & Hsnack).
  assert (Hf : freq = 3 \/ freq = 4 \/ freq = 5 \/ freq = 6) by lia.
  destruct Hf as [-> | [-> | [-> | ->]]];
    destruct Hsnack as [<- | [<- | [<- | []]]];
    vm_compute; tauto.
Qed.

Lemma meal_split_shares_aux (profile : UserProfile.t) :
  exists b l d s : float,
    _compute_meal_split profile
    = [("breakfast", b); ("lunch", l); ("dinner", d); ("snacks", s)].
Proof.
  pose proof (compute_meal_split_in_table profile) as Hin.
  unfold split_table in Hin. cbn [map split_of_shares] in Hin.
  repeat destruct Hin as [<- | Hin]; try (eexists _, _, _, _; reflexivity).
  destruct Hin.
Qed.

(** X14. For every profile, [_compute_meal_split] returns the four keys
    breakfast, lunch, dinner, snacks in this order, each share a four-
    decimal fraction k/10000; the shares add up to exactly 10000/10000,
    breakfast is always 0.25, dinner never exceeds lunch, and snacks lie
    between 0.07 and 0.20. *)
Theorem meal_split_shares (profile : UserProfile.t) :
  exists b l d s : Z,
    _compute_meal_split profile
    = [ ("breakfast", Float.lit b 10000); ("lunch", Float.lit l 10000);
        ("dinner", Float.lit d 10000); ("snacks", Float.lit s 10000) ]
    /\ b + l + d + s = 10000
    /\ b = 2500 /\ 0 < d <= l /\ 700 <= s <= 2000.
Proof.
  pose proof (compute_meal_split_in_table profile) as Hin.
  unfold split_table in Hin. cbn [map split_of_shares] in Hin.
  repeat destruct Hin as [<- | Hin];
    try (eexists _, _, _, _; split; [reflexivity | lia]).
  destruct Hin.
Qed.

(** ** The assembled day plan *)

(** The three shapes of a pick. *)
Lemma pick_items_shape (cands : list FoodItem.t) (target_cal sodium_budget : Z) :
  let picked := _pick_items_for_meal cands target_cal sodium_budget in
  picked = []
  \/ (exists f, FoodItem.sodium_mg f <= sodium_budget /\ picked = [_to_item f])
  \/ (exists f g,
        FoodItem.sodium_mg f <= sodium_budget
        /\ FoodItem.sodium_mg g <= sodium_budget - FoodItem.sodium_mg f
        /\ FoodItem.name g <> FoodItem.name f
        /\ picked = [_to_item f; _to_item g]).
Proof.
  cbv zeta. unfold _pick_items_for_meal.
  destruct cands as [| c0 r]; [now left |].
  set (sorted := stable_sort (pick_key_le target_cal) (c0 :: r)).
  destruct (List.find _ sorted) as [f |] eqn:F1; [| now left].
  apply find_some in F1. destruct F1 as [_ Hf]. apply Z.leb_le in Hf.
  cbv zeta. destruct (below_60_percent _ _);
    [| right; left; exists f; auto].
  destruct (List.find _ sorted) as [g |] eqn:F2;
    [| right; left; exists f; auto].
  apply find_some in F2. destruct F2 as [_ Hg]. cbv beta in Hg.
  rewrite !andb_true_iff, !Z.leb_le, negb_true_iff, String.eqb_neq in Hg.
  right; right. exists f, g. cbn [app]. intuition.
Qed.

Lemma pick_items_at_most_two (cands : list FoodItem.t) (target_cal sodium_budget : Z) :
  (List.length (_pick_items_for_meal cands target_cal sodium_budget) <= 2)%nat.
Proof.
  destruct (pick_items_shape cands target_cal sodium_budget)
    as [-> | [(f & _ & ->) | (f & g & _ & _ & _ & ->)]]; cbn; lia.
Qed.

Lemma pick_items_within_budget (cands : list FoodItem.t) (target_cal sodium_budget : Z) :
  0 <= sodium_budget ->
  total_sodium (_pick_items_for_meal cands target_cal sodium_budget) <= sodium_budget.
Proof.
  intros Hb.
  destruct (pick_items_shape cands target_cal sodium_budget)
    as [-> | [(f & Hf & ->) | (f & g & Hf & Hg & _ & ->)]];
    unfold total_sodium; cbn; lia.
Qed.

Lemma sodium_budgets_four (sodium_limit : Z) (kb kl kd ks : string)
    (b l d s : float) (budgets : dict Z) :
  sodium_budgets sodium_limit [(kb, b); (kl, l); (kd, d); (ks, s)] = Some budgets ->
  exists bb bl bd bs,
    budgets = [(kb, bb); (kl, bl); (kd, bd); (ks, bs)]
    /\ Float.py_int (Float.mul (Float.of_Z sodium_limit) b) = Some bb
    /\ Float.py_int (Float.mul (Float.of_Z sodium_limit) l) = Some bl
    /\ Float.py_int (Float.mul (Float.of_Z sodium_limit) d) = Some bd
    /\ Float.py_int (Float.mul (Float.of_Z sodium_limit) s) = Some bs.
Proof.
  cbn [sodium_budgets]. intros H.
  apply bind_Some in H. destruct H as (bb & Hbb & H).
  apply bind_Some in H. destruct H as (r1 & H1 & [= <-]).
  apply bind_Some in H1. destruct H1 as (bl & Hbl & H1).
  apply bind_Some in H1. destruct H1 as (r2 & H2 & [= <-]).
  apply bind_Some in H2. destruct H2 as (bd & Hbd & H2).
  apply bind_Some in H2. destruct H2 as (r3 & H3 & [= <-]).
  apply bind_Some in H3. destruct H3 as (bs & Hbs & H3).
  apply bind_Some in H3. destruct H3 as (r4 & [= <-] & [= <-]).
  exists bb, bl, bd, bs. auto.
Qed.

(** The notes of the three main meals, by cases on the picks. *)
Ltac notes_by_cases tb bb tl bl td bd :=
  unfold main_note;
  destruct (_pick_items_for_meal _ td bd),
           (_pick_items_for_meal _ tl bl),
           (_pick_items_for_meal _ tb bb); reflexivity.

(** What a successful run of [assemble_day_plan] has computed. *)
Lemma assemble_day_plan_shape (all_foods : list FoodItem.t)
    (profile : UserProfile.t) (calories sodium_limit : Z)
    (plan : DayPlan.t) (notes : list string) :
  assemble_day_plan all_foods profile calories sodium_limit = Some (plan, notes) ->
  exists (bb bl bd bs tb tl td : Z) (ps : list MealItem.t) (snack_notes : list string),
    sodium_budgets sodium_limit (_compute_meal_split profile)
    = Some [("breakfast", bb); ("lunch", bl); ("dinner", bd); ("snacks", bs)]
    /\ DayPlan.meals plan
       = [ ("breakfast",
            _pick_items_for_meal (meal_candidates all_foods profile "breakfast") tb bb);
           ("lunch",
            _pick_items_for_meal (meal_candidates all_foods profile "lunch") tl bl);
           ("dinner",
            _pick_items_for_meal (meal_candidates all_foods profile "dinner") td bd);
           ("snacks", ps) ]
    /\ notes
       = main_note "breakfast"
           (_pick_items_for_meal (meal_candidates all_foods profile "breakfast") tb bb)
         ++ main_note "lunch"
              (_pick_items_for_meal (meal_candidates all_foods profile "lunch") tl bl)
         ++ main_note "dinner"
              (_pick_items_for_meal (meal_candidates all_foods profile "dinner") td bd)
         ++ snack_notes
    /\ (snack_candidates all_foods profile = []
        /\ ps = []
        /\ snack_notes = ["No snack candidates available under current constraints."]
        \/ snack_candidates all_foods profile <> []
           /\ snack_notes = []
           /\ exists ts, ps = _pick_items_for_meal (snack_candidates all_foods profile) ts bs)
    /\ DayPlan.meal_split plan = _compute_meal_split profile
    /\ plan_totals (DayPlan.meals plan) = Some (DayPlan.totals plan).
Proof.
  unfold assemble_day_plan, snack_candidates, meal_candidates.
  destruct (build_constraints profile) as [constraints explanations].
  cbn [fst].
  set (filtered := filter_foods all_foods profile constraints).
  destruct (meal_split_shares_aux profile) as (b & l & d & s & Hsplit).
  rewrite Hsplit. intros Hplan.
  apply bind_Some in Hplan. destruct Hplan as (budgets & Hbud & Hplan).
  destruct (sodium_budgets_four _ _ _ _ _ _ _ _ _ _ Hbud)
    as (bb & bl & bd & bs & -> & _).
  cbn [map fst fold_left] in Hplan.
  apply bind_Some in Hplan. destruct Hplan as ([meals1 notes1] & Hmain & Hplan).
  apply bind_Some in Hplan. destruct Hplan as ([meals2 notes2] & Hsnack & Hplan).
  apply bind_Some in Hplan. destruct Hplan as (totals & Htot & [= <- <-]).
  cbn [DayPlan.meals DayPlan.meal_split DayPlan.totals].
  (* breakfast, lunch, dinner *)
  unfold plan_main_meal in Hmain. cbn [mbind option_bind] in Hmain.
  apply bind_Some in Hmain. destruct Hmain as ([m3 n3] & Hmain & Hd).
  apply bind_Some in Hmain. destruct Hmain as ([m2 n2] & Hmain & Hl).
  apply bind_Some in Hmain. destruct Hmain as (tb & _ & Hb).
  cbn [dict_get String.eqb Ascii.eqb Bool.eqb mbind option_bind] in Hb.
  injection Hb as <- <-.
  apply bind_Some in Hl. destruct Hl as (tl & _ & Hl).
  cbn [dict_get dict_set String.eqb Ascii.eqb Bool.eqb mbind option_bind] in Hl.
  injection Hl as <- <-.
  apply bind_Some in Hd. destruct Hd as (td & _ & Hd).
  cbn [dict_get dict_set String.eqb Ascii.eqb Bool.eqb mbind option_bind] in Hd.
  injection Hd as <- <-.
  (* snacks *)
  unfold plan_snacks in Hsnack. cbv zeta in Hsnack.
  set (snack_cands :=
         match List.filter (fun f => mem "snacks" (FoodItem.meal_types f)) filtered with
         | [] => List.filter (fun f => mem "snack" (FoodItem.meal_types f)) filtered
         | cs => cs
         end) in *.
  destruct snack_cands as [| f0 r0] eqn:Hsc.
  - injection Hsnack as <- <-.
    cbn [dict_set String.eqb Ascii.eqb Bool.eqb] in *.
    exists bb, bl, bd, bs, tb, tl, td, [],
      ["No snack candidates available under current constraints."].
    split; [exact Hbud |]. split; [reflexivity |].
    split; [clear Htot; notes_by_cases tb bb tl bl td bd |].
    split; [left; auto |]. split; [reflexivity | exact Htot].
  - rewrite <- Hsc in *.
    apply bind_Some in Hsnack. destruct Hsnack as (ts & _ & Hsnack).
    cbn [dict_get String.eqb Ascii.eqb Bool.eqb mbind option_bind] in Hsnack.
    injection Hsnack as <- <-.
    cbn [dict_set String.eqb Ascii.eqb Bool.eqb] in *.
    exists bb, bl, bd, bs, tb, tl, td,
      (_pick_items_for_meal snack_cands ts bs), [].
    split; [exact Hbud |]. split; [reflexivity |].
    split; [clear Htot; notes_by_cases tb bb tl bl td bd |].
    split; [right; split; [rewrite Hsc; discriminate |]; split; [reflexivity |];
            exists ts; reflexivity |].
    split; [reflexivity | exact Htot].
Qed.

Lemma pick_items_distinct_names (cands : list FoodItem.t) (target_cal sodium_budget : Z) :
  NoDup (map MealItem.name (_pick_items_for_meal cands target_cal sodium_budget)).
Proof.
  destruct (pick_items_shape cands target_cal sodium_budget)
    as [-> | [(f & _ & ->) | (f & g & _ & _ & Hne & ->)]]; cbn.
  - apply NoDup_nil_2.
  - apply NoDup_singleton.
  - apply NoDup_cons_2; [| apply NoDup_singleton].
    rewrite list_elem_of_singleton. congruence.
Qed.

Lemma agg_sums (items : list MealItem.t) :
  Totals.calories (agg items) = sum_calories items
  /\ Totals.sodium_mg (agg items) = total_sodium items.
Proof.
  unfold agg, sum_calories, total_sodium.
  set (t0 := Totals.mk 0 _ _ _ _ 0).
  change 0 with (Totals.calories t0) at 1.
  change 0 with (Totals.sodium_mg t0).
  generalize t0. clear t0.
  induction items as [| i r IH]; intros t0; [now split |].
  cbn [fold_left]. destruct (IH (Totals.mk (Totals.calories t0 + MealItem.calories i)
         (Float.add (Totals.protein_g t0) (MealItem.protein_g i))
         (Float.add (Totals.carbs_g t0) (MealItem.carbs_g i))
         (Float.add (Totals.fats_g t0) (MealItem.fats_g i))
         (Float.add (Totals.fiber_g t0) (MealItem.fiber_g i))
         (Totals.sodium_mg t0 + MealItem.sodium_mg i))) as [H1 H2].
  split; [exact H1 | exact H2].
Qed.

Lemma plan_totals_sums (meals : dict (list MealItem.t)) (totals : Totals.t) :
  plan_totals meals = Some totals ->
  Totals.calories totals = meals_calories meals
  /\ Totals.sodium_mg totals = meals_sodium meals.
Proof.
  unfold plan_totals. cbv zeta. intros H.
  apply bind_Some in H. destruct H as (protein & _ & H).
  apply bind_Some in H. destruct H as (carbs & _ & H).
  apply bind_Some in H. destruct H as (fats & _ & H).
  apply bind_Some in H. destruct H as (fiber & _ & [= <-]).
  cbn [Totals.calories Totals.sodium_mg].
  unfold meals_calories, meals_sodium.
  set (t0 := Totals.mk 0 _ _ _ _ 0).
  change 0 with (Totals.calories t0) at 1.
  change 0 with (Totals.sodium_mg t0).
  generalize t0. clear.
  induction meals as [| [m items] r IH]; intros t0; [now split |].
  cbn [fold_left snd].
  destruct (IH (add_totals t0 (agg items))) as [H1 H2].
  destruct (agg_sums items) as [A1 A2].
  rewrite H1, H2. cbn [add_totals Totals.calories Totals.sodium_mg].
  now rewrite A1, A2.
Qed.

Lemma budgets_fit_from_sound (splits : list (dict float)) (fuel : nat) (l0 : Z) :
  budgets_fit_from splits fuel l0 = true ->
  forall sodium_limit split,
    l0 <= sodium_limit < l0 + Z.of_nat fuel -> In split splits ->
    budgets_fit sodium_limit split = true.
Proof.
  revert l0. induction fuel as [| n IH]; intros l0 H sodium_limit split Hr Hin; [lia |].
  cbn [budgets_fit_from] in H. apply andb_true_iff in H. destruct H as [H1 H2].
  destruct (Z.eq_dec sodium_limit l0) as [-> | Hne].
  - rewrite forallb_forall in H1. now apply H1.
  - apply (IH (l0 + 1) H2); [lia | exact Hin].
Qed.

Lemma budgets_fit_upto_3000 :
  budgets_fit_from (map split_of_shares split_table) 3001 0 = true.
Proof. vm_compute. reflexivity. Qed.

Lemma sodium_budgets_fit (profile : UserProfile.t) (sodium_limit bb bl bd bs : Z) :
  0 <= sodium_limit <= 3000 ->
  sodium_budgets sodium_limit (_compute_meal_split profile)
  = Some [("breakfast", bb); ("lunch", bl); ("dinner", bd); ("snacks", bs)] ->
  0 <= bb /\ 0 <= bl /\ 0 <= bd /\ 0 <= bs /\ bb + bl + bd + bs <= sodium_limit.
Proof.
  intros Hr Hbud.
  pose proof (budgets_fit_from_sound _ _ _ budgets_fit_upto_3000 sodium_limit
                (_compute_meal_split profile)) as Hfit.
  specialize (Hfit ltac:(lia) (compute_meal_split_in_table profile)).
  unfold budgets_fit in Hfit. rewrite Hbud in Hfit.
  cbn [forallb fold_left snd] in Hfit.
  rewrite !andb_true_iff, !Z.leb_le in Hfit. lia.
Qed.

(** X15. A plan returned by [assemble_day_plan] has exactly the four slots
    breakfast, lunch, dinner and snacks, in this order; every slot holds at
    most two items, and never two items of the same name; the plan records
    the meal split of the profile. *)
Theorem day_plan_structure (all_foods : list FoodItem.t)
    (profile : UserProfile.t) (calories sodium_limit : Z)
    (plan : DayPlan.t) (notes : list string) :
  assemble_day_plan all_foods profile calories sodium_limit = Some (plan, notes) ->
  dict_keys (DayPlan.meals plan) = ["breakfast"; "lunch"; "dinner"; "snacks"]
  /\ (forall meal items,
        In (meal, items) (DayPlan.meals plan) ->
        (List.length items <= 2)%nat /\ NoDup (map MealItem.name items))
  /\ DayPlan.meal_split plan = _compute_meal_split profile.
Proof.
  intros Hplan.
  destruct (assemble_day_plan_shape _ _ _ _ _ _ Hplan)
    as (bb & bl & bd & bs & tb & tl & td & ps & sn & _ & Hmeals & _ & Hsnack & Hsplit & _).
  rewrite Hmeals. split; [reflexivity |]. split; [| exact Hsplit].
  assert (Hps : exists cands ts, ps = _pick_items_for_meal cands ts bs).
  { destruct Hsnack as [(_ & -> & _) | (_ & _ & ts & ->)].
    - exists [], 0. reflexivity.
    - eexists _, ts. reflexivity. }
  destruct Hps as (cands & ts & ->).
  intros meal items Hin. cbn [In] in Hin.
  destruct Hin as [[= _ <-] | [[= _ <-] | [[= _ <-] | [[= _ <-] | []]]]];
    (split; [apply pick_items_at_most_two | apply pick_items_distinct_names]).
Qed.

Lemma day_plan_structure_witness :
  exists plan notes,
    assemble_day_plan sample_catalog plain_profile 2008 2000 = Some (plan, notes)
    /\ dict_keys (DayPlan.meals plan) = ["breakfast"; "lunch"; "dinner"; "snacks"]
    /\ (forall meal items,
          In (meal, items) (DayPlan.meals plan) ->
          (List.length items <= 2)%nat /\ NoDup (map MealItem.name items))
    /\ DayPlan.meal_split plan = _compute_meal_split plain_profile.
Proof.
  destruct (assemble_day_plan sample_catalog plain_profile 2008 2000)
    as [[plan notes] |] eqn:Hplan; [| vm_compute in Hplan; discriminate].
  exists plan, notes. split; [reflexivity |].
  exact (day_plan_structure sample_catalog plain_profile 2008 2000 plan notes Hplan).
Defined.

(** X16. The calories and the sodium recorded in the totals of an assembled
    plan are the sums over all items of all its slots. *)
Theorem day_plan_totals_are_sums (all_foods : list FoodItem.t)
    (profile : UserProfile.t) (calories sodium_limit : Z)
    (plan : DayPlan.t) (notes : list string) :
  assemble_day_plan all_foods profile calories sodium_limit = Some (plan, notes) ->
  Totals.calories (DayPlan.totals plan)
  = sum_calories (slot plan "breakfast") + sum_calories (slot plan "lunch")
    + sum_calories (slot plan "dinner") + sum_calories (slot plan "snacks")
  /\ Totals.sodium_mg (DayPlan.totals plan)
     = total_sodium (slot plan "breakfast") + total_sodium (slot plan "lunch")
       + total_sodium (slot plan "dinner") + total_sodium (slot plan "snacks").
Proof.
  intros Hplan.
  destruct (assemble_day_plan_shape _ _ _ _ _ _ Hplan)
    as (bb & bl & bd & bs & tb & tl & td & ps & sn & _ & Hmeals & _ & _ & _ & Htot).
  apply plan_totals_sums in Htot. destruct Htot as [-> ->].
  unfold slot. rewrite Hmeals. split; reflexivity.
Qed.

Lemma day_plan_totals_are_sums_witness :
  exists plan notes,
    assemble_day_plan sample_catalog plain_profile 2008 2000 = Some (plan, notes)
    /\ Totals.calories (DayPlan.totals plan)
       = sum_calories (slot plan "breakfast") + sum_calories (slot plan "lunch")
         + sum_calories (slot plan "dinner") + sum_calories (slot plan "snacks")
    /\ Totals.sodium_mg (DayPlan.totals plan)
       = total_sodium (slot plan "breakfast") + total_sodium (slot plan "lunch")
         + total_sodium (slot plan "dinner") + total_sodium (slot plan "snacks").
Proof.
  destruct (assemble_day_plan sample_catalog plain_profile 2008 2000)
    as [[plan notes] |] eqn:Hplan; [| vm_compute in Hplan; discriminate].
  exists plan, notes. split; [reflexivity |].
  exact (day_plan_totals_are_sums sample_catalog plain_profile 2008 2000 plan notes Hplan).
Defined.

Lemma day_plan_sodium_bound (all_foods : list FoodItem.t)
    (profile : UserProfile.t) (calories sodium_limit : Z)
    (plan : DayPlan.t) (notes : list string) :
  0 <= sodium_limit <= 3000 ->
  assemble_day_plan all_foods profile calories sodium_limit = Some (plan, notes) ->
  Totals.sodium_mg (DayPlan.totals plan) <= sodium_limit.
Proof.
  intros Hr Hplan.
  destruct (assemble_day_plan_shape _ _ _ _ _ _ Hplan)
    as (bb & bl & bd & bs & tb & tl & td & ps & sn & Hbud & Hmeals & _ & Hsnack & _ & Htot).
  apply plan_totals_sums in Htot. destruct Htot as [_ ->].
  destruct (sodium_budgets_fit _ _ _ _ _ _ Hr Hbud) as (Hb & Hl & Hd & Hs & Hsum).
  rewrite Hmeals. unfold meals_sodium. cbn [fold_left snd].
  pose proof (pick_items_within_budget
                (meal_candidates all_foods profile "breakfast") tb bb Hb).
  pose proof (pick_items_within_budget
                (meal_candidates all_foods profile "lunch") tl bl Hl).
  pose proof (pick_items_within_budget
                (meal_candidates all_foods profile "dinner") td bd Hd).
  assert (total_sodium ps <= bs).
  { destruct Hsnack as [(_ & -> & _) | (_ & _ & ts & ->)].
    - exact Hs.
    - now apply pick_items_within_budget. }
  lia.
Qed.

(** X17. For every sodium limit from 0 to 3000 mg, the total sodium of an
    assembled plan does not exceed the limit: each slot stays within its
    share [int(sodium_limit * split[m])], and the four shares add up to at
    most the limit. *)
Theorem day_plan_sodium_within_limit (all_foods : list FoodItem.t)
    (profile : UserProfile.t) (calories sodium_limit : Z)
    (plan : DayPlan.t) (notes : list string) :
  0 <= sodium_limit <= 3000 ->
  assemble_day_plan all_foods profile calories sodium_limit = Some (plan, notes) ->
  Totals.sodium_mg (DayPlan.totals plan) <= sodium_limit.
Proof. apply day_plan_sodium_bound. Qed.

Lemma day_plan_sodium_within_limit_witness :
  exists plan notes,
    assemble_day_plan sample_catalog plain_profile 2008 2000 = Some (plan, notes)
    /\ Totals.sodium_mg (DayPlan.totals plan) <= 2000.
Proof.
  destruct (assemble_day_plan sample_catalog plain_profile 2008 2000)
    as [[plan notes] |] eqn:Hplan; [| vm_compute in Hplan; discriminate].
  exists plan, notes. split; [reflexivity |].
  apply (day_plan_sodium_within_limit sample_catalog plain_profile 2008 2000 plan notes);
    [lia | exact Hplan].
Defined.

Lemma default_sodium_target (profile : UserProfile.t) (calories : Z)
    (targets : Targets.t) :
  NutritionalRequirements.salt_limit_g (UserProfile.nutrition profile) = None ->
  estimate_water_salt_sugar profile calories = Some targets ->
  Targets.sodium_mg_limit targets
  = if smem "hypertension" (conditions_of profile)
       || SpecialDietRules.low_sodium (UserProfile.special profile)
    then 1500 else 2000.
Proof.
  unfold estimate_water_salt_sugar, conditions_of. cbv zeta.
  intros -> H.
  apply bind_Some in H. destruct H as (sodium & Hsod & H).
  apply bind_Some in H. destruct H as (sugar & _ & [= <-]).
  cbn [Targets.sodium_mg_limit].
  destruct (smem "hypertension" _ || SpecialDietRules.low_sodium _);
    vm_compute in Hsod; congruence.
Qed.

(** X18. Without a salt override, the sodium target of
    [estimate_water_salt_sugar] is 1500 mg for hypertension or the
    low_sodium toggle and 2000 mg otherwise; it equals max_sodium_mg of
    [build_constraints] whenever that is set; and the plan assembled for
    this target, as [recommend] does, has a total sodium within it. *)
Theorem sodium_target_is_respected (all_foods : list FoodItem.t)
    (profile : UserProfile.t) (calories : Z) (targets : Targets.t)
    (plan : DayPlan.t) (notes : list string) :
  NutritionalRequirements.salt_limit_g (UserProfile.nutrition profile) = None ->
  estimate_water_salt_sugar profile calories = Some targets ->
  assemble_day_plan all_foods profile calories (Targets.sodium_mg_limit targets)
  = Some (plan, notes) ->
  (Targets.sodium_mg_limit targets = 1500 \/ Targets.sodium_mg_limit targets = 2000)
  /\ (forall m,
        ConstraintSpec.max_sodium_mg (fst (build_constraints profile)) = Some m ->
        Targets.sodium_mg_limit targets = m)
  /\ Totals.sodium_mg (DayPlan.totals plan) <= Targets.sodium_mg_limit targets.
Proof.
  intros Hsalt Htargets Hplan.
  pose proof (default_sodium_target _ _ _ Hsalt Htargets) as Hlimit.
  pose proof (build_constraints_max_sodium profile) as Hmax.
  split; [| split].
  - rewrite Hlimit. destruct (_ || _); auto.
  - intros m Hm. rewrite Hlimit. rewrite Hm in Hmax.
    destruct (_ || _); congruence.
  - apply (day_plan_sodium_bound all_foods profile calories _ plan notes);
      [| exact Hplan].
    rewrite Hlimit. destruct (_ || _); lia.
Qed.

Lemma sodium_target_is_respected_witness :
  exists targets plan notes,
    estimate_water_salt_sugar plain_profile 2008 = Some targets
    /\ assemble_day_plan sample_catalog plain_profile 2008
         (Targets.sodium_mg_limit targets) = Some (plan, notes)
    /\ (Targets.sodium_mg_limit targets = 1500 \/ Targets.sodium_mg_limit targets = 2000)
    /\ (forall m,
          ConstraintSpec.max_sodium_mg (fst (build_constraints plain_profile)) = Some m ->
          Targets.sodium_mg_limit targets = m)
    /\ Totals.sodium_mg (DayPlan.totals plan) <= Targets.sodium_mg_limit targets.
Proof.
  destruct (estimate_water_salt_sugar plain_profile 2008)
    as [targets |] eqn:Htargets; [| vm_compute in Htargets; discriminate].
  destruct (assemble_day_plan sample_catalog plain_profile 2008
              (Targets.sodium_mg_limit targets))
    as [[plan notes] |] eqn:Hplan.
  - exists targets, plan, notes. split; [reflexivity |]. split; [exact Hplan |].
    exact (sodium_target_is_respected sample_catalog plain_profile 2008 targets
             plan notes eq_refl Htargets Hplan).
  - vm_compute in Htargets. injection Htargets as <-.
    vm_compute in Hplan. discriminate.
Defined.

(** X19. The planner notes of [assemble_day_plan] are, in this order, one
    note for each of breakfast, lunch and dinner whose slot is empty, and
    the snack note exactly when no allowed food is tagged "snacks" or
    "snack"; a snack slot left empty by the sodium budget gets no note. *)
Theorem planner_notes_of_plan (all_foods : list FoodItem.t)
    (profile : UserProfile.t) (calories sodium_limit : Z)
    (plan : DayPlan.t) (notes : list string) :
  assemble_day_plan all_foods profile calories sodium_limit = Some (plan, notes) ->
  notes
  = main_note "breakfast" (slot plan "breakfast")
    ++ main_note "lunch" (slot plan "lunch")
    ++ main_note "dinner" (slot plan "dinner")
    ++ snack_note (snack_candidates all_foods profile).
Proof.
  intros Hplan.
  destruct (assemble_day_plan_shape _ _ _ _ _ _ Hplan)
    as (bb & bl & bd & bs & tb & tl & td & ps & sn & _ & Hmeals & Hnotes & Hsnack & _).
  unfold slot. rewrite Hmeals. cbn [dict_get String.eqb Ascii.eqb Bool.eqb].
  rewrite Hnotes. do 3 f_equal.
  destruct Hsnack as [(-> & _ & ->) | (Hne & -> & _)]; [reflexivity |].
  destruct (snack_candidates all_foods profile); [contradiction | reflexivity].
Qed.

Lemma planner_notes_of_plan_witness :
  exists plan notes,
    assemble_day_plan sample_catalog plain_profile 2008 10 = Some (plan, notes)
    /\ notes
       = main_note "breakfast" (slot plan "breakfast")
         ++ main_note "lunch" (slot plan "lunch")
         ++ main_note "dinner" (slot plan "dinner")
         ++ snack_note (snack_candidates sample_catalog plain_profile)
    /\ slot plan "snacks" = []
    /\ List.length notes = 3%nat.
Proof.
  destruct (assemble_day_plan sample_catalog plain_profile 2008 10)
    as [[plan notes] |] eqn:Hplan; [| vm_compute in Hplan; discriminate].
  exists plan, notes. split; [reflexivity |].
  split.
  - exact (planner_notes_of_plan sample_catalog plain_profile 2008 10 plan notes Hplan).
  - vm_compute in Hplan. injection Hplan as <- <-. split; reflexivity.
Defined.

Lemma rotate_day_alternates (day_plan : DayPlan.t) (i j : nat) :
  (forall meal items,
      In (meal, items) (DayPlan.meals day_plan) -> (List.length items <= 2)%nat) ->
  (i mod 2 = j mod 2)%nat ->
  rotate_day day_plan i = rotate_day day_plan j.
Proof.
  intros Hlen Hij. unfold rotate_day. apply map_ext_in.
  intros [meal items] Hin. specialize (Hlen _ _ Hin).
  destruct items as [| x [| y [| z r]]]; cbn [List.length] in *; try lia.
  - reflexivity.
  - rewrite !Nat.mod_1_r. reflexivity.
  - rewrite Hij. reflexivity.
Qed.

(** X20. The weekly plan made from an assembled day plan alternates between
    at most two menus: days whose indices have the same parity have the
    same meals, so Mon, Wed, Fri and Sun are alike and Tue, Thu and Sat are
    alike. *)
Theorem weekly_plan_alternates (all_foods : list FoodItem.t)
    (profile : UserProfile.t) (calories sodium_limit : Z)
    (plan : DayPlan.t) (notes : list string) :
  assemble_day_plan all_foods profile calories sodium_limit = Some (plan, notes) ->
  forall (i j : nat) (day_i day_j : string) (meals_i meals_j : dict (list MealItem.t)),
    generate_weekly_plan plan !! i = Some (day_i, meals_i) ->
    generate_weekly_plan plan !! j = Some (day_j, meals_j) ->
    (i mod 2 = j mod 2)%nat ->
    meals_i = meals_j.
Proof.
  intros Hplan i j day_i day_j meals_i meals_j Hi Hj Hij.
  unfold generate_weekly_plan in Hi, Hj.
  rewrite list_lookup_imap in Hi. rewrite list_lookup_imap in Hj.
  destruct (week_days !! i); [| discriminate].
  destruct (week_days !! j); [| discriminate].
  cbn in Hi, Hj. injection Hi as _ <-. injection Hj as _ <-.
  apply rotate_day_alternates; [| exact Hij].
  intros meal items Hin.
  destruct (assemble_day_plan_shape _ _ _ _ _ _ Hplan)
    as (bb & bl & bd & bs & tb & tl & td & ps & sn & _ & Hmeals & _ & Hsnack & _).
  rewrite Hmeals in Hin. cbn [In] in Hin.
  assert (Hps : (List.length ps <= 2)%nat).
  { destruct Hsnack as [(_ & -> & _) | (_ & _ & ts & ->)];
      [cbn; lia | apply pick_items_at_most_two]. }
  destruct Hin as [[= _ <-] | [[= _ <-] | [[= _ <-] | [[= _ <-] | []]]]];
    first [apply pick_items_at_most_two | exact Hps].
Qed.

Lemma weekly_plan_alternates_witness :
  exists plan notes meals_mon meals_wed,
    assemble_day_plan sample_catalog plain_profile 2008 2000 = Some (plan, notes)
    /\ generate_weekly_plan plan !! 0%nat = Some ("Mon", meals_mon)
    /\ generate_weekly_plan plan !! 2%nat = Some ("Wed", meals_wed)
    /\ meals_mon = meals_wed.
Proof.
  destruct (assemble_day_plan sample_catalog plain_profile 2008 2000)
    as [[plan notes] |] eqn:Hplan; [| vm_compute in Hplan; discriminate].
  exists plan, notes, (rotate_day plan 0), (rotate_day plan 2).
  split; [reflexivity |]. split; [reflexivity |]. split; [reflexivity |].
  exact (weekly_plan_alternates sample_catalog plain_profile 2008 2000 plan notes Hplan
           0%nat 2%nat "Mon" "Wed" _ _ eq_refl eq_refl eq_refl).
Defined.

(** ** Text normalisation *)

Lemma filter_length_le_all {A} (f : A -> bool) (l : list A) :
  (List.length (List.filter f l) <= List.length l)%nat.
Proof.
  induction l as [| x r IH]; [cbn; lia |].
  cbn. destruct (f x); cbn; lia.
Qed.

Lemma lower_ascii_idem (c : ascii) : lower_ascii (lower_ascii c) = lower_ascii c.
Proof. destruct c as [[] [] [] [] [] [] [] []]; reflexivity. Qed.

Lemma is_space_lower_ascii (c : ascii) : is_space (lower_ascii c) = is_space c.
Proof. destruct c as [[] [] [] [] [] [] [] []]; reflexivity. Qed.

Lemma lower_idem (s : string) : lower (lower s) = lower s.
Proof.
  induction s as [| c r IH]; [reflexivity |].
  cbn [lower]. now rewrite lower_ascii_idem, IH.
Qed.

Lemma lstrip_lower (s : string) : lstrip (lower s) = lower (lstrip s).
Proof.
  induction s as [| c r IH]; [reflexivity |].
  cbn [lower lstrip]. rewrite is_space_lower_ascii.
  destruct (is_space c); [exact IH | reflexivity].
Qed.

Lemma rstrip_lower (s : string) : rstrip (lower s) = lower (rstrip s).
Proof.
  induction s as [| c r IH]; [reflexivity |].
  cbn [lower rstrip]. rewrite IH, is_space_lower_ascii.
  destruct (rstrip r); cbn [lower]; [destruct (is_space c) |]; reflexivity.
Qed.

Lemma strip_lower (s : string) : strip (lower s) = lower (strip s).
Proof. unfold strip. now rewrite lstrip_lower, rstrip_lower. Qed.

Lemma rstrip_idem (s : string) : rstrip (rstrip s) = rstrip s.
Proof.
  induction s as [| c r IH]; [reflexivity |].
  cbn [rstrip]. destruct (rstrip r) as [| d r'] eqn:Hr.
  - destruct (is_space c) eqn:Hc; [reflexivity |].
    cbn [rstrip]. now rewrite Hc.
  - cbn [rstrip] in *. rewrite IH. reflexivity.
Qed.

Lemma lstrip_rstrip_lstrip (s : string) : lstrip (rstrip (lstrip s)) = rstrip (lstrip s).
Proof.
  induction s as [| c r IH]; [reflexivity |].
  cbn [lstrip]. destruct (is_space c) eqn:Hc; [exact IH |].
  cbn [rstrip]. destruct (rstrip r); rewrite ?Hc; cbn [lstrip]; now rewrite Hc.
Qed.

Lemma strip_idem (s : string) : strip (strip s) = strip s.
Proof. unfold strip. now rewrite lstrip_rstrip_lstrip, rstrip_idem. Qed.

Lemma normal_form_idem (x : string) : normal_form (normal_form x) = normal_form x.
Proof. unfold normal_form. now rewrite strip_lower, strip_idem, lower_idem. Qed.

Lemma strip_normal_form (x : string) : strip (normal_form x) = normal_form x.
Proof. unfold normal_form. now rewrite strip_lower, strip_idem. Qed.

Lemma lower_normal_form (x : string) : lower (normal_form x) = normal_form x.
Proof. unfold normal_form. now rewrite lower_idem. Qed.

Lemma nonempty_str_lower (s : string) : nonempty_str (lower s) = nonempty_str s.
Proof. now destruct s. Qed.

Lemma normalize_list_normal (xs : list string) :
  Forall (fun y => y <> EmptyString /\ normal_form y = y) (normalize_list xs).
Proof.
  unfold normalize_list. apply Forall_map, Forall_forall.
  intros x Hin. apply list_elem_of_In, filter_In in Hin. destruct Hin as [_ Hx].
  fold (normal_form x). split; [| apply normal_form_idem].
  unfold normal_form. destruct (strip x); [discriminate | discriminate].
Qed.

(** X21. [normalize_list] returns only non-empty strings that are stripped
    and lowercased already; it keeps the order, never lengthens the list,
    and is idempotent: lowering the result again, as [build_constraints]
    and [filter_foods] do, changes nothing. *)
Theorem normalize_list_idempotent (xs : list string) :
  Forall (fun y => y <> EmptyString /\ strip y = y /\ lower y = y) (normalize_list xs)
  /\ (List.length (normalize_list xs) <= List.length xs)%nat
  /\ normalize_list (normalize_list xs) = normalize_list xs
  /\ map lower (normalize_list xs) = normalize_list xs.
Proof.
  pose proof (normalize_list_normal xs) as Hn.
  split; [| split; [| split]].
  - eapply Forall_impl; [exact Hn |]. cbn. intros y [Hy Hnf].
    split; [exact Hy |]. rewrite <- Hnf.
    split; [apply strip_normal_form | apply lower_normal_form].
  - unfold normalize_list. rewrite length_map. apply filter_length_le_all.
  - revert Hn. generalize (normalize_list xs). intros l Hl.
    induction Hl as [| y l [Hy Hnf] _ IH]; [reflexivity |].
    unfold normalize_list in *. cbn [List.filter].
    assert (Hs : strip y = y) by (rewrite <- Hnf; apply strip_normal_form).
    rewrite Hs. destruct y; [contradiction |]. cbn [nonempty_str map].
    rewrite IH. f_equal. exact Hnf.
  - revert Hn. generalize (normalize_list xs). intros l Hl.
    induction Hl as [| y l [Hy Hnf] _ IH]; [reflexivity |].
    cbn [map]. rewrite IH. f_equal. rewrite <- Hnf. apply lower_normal_form.
Qed.

Ltac gender_case :=
  cbn; split; [reflexivity |];
  split;
    (split;
     [ intros H; first [discriminate H | auto]
     | intros [H | H]; first [discriminate H | contradiction | reflexivity] ]).

(** X22. [normalize_gender] returns "male", "female" or "other", whatever
    the case and the surrounding white space of its argument; an empty or
    unknown value gives "other"; and it is idempotent. *)
Theorem normalize_gender_range (g : string) :
  In (normalize_gender g) ["male"; "female"; "other"]
  /\ normalize_gender (normal_form g) = normalize_gender g
  /\ normalize_gender (normalize_gender g) = normalize_gender g
  /\ (normalize_gender g = "male" <-> normal_form g = "m" \/ normal_form g = "male")
  /\ (normalize_gender g = "female" <-> normal_form g = "f" \/ normal_form g = "female").
Proof.
  assert (Hnf : normalize_gender (normal_form g) = normalize_gender g).
  { unfold normalize_gender. cbv zeta. fold (normal_form (normal_form g)).
    now rewrite normal_form_idem. }
  split; [| split; [exact Hnf | ]].
  - unfold normalize_gender. cbv zeta.
    destruct (mem _ ["m"; "male"]); [now left |].
    destruct (mem _ ["f"; "female"]); [right; now left | right; right; now left].
  - clear Hnf.
    assert (Hg : normalize_gender g
                 = if mem (normal_form g) ["m"; "male"] then "male"
                   else if mem (normal_form g) ["f"; "female"] then "female"
                        else "other") by reflexivity.
    rewrite !Hg. clear Hg.
    unfold mem. cbn [existsb]. rewrite !orb_false_r.
    destruct (String.eqb_spec (normal_form g) "m") as [-> | H1];
      [gender_case |].
    destruct (String.eqb_spec (normal_form g) "male") as [-> | H2];
      [gender_case |].
    destruct (String.eqb_spec (normal_form g) "f") as [-> | H3];
      [gender_case |].
    destruct (String.eqb_spec (normal_form g) "female") as [-> | H4];
      gender_case.
Qed.

(** ** Lifestyle factors and nutrition targets *)

(** X23. [_activity_factor] and [_stress_factor] ignore the case and the
    surrounding white space of the level; they always return a value of
    their table, and a level that is not a key of the table counts as
    "sedentary" (1.2) and as "moderate" (1.03). *)
Theorem lifestyle_factors_fallback (level : string) :
  _activity_factor (normal_form level) = _activity_factor level
  /\ _stress_factor (normal_form level) = _stress_factor level
  /\ In (_activity_factor level) (dict_values ACTIVITY_FACTORS)
  /\ In (_stress_factor level) (dict_values STRESS_MULTIPLIER)
  /\ (dict_get ACTIVITY_FACTORS (normal_form level) = None ->
      _activity_factor level = Float.lit 12 10)
  /\ (dict_get STRESS_MULTIPLIER (normal_form level) = None ->
      _stress_factor level = Float.lit 103 100).
Proof.
  assert (Ha : forall l,
             _activity_factor l
             = match dict_get ACTIVITY_FACTORS (normal_form l) with
               | Some v => v
               | None => Float.lit 12 10
               end).
  { intros l. unfold _activity_factor. cbv zeta. fold (normal_form (str_or l "sedentary")).
    destruct l as [| c r]; [reflexivity |]. reflexivity. }
  assert (Hs : forall l,
             _stress_factor l
             = match dict_get STRESS_MULTIPLIER (normal_form l) with
               | Some v => v
               | None => Float.lit 103 100
               end).
  { intros l. unfold _stress_factor. cbv zeta. fold (normal_form (str_or l "moderate")).
    destruct l as [| c r]; [reflexivity |]. reflexivity. }
  rewrite !Ha, !Hs, !normal_form_idem.
  split; [reflexivity |]. split; [reflexivity |].
  split; [| split; [| split; [now intros -> | now intros ->]]].
  - unfold ACTIVITY_FACTORS, dict_values. cbn [dict_get map snd].
    repeat (destruct (String.eqb _ _); [cbn; tauto |]). cbn; tauto.
  - unfold STRESS_MULTIPLIER, dict_values. cbn [dict_get map snd].
    repeat (destruct (String.eqb _ _); [cbn; tauto |]). cbn; tauto.
Qed.

(** X24. Without salt and sugar overrides [estimate_water_salt_sugar]
    always returns a result: the sodium limit is 1500 mg for hypertension
    or the low_sodium toggle and 2000 mg otherwise; the sugar limit is 25 g
    for diabetes or the weight_loss toggle, otherwise 36 g for the gender
    "male" and 30 g for any other gender. The calories passed in play no
    part. *)
Theorem default_sodium_and_sugar_targets (profile : UserProfile.t) (calories : Z) :
  NutritionalRequirements.salt_limit_g (UserProfile.nutrition profile) = None ->
  NutritionalRequirements.sugar_limit_g (UserProfile.nutrition profile) = None ->
  exists targets,
    estimate_water_salt_sugar profile calories = Some targets
    /\ Targets.sodium_mg_limit targets
       = (if smem "hypertension" (conditions_of profile)
             || SpecialDietRules.low_sodium (UserProfile.special profile)
          then 1500 else 2000)
    /\ Targets.sugar_g_limit targets
       = (if smem "diabetes" (conditions_of profile)
             || SpecialDietRules.weight_loss (UserProfile.special profile)
          then 25
          else if String.eqb (PersonalDetails.gender (UserProfile.personal profile)) "male"
               then 36 else 30)
    /\ forall calories',
         estimate_water_salt_sugar profile calories' = Some targets.
Proof.
  intros Hsalt Hsugar.
  unfold estimate_water_salt_sugar, conditions_of. cbv zeta.
  rewrite Hsalt, Hsugar.
  destruct (smem "hypertension" _ || SpecialDietRules.low_sodium _);
    destruct (smem "diabetes" _ || SpecialDietRules.weight_loss _);
    try destruct (String.eqb _ "male");
    (eexists; split; [reflexivity |]; repeat split).
Qed.

Lemma default_sodium_and_sugar_targets_witness :
  exists targets,
    estimate_water_salt_sugar plain_profile 2008 = Some targets
    /\ Targets.sodium_mg_limit targets = 2000
    /\ Targets.sugar_g_limit targets = 36.
Proof.
  destruct (default_sodium_and_sugar_targets plain_profile 2008 eq_refl eq_refl)
    as (targets & Ht & Hsod & Hsug & _).
  exists targets. split; [exact Ht |]. split; [exact Hsod | exact Hsug].
Defined.

(** ** Macro percentages *)

(** X25. Whatever the conditions and toggles, the macro percentages of
    [compute_macros] keep protein at or above 0.18 and carbohydrates
    between 0.40 and 0.50; with heart disease or a cholesterol of 200 or
    more, fats do not exceed 0.30. *)
Theorem macro_percentage_bounds (profile : UserProfile.t) :
  let '(p_pct, c_pct, f_pct) := macro_percentages profile in
  Float.leb (Float.lit 18 100) p_pct = true
  /\ Float.leb (Float.lit 40 100) c_pct = true
  /\ Float.leb c_pct (Float.lit 50 100) = true
  /\ (if smem "heart disease" (conditions_of profile) || high_cholesterol profile
      then Float.leb f_pct (Float.lit 30 100) else true) = true.
Proof.
  unfold macro_percentages, conditions_of. cbv zeta.
  destruct (smem "diabetes" _ || SpecialDietRules.low_gi _);
    destruct (SpecialDietRules.high_protein _);
    destruct (SpecialDietRules.weight_loss _);
    destruct (smem "kidney disease" _ || SpecialDietRules.renal _);
    destruct (smem "heart disease" _ || high_cholesterol _);
    vm_compute; auto.
Qed.

(** X26. For kidney disease or the renal toggle, protein is capped at
    exactly 0.18 and carbohydrates are at least 0.47, unless the heart
    adjustment also applies: it recomputes protein as the remainder, which
    is then above 0.18. *)
Theorem renal_protein_cap (profile : UserProfile.t) :
  smem "kidney disease" (conditions_of profile)
  || SpecialDietRules.renal (UserProfile.special profile) = true ->
  let '(p_pct, c_pct, f_pct) := macro_percentages profile in
  Float.leb (Float.lit 47 100) c_pct = true
  /\ if smem "heart disease" (conditions_of profile) || high_cholesterol profile
     then Float.ltb (Float.lit 18 100) p_pct = true
     else p_pct = Float.lit 18 100.
Proof.
  unfold macro_percentages, conditions_of. cbv zeta. intros ->.
  destruct (smem "diabetes" _ || SpecialDietRules.low_gi _);
    destruct (SpecialDietRules.high_protein _);
    destruct (SpecialDietRules.weight_loss _);
    destruct (smem "heart disease" _ || high_cholesterol _);
    vm_compute; auto.
Qed.

Lemma renal_protein_cap_witness :
  fst (fst (macro_percentages renal_profile)) = Float.lit 18 100
  /\ Float.ltb (Float.lit 18 100) (fst (fst (macro_percentages renal_heart_profile))) = true.
Proof.
  pose proof (renal_protein_cap renal_profile eq_refl) as H1.
  pose proof (renal_protein_cap renal_heart_profile eq_refl) as H2.
  destruct (macro_percentages renal_profile) as [[p1 c1] f1] eqn:E1.
  destruct (macro_percentages renal_heart_profile) as [[p2 c2] f2] eqn:E2.
  split; [exact (proj2 H1) | exact (proj2 H2)].
Defined.

(** ** Helpers *)

Lemma fold_lists_concat {S A} (step : S -> A -> S) (lists : list (list A)) (st : S) :
  fold_left (fun st lst => fold_left step lst st) lists st
  = fold_left step (List.concat lists) st.
Proof.
  revert st. induction lists as [| l r IH]; intros st; [reflexivity |].
  cbn [fold_left List.concat]. rewrite fold_left_app. apply IH.
Qed.

(** The loop of [merge_unique], from a state whose [seen] holds the keys of
    [out]. *)
Lemma merge_items_spec (key : string -> string) (l : list string)
    (seen : gset string) (out : list string) :
  (forall k, k ∈ seen <-> k ∈ map key out) ->
  NoDup (map key out) ->
  let step := fun (st : gset string * list string) (x : string) =>
                let '(seen, out) := st in
                if smem (key x) seen then (seen, out)
                else (seen ∪ {[ key x ]}, out ++ [x]) in
  exists seen' added,
    fold_left step l (seen, out) = (seen', out ++ added)
    /\ (forall k, k ∈ seen' <-> k ∈ map key (out ++ added))
    /\ NoDup (map key (out ++ added))
    /\ sublist added l
    /\ (forall x, x ∈ l -> key x ∈ map key (out ++ added))
    /\ (NoDup (map key (out ++ l)) -> added = l).
Proof.
  cbv zeta. revert seen out.
  induction l as [| x r IH]; intros seen out Hseen Hnd.
  - exists seen, []. rewrite app_nil_r. cbn [fold_left].
    repeat split; auto; try apply Hseen.
    intros x Hx. apply elem_of_nil in Hx. destruct Hx.
  - cbn [fold_left]. destruct (smem (key x) seen) eqn:Hmem.
    + apply smem_spec in Hmem.
      destruct (IH seen out Hseen Hnd) as (seen' & added & Hf & Hs & Hn & Hsub & Hcov & Hall).
      exists seen', added. split; [exact Hf |]. split; [exact Hs |].
      split; [exact Hn |]. split; [now apply sublist_cons |].
      split.
      * intros y Hy. apply elem_of_cons in Hy. destruct Hy as [-> | Hy]; [| now apply Hcov].
        rewrite map_app, elem_of_app. left. now apply Hseen.
      * intros Hnd'. exfalso. rewrite map_app in Hnd'.
        apply NoDup_app in Hnd'. destruct Hnd' as (_ & Hdis & _).
        apply (Hdis (key x)); [now apply Hseen | cbn; apply list_elem_of_here].
    + apply smem_false in Hmem.
      assert (Hseen1 : forall k, k ∈ seen ∪ {[ key x ]} <-> k ∈ map key (out ++ [x])).
      { intros k. rewrite elem_of_union, elem_of_singleton, map_app, elem_of_app, Hseen.
        cbn. rewrite list_elem_of_singleton. reflexivity. }
      assert (Hnd1 : NoDup (map key (out ++ [x]))).
      { rewrite map_app. apply NoDup_app. split; [exact Hnd |].
        split; [| apply NoDup_singleton].
        intros k Hk Hk'. cbn in Hk'. apply list_elem_of_singleton in Hk'. subst k.
        apply Hmem. now apply Hseen. }
      destruct (IH _ _ Hseen1 Hnd1) as (seen' & added & Hf & Hs & Hn & Hsub & Hcov & Hall).
      exists seen', (x :: added).
      rewrite <- app_assoc in Hf, Hs, Hn, Hcov. cbn [app] in Hf, Hs, Hn, Hcov.
      split; [exact Hf |]. split; [exact Hs |]. split; [exact Hn |].
      split; [now apply sublist_skip |].
      split.
      * intros y Hy. apply elem_of_cons in Hy. destruct Hy as [-> | Hy]; [| now apply Hcov].
        rewrite map_app, elem_of_app. right. cbn. apply list_elem_of_here.
      * intros Hnd'. f_equal. apply Hall.
        rewrite <- app_assoc. exact Hnd'.
Qed.

Lemma merge_unique_concat (lists : list (list string)) :
  merge_unique lists = snd (fold_left merge_item (List.concat lists) (∅, [])).
Proof. unfold merge_unique. cbv zeta. now rewrite fold_lists_concat. Qed.

Lemma merge_unique_spec (lists : list (list string)) :
  NoDup (map normal_form (merge_unique lists))
  /\ sublist (merge_unique lists) (List.concat lists)
  /\ (forall x, x ∈ List.concat lists -> normal_form x ∈ map normal_form (merge_unique lists))
  /\ (NoDup (map normal_form (List.concat lists)) -> merge_unique lists = List.concat lists).
Proof.
  rewrite merge_unique_concat.
  destruct (merge_items_spec normal_form (List.concat lists) ∅ [])
    as (seen' & added & Hf & _ & Hn & Hsub & Hcov & Hall).
  - intros k. cbn. rewrite elem_of_empty. split; [intros [] |].
    intros H. now apply elem_of_nil in H.
  - apply NoDup_nil_2.
  - change (fold_left merge_item (List.concat lists) (∅, []) = (seen', added)) in Hf.
    rewrite Hf. cbn [snd app] in *. auto.
Qed.

(** X27. [merge_unique] returns a subsequence of the concatenated lists in
    which no two items have the same stripped, lowercased key, and every
    item of the input has its key represented: the first occurrence of
    each key is kept. *)
Theorem merge_unique_keeps_first (lists : list (list string)) :
  NoDup (map normal_form (merge_unique lists))
  /\ sublist (merge_unique lists) (List.concat lists)
  /\ (forall x, x ∈ List.concat lists ->
        normal_form x ∈ map normal_form (merge_unique lists)).
Proof.
  destruct (merge_unique_spec lists) as (H1 & H2 & H3 & _). auto.
Qed.

(** X28. [merge_unique] depends only on the concatenation of its
    arguments, and it is idempotent: merging its own result again returns
    the result unchanged. *)
Theorem merge_unique_idempotent (lists : list (list string)) :
  merge_unique lists = merge_unique [List.concat lists]
  /\ merge_unique [merge_unique lists] = merge_unique lists.
Proof.
  split.
  - rewrite !merge_unique_concat. cbn [List.concat]. now rewrite app_nil_r.
  - destruct (merge_unique_spec lists) as (Hnd & _).
    destruct (merge_unique_spec [merge_unique lists]) as (_ & _ & _ & Hall).
    cbn [List.concat] in Hall. rewrite app_nil_r in Hall. now apply Hall.
Qed.

(** ** Comparisons of doubles and [clamp] *)

Lemma SFcompare_refl (x : float) : x <> S754_nan -> SFcompare x x = Some Eq.
Proof.
  destruct x as [[] | [] | | [] m e]; intros Hx; try reflexivity; try contradiction;
    cbn; rewrite Z.compare_refl, Pos.compare_cont_refl; reflexivity.
Qed.

Lemma leb_refl (x : float) : x <> S754_nan -> Float.leb x x = true.
Proof.
  intros Hx. unfold Float.leb, SFleb. now rewrite SFcompare_refl.
Qed.

Lemma ltb_leb (x y : float) : Float.ltb x y = true -> Float.leb x y = true.
Proof.
  unfold Float.ltb, Float.leb, SFltb, SFleb.
  destruct (SFcompare x y) as [[] |]; congruence.
Qed.

Lemma leb_not_nan (x y : float) :
  Float.leb x y = true -> x <> S754_nan /\ y <> S754_nan.
Proof.
  unfold Float.leb, SFleb. intros H.
  split; intros ->; [| destruct x]; discriminate.
Qed.

(** X29. For bounds with [low <= high], [clamp] returns a value between
    [low] and [high] for every [val], a NaN included; it returns [val]
    itself when [low < val < high]. *)
Theorem clamp_within_bounds (val low high : float) :
  Float.leb low high = true ->
  Float.leb low (clamp val low high) = true
  /\ Float.leb (clamp val low high) high = true
  /\ (Float.ltb low val && Float.ltb val high = true -> clamp val low high = val).
Proof.
  intros Hle. destruct (leb_not_nan _ _ Hle) as [Hlow Hhigh].
  unfold clamp, Float.max, Float.min.
  destruct (Float.ltb val high) eqn:Hvh.
  - destruct (Float.ltb low val) eqn:Hlv.
    + split; [now apply ltb_leb |]. split; [now apply ltb_leb | reflexivity].
    + split; [now apply leb_refl |]. split; [exact Hle |].
      intros H. discriminate H.
  - rewrite andb_false_r.
    destruct (Float.ltb low high) eqn:Hlh.
    + split; [exact Hle |]. split; [now apply leb_refl | intros H; discriminate H].
    + split; [now apply leb_refl |]. split; [exact Hle | intros H; discriminate H].
Qed.

Lemma clamp_within_bounds_witness :
  Float.leb (Float.of_Z 2) (clamp S754_nan (Float.of_Z 2) (Float.of_Z 4)) = true
  /\ Float.leb (clamp S754_nan (Float.of_Z 2) (Float.of_Z 4)) (Float.of_Z 4) = true
  /\ clamp (Float.of_Z 3) (Float.of_Z 2) (Float.of_Z 4) = Float.of_Z 3.
Proof.
  destruct (clamp_within_bounds S754_nan (Float.of_Z 2) (Float.of_Z 4) eq_refl)
    as (H1 & H2 & _).
  destruct (clamp_within_bounds (Float.of_Z 3) (Float.of_Z 2) (Float.of_Z 4) eq_refl)
    as (_ & _ & H3).
  split; [exact H1 |]. split; [exact H2 | exact (H3 eq_refl)].
Defined.

(** ** The avoid list *)

Lemma dedupe_items_distinct (l : list string) :
  NoDup (map lower l) -> snd (fold_left dedupe_item l (∅, [])) = l.
Proof.
  intros Hnd.
  destruct (merge_items_spec lower l ∅ [])
    as (seen' & added & Hf & _ & _ & _ & _ & Hall).
  - intros k. cbn. rewrite elem_of_empty. split; [intros [] |].
    intros H. now apply elem_of_nil in H.
  - apply NoDup_nil_2.
  - change (fold_left dedupe_item l (∅, []) = (seen', added)) in Hf.
    rewrite Hf. cbn [snd]. now apply Hall.
Qed.

Lemma dedupe_items_NoDup (l : list string) :
  NoDup (map lower (snd (fold_left dedupe_item l (∅, [])))).
Proof.
  destruct (merge_items_spec lower l ∅ [])
    as (seen' & added & Hf & _ & Hn & _).
  - intros k. cbn. rewrite elem_of_empty. split; [intros [] |].
    intros H. now apply elem_of_nil in H.
  - apply NoDup_nil_2.
  - change (fold_left dedupe_item l (∅, []) = (seen', added)) in Hf.
    rewrite Hf. exact Hn.
Qed.

Lemma if_app {A} (c : bool) (l g : list A) :
  (if c then l ++ g else l) = l ++ (if c then g else []).
Proof. destruct c; [reflexivity | now rewrite app_nil_r]. Qed.

Lemma length_if {A} (c : bool) (g : list A) :
  List.length (if c then g else []) = if c then List.length g else 0%nat.
Proof. now destruct c. Qed.

Lemma all_avoid_names_distinct : NoDup (map lower all_avoid_names).
Proof.
  assert (H : bool_decide (NoDup (map lower all_avoid_names)) = true)
    by (vm_compute; reflexivity).
  exact (bool_decide_eq_true_1 _ H).
Qed.

(** X30. [_foods_to_avoid] never lists a name twice, and its closing
    de-duplication never removes anything: the list holds 5 names for
    diabetes or low_gi, 5 for hypertension or low_sodium, 3 for heart
    disease, 4 for kidney disease or renal, 3 for gastric or gastric
    issues, 3 for gluten_free and 3 for lactose_free, and is empty when
    none of these applies. *)
Theorem foods_to_avoid_groups (profile : UserProfile.t) :
  let cs := conditions_of profile in
  let special := UserProfile.special profile in
  let count (b : bool) (n : nat) : nat := if b then n else 0%nat in
  NoDup (map lower (_foods_to_avoid profile))
  /\ List.length (_foods_to_avoid profile)
     = (count (smem "diabetes" cs || SpecialDietRules.low_gi special) 5
        + count (smem "hypertension" cs || SpecialDietRules.low_sodium special) 5
        + count (smem "heart disease" cs) 3
        + count (smem "kidney disease" cs || SpecialDietRules.renal special) 4
        + count (smem "gastric" cs || smem "gastric issues" cs) 3
        + count (SpecialDietRules.gluten_free special) 3
        + count (SpecialDietRules.lactose_free special) 3)%nat.
Proof.
  cbv zeta. split; [apply dedupe_items_NoDup |].
  unfold _foods_to_avoid, conditions_of. cbv zeta.
  rewrite !if_app. cbn [app].
  rewrite dedupe_items_distinct.
  - rewrite !length_app. repeat rewrite length_if. cbn [List.length]. lia.
  - eapply sublist_NoDup; [exact all_avoid_names_distinct |].
    unfold all_avoid_names. rewrite <- !app_assoc, !map_app.
    repeat (apply sublist_app;
            [match goal with
             | |- sublist (map _ (if ?c then _ else _)) _ =>
                 destruct c; [reflexivity | apply sublist_nil_l]
             end |]).
    match goal with
    | |- sublist (map _ (if ?c then _ else _)) _ =>
        destruct c; [reflexivity | apply sublist_nil_l]
    end.
Qed.
